(** * mimoCoRB: the buffer controller of [run_daq.py] and the histogram
      accumulator of [mimocorb/histogram_buffer.py]

    A shallow embedding of the Python sources.  The controller is a sequence
    of effects on a handful of objects (the [buffer_control] instance, the
    ring buffers, the [multiprocessing.Process] objects, [sys.path]); they are
    threaded through a state-and-exception monad whose state carries an
    append-only log of the externally visible actions (files copied, endpoints
    allocated, processes created, started and joined, buffers paused and shut
    down).  YAML documents are values of [PyVal]; Python dictionaries are
    association lists kept in insertion order. *)

From Stdlib Require Import ZArith QArith Ascii.
From stdpp Require Import base tactics option list strings pretty.

Close Scope Q_scope.
Set Warnings "-register-all".
Local Open Scope Z_scope.

(** ** Python strings and POSIX paths *)

Module PyStr.

Definition sep : ascii := "/"%char.

Definition is_sep (a : ascii) : bool := bool_decide (a = sep).

Fixpoint take (n : nat) (s : string) : string :=
  match n, s with
  | S n', String a s' => String a (take n' s')
  | _, _ => ""
  end.

(** [s[:k]]: a negative bound counts from the end. *)
Definition slice_to (s : string) (k : Z) : string :=
  if bool_decide (0 <= k) then take (Z.to_nat k) s
  else take (Z.to_nat (Z.of_nat (String.length s) + k)) s.

(** [s.find(sub)] as a natural number, when [sub] occurs. *)
Fixpoint index_of (sub s : string) : option nat :=
  if String.prefix sub s then Some 0%nat
  else match s with
       | "" => None
       | String _ s' => S <$> index_of sub s'
       end.

(** [s.find(sub)]: the lowest index, or [-1]. *)
Definition find (s sub : string) : Z :=
  match index_of sub s with
  | Some i => Z.of_nat i
  | None => -1
  end.

(** [s.rfind(c)] for a one-character [c], when it occurs. *)
Fixpoint rindex (c : ascii) (s : string) : option nat :=
  match s with
  | "" => None
  | String a s' =>
      match rindex c s' with
      | Some i => Some (S i)
      | None => if bool_decide (a = c) then Some 0%nat else None
      end
  end.

Fixpoint repeat (a : ascii) (n : nat) : string :=
  match n with
  | O => ""
  | S n' => String a (repeat a n')
  end.

(** [str(n)] for a non-negative integer. *)
Definition str (n : nat) : string := pretty n.

(** ["{:0wd}".format(n)] for a non-negative integer: zero fill on the left
    up to width [w]. *)
Definition format_0d (w n : nat) : string :=
  repeat "0" (w - String.length (str n)) +:+ str n.

(** [s.removesuffix(suf)] *)
Fixpoint removesuffix (s suf : string) : string :=
  if String.eqb s suf then (if String.eqb suf "" then s else "")
  else match s with
       | "" => ""
       | String a s' => String a (removesuffix s' suf)
       end.

(** [(p[:i], p[i:])] with [i = p.rfind('/') + 1]. *)
Fixpoint split_last_sep (p : string) : string * string :=
  match p with
  | "" => ("", "")
  | String a p' =>
      let '(h, t) := split_last_sep p' in
      if negb (String.eqb h "") then (String a h, t)
      else if is_sep a then (String a "", t)
      else ("", String a t)
  end.

Fixpoint all_sep (s : string) : bool :=
  match s with
  | "" => true
  | String a s' => is_sep a && all_sep s'
  end.

(** [s.rstrip('/')] *)
Fixpoint rstrip_sep (s : string) : string :=
  match s with
  | "" => ""
  | String a s' =>
      let r := rstrip_sep s' in
      if is_sep a && String.eqb r "" then "" else String a r
  end.

(** [posixpath.dirname] *)
Definition dirname (p : string) : string :=
  let head := (split_last_sep p).1 in
  if negb (String.eqb head "") && negb (all_sep head)
  then rstrip_sep head else head.

(** [posixpath.basename] *)
Definition basename (p : string) : string := (split_last_sep p).2.

(** The components of a path separated by ['/'], the last one first. *)
Fixpoint rev_components (cur : string) (acc : list string) (p : string)
  : list string :=
  match p with
  | "" => String.rev cur :: acc
  | String a p' =>
      if is_sep a then rev_components "" (String.rev cur :: acc) p'
      else rev_components (String a cur) acc p'
  end.

(** [pathlib.PurePosixPath(p).name]: the last component that is neither
    empty nor ["."]; the empty string when there is none. *)
Definition path_name (p : string) : string :=
  match filter (λ c, c ≠ "" ∧ c ≠ ".") (rev_components "" [] p) with
  | c :: _ => c
  | [] => ""
  end.

(** [pathlib.PurePosixPath(p).stem] *)
Definition path_stem (p : string) : string :=
  let name := path_name p in
  match rindex "." name with
  | Some i =>
      if bool_decide (0 < i < String.length name - 1)%nat
      then take i name else name
  | None => name
  end.

End PyStr.

(** ** Python values (what [yaml.load] returns) *)

Inductive PyVal : Type :=
| VNone
| VBool (b : bool)
| VInt (z : Z)
| VFloat (q : Q)
| VStr (s : string)
| VList (l : list PyVal)
| VDict (d : list (string * PyVal)).

(** Exceptions of the interpreter and of the libraries used. *)
Inductive Exn : Type :=
| KeyError (key : PyVal)
| IndexError
| TypeError
| ValueError
| NameError (name : string)
| UnboundLocalError (name : string)
| AttributeError (name : string)
| AssertionError (msg : string)
| RuntimeError (msg : string)
| FileNotFoundError (msg : string)
| ImportError (name : string)
| OSError (path : string)
| ZeroDivisionError
| OverflowError
| YAMLError.

Definition is_KeyError (e : Exn) : bool :=
  match e with KeyError _ => true | _ => false end.

Definition is_KeyError_or_TypeError (e : Exn) : bool :=
  match e with KeyError _ | TypeError => true | _ => false end.

(** *** Dictionaries: association lists in insertion order *)

Fixpoint dict_get {V} (k : string) (d : list (string * V)) : option V :=
  match d with
  | [] => None
  | (k', v) :: d' => if String.eqb k' k then Some v else dict_get k d'
  end.

(** [d[k] = v]: an existing key keeps its position, a new key goes last. *)
Fixpoint dict_set {V} (k : string) (v : V) (d : list (string * V))
  : list (string * V) :=
  match d with
  | [] => [(k, v)]
  | (k', v') :: d' =>
      if String.eqb k' k then (k, v) :: d' else (k', v') :: dict_set k v d'
  end.

Definition dict_keys {V} (d : list (string * V)) : list string := d.*1.

(** [len(v)] *)
Definition py_len (v : PyVal) : Exn + nat :=
  match v with
  | VList l => inr (length l)
  | VDict d => inr (length d)
  | VStr s => inr (String.length s)
  | _ => inl TypeError
  end.

(** [l[i]] on a list, with Python's negative indices. *)
Definition list_index {A} (l : list A) (i : Z) : option A :=
  if bool_decide (0 <= i) then l !! Z.to_nat i
  else if bool_decide (- Z.of_nat (length l) <= i)
       then l !! Z.to_nat (Z.of_nat (length l) + i)
       else None.

Definition char_at (s : string) (i : Z) : option string :=
  (λ a, String a "") <$> list_index (String.list_ascii_of_string s) i.

(** [v[k]] *)
Definition py_getitem (v k : PyVal) : Exn + PyVal :=
  match v with
  | VDict d =>
      match k with
      | VStr s => match dict_get s d with
                  | Some x => inr x
                  | None => inl (KeyError k)
                  end
      | VList _ | VDict _ => inl TypeError
      | _ => inl (KeyError k)
      end
  | VList l =>
      match k with
      | VInt i => match list_index l i with
                  | Some x => inr x
                  | None => inl IndexError
                  end
      | VBool b => match list_index l (if b then 1 else 0) with
                   | Some x => inr x
                   | None => inl IndexError
                   end
      | _ => inl TypeError
      end
  | VStr s =>
      match k with
      | VInt i => match char_at s i with
                  | Some c => inr (VStr c)
                  | None => inl IndexError
                  end
      | VBool b => match char_at s (if b then 1 else 0) with
                   | Some c => inr (VStr c)
                   | None => inl IndexError
                   end
      | _ => inl TypeError
      end
  | _ => inl TypeError
  end.

Definition py_eq_str (v : PyVal) (s : string) : bool :=
  match v with VStr t => String.eqb t s | _ => false end.

(** ['s' in v] for a string literal ['s'] *)
Definition py_contains_str (v : PyVal) (s : string) : Exn + bool :=
  match v with
  | VDict d => inr (bool_decide (is_Some (dict_get s d)))
  | VList l => inr (existsb (λ x, py_eq_str x s) l)
  | VStr t => inr (bool_decide (is_Some (PyStr.index_of s t)))
  | _ => inl TypeError
  end.

(** [dict(v)]: a fresh dictionary filled item by item from a mapping or from
    a sequence of pairs.  Keys are strings in this model; a pair whose key is
    not a string is rejected here. *)
Fixpoint dict_of_items (items : list (string * PyVal))
  (acc : list (string * PyVal)) : list (string * PyVal) :=
  match items with
  | [] => acc
  | (k, v) :: items' => dict_of_items items' (dict_set k v acc)
  end.

Fixpoint items_of_pairs (l : list PyVal) : Exn + list (string * PyVal) :=
  match l with
  | [] => inr []
  | VList [VStr k; v] :: l' =>
      match items_of_pairs l' with
      | inr r => inr ((k, v) :: r)
      | inl e => inl e
      end
  | VList [_; _] :: _ => inl TypeError
  | VList _ :: _ => inl ValueError
  | _ :: _ => inl TypeError
  end.

Definition py_dict (v : PyVal) : Exn + list (string * PyVal) :=
  match v with
  | VDict d => inr (dict_of_items d [])
  | VList l =>
      match items_of_pairs l with
      | inr items => inr (dict_of_items items [])
      | inl e => inl e
      end
  | _ => inl TypeError
  end.

(** [v != 0] *)
Definition py_ne_zero (v : PyVal) : bool :=
  match v with
  | VInt z => negb (z =? 0)
  | VFloat q => negb (Qeq_bool q 0)
  | VBool b => b
  | _ => true
  end.

(** The number a value stands for in arithmetic with a float. *)
Definition py_number (v : PyVal) : Exn + Q :=
  match v with
  | VInt z => inr (inject_Z z)
  | VFloat q => inr q
  | VBool b => inr (inject_Z (if b then 1 else 0))
  | _ => inl TypeError
  end.

(** ** Objects the controller works with *)

(** The result of [numpy.dtype(...)]. *)
Record NpDtype : Type := { dtype_name : string }.

(** [rb_datatype]: one dtype, or the list of [(field, dtype)] tuples. *)
Inductive RbDatatype : Type :=
| DtScalar (d : NpDtype)
| DtFields (fields : list (PyVal * NpDtype)).

Inductive EndpointKind : Type := Reader | Writer | Observer.

(** What [new_reader_group()], [new_writer()] and [new_observer()] hand out:
    the buffer it belongs to and, per buffer and kind, a running number (the
    reader group for a reader). *)
Record Endpoint : Type := {
  ep_kind : EndpointKind;
  ep_buffer : string;
  ep_index : nat
}.

(** Modelled from the spec: [mimocorb.mimo_buffer.NewBuffer], whose source is
    not part of the files at hand.  Of the ring buffer only what the
    controller touches is kept: the constructor arguments, how many reader
    groups, writers and observers were handed out, and the pause and shutdown
    flags. *)
Record RingBuffer : Type := {
  rb_number_of_slots : PyVal;
  rb_values_per_slot : PyVal;
  rb_datatype : RbDatatype;
  rb_groups : nat;
  rb_writers : nat;
  rb_observers : nat;
  rb_paused : bool;
  rb_shutdown : bool
}.

Definition NewBuffer (num_slots num_ch : PyVal) (dt : RbDatatype) : RingBuffer :=
  {| rb_number_of_slots := num_slots; rb_values_per_slot := num_ch;
     rb_datatype := dt; rb_groups := 0; rb_writers := 0; rb_observers := 0;
     rb_paused := false; rb_shutdown := false |}.

Definition rb_alloc (kind : EndpointKind) (name : string) (rb : RingBuffer)
  : RingBuffer * Endpoint :=
  match kind with
  | Reader =>
      ({| rb_number_of_slots := rb_number_of_slots rb;
          rb_values_per_slot := rb_values_per_slot rb;
          rb_datatype := rb_datatype rb; rb_groups := S (rb_groups rb);
          rb_writers := rb_writers rb; rb_observers := rb_observers rb;
          rb_paused := rb_paused rb; rb_shutdown := rb_shutdown rb |},
       {| ep_kind := Reader; ep_buffer := name; ep_index := rb_groups rb |})
  | Writer =>
      ({| rb_number_of_slots := rb_number_of_slots rb;
          rb_values_per_slot := rb_values_per_slot rb;
          rb_datatype := rb_datatype rb; rb_groups := rb_groups rb;
          rb_writers := S (rb_writers rb); rb_observers := rb_observers rb;
          rb_paused := rb_paused rb; rb_shutdown := rb_shutdown rb |},
       {| ep_kind := Writer; ep_buffer := name; ep_index := rb_writers rb |})
  | Observer =>
      ({| rb_number_of_slots := rb_number_of_slots rb;
          rb_values_per_slot := rb_values_per_slot rb;
          rb_datatype := rb_datatype rb; rb_groups := rb_groups rb;
          rb_writers := rb_writers rb; rb_observers := S (rb_observers rb);
          rb_paused := rb_paused rb; rb_shutdown := rb_shutdown rb |},
       {| ep_kind := Observer; ep_buffer := name; ep_index := rb_observers rb |})
  end.

Definition rb_set_paused (b : bool) (rb : RingBuffer) : RingBuffer :=
  {| rb_number_of_slots := rb_number_of_slots rb;
     rb_values_per_slot := rb_values_per_slot rb;
     rb_datatype := rb_datatype rb; rb_groups := rb_groups rb;
     rb_writers := rb_writers rb; rb_observers := rb_observers rb;
     rb_paused := b; rb_shutdown := rb_shutdown rb |}.

Definition rb_set_shutdown (rb : RingBuffer) : RingBuffer :=
  {| rb_number_of_slots := rb_number_of_slots rb;
     rb_values_per_slot := rb_values_per_slot rb;
     rb_datatype := rb_datatype rb; rb_groups := rb_groups rb;
     rb_writers := rb_writers rb; rb_observers := rb_observers rb;
     rb_paused := rb_paused rb; rb_shutdown := true |}.

(** An object found in a module's namespace. *)
Record PyFun : Type := { fn_module : string; fn_name : string }.

(** The positional arguments of a worker:
    [(source_list, sink_list, observe_list, config_dict)], the first three
    [None] or a non-empty list. *)
Record WorkerArgs : Type := {
  source_list : option (list Endpoint);
  sink_list : option (list Endpoint);
  observe_list : option (list Endpoint);
  config_dict : list (string * PyVal)
}.

(** A [multiprocessing.Process] object.  [p_id] is its identity (the number
    of objects created before it); [p_started] is whether [start()] was
    called on it. *)
Record Process : Type := {
  p_id : nat;
  p_target : option PyFun;
  p_args : WorkerArgs;
  p_kwargs : list (string * PyVal);
  p_name : PyVal;
  p_started : bool
}.

Definition p_mark_started (p : Process) : Process :=
  {| p_id := p_id p; p_target := p_target p; p_args := p_args p;
     p_kwargs := p_kwargs p; p_name := p_name p; p_started := true |}.

(** Externally visible actions, in the order the controller performs them. *)
Inductive Event : Type :=
| EvMakedirs (path : string) (mode : Z)
| EvCopyfile (src dst : string)
| EvPrint (text : string) (args : list PyVal)
| EvStatusLine
| EvSleep
| EvInput (prompt : string)
| EvHook (name : string)
| EvNewBuffer (name : string)
| EvNewReaderGroup (buffer : string)
| EvNewWriter (buffer : string)
| EvNewObserver (buffer : string)
| EvBufferStatus (buffer : string)
| EvPause (buffer : string)
| EvResume (buffer : string)
| EvShutdown (buffer : string)
| EvProcessCreate (p : Process)
| EvStart (pid : nat)
| EvJoin (pid : nat).

(** The fields of a [buffer_control] instance.  An attribute that has not
    been assigned yet (or was deleted) is [None]. *)
Record buffer_control : Type := {
  buffers_dict : PyVal;
  number_of_ringbuffers : nat;
  out_dir : string;
  functions_dict : PyVal;
  number_of_functions : nat;
  workers_setup : bool;
  workers_started : bool;
  ringbuffers : option (list (string * RingBuffer));
  process_list : option (list Process);
  runtime : option PyVal
}.

(** What lies outside the program: the file system, numpy, the import
    machinery, the clock and the worker processes' exit codes.  [now] is
    what [time.time()] returns in line 324.  [localtime t] is how
    [time.localtime] ends for a time [t] given as argument: it raises
    [OverflowError] or [OSError] when [t] is outside the range of the
    platform (and so does the conversion of [t] to a float when it is out
    of the range of floats); the broken-down time it returns otherwise is
    only printed. *)
Record World : Type := {
  abspath : string → string;
  resolve : string → string;
  copyfile_ok : string → string → bool;
  yaml_load : string → Exn + PyVal;
  np_dtype : PyVal → option NpDtype;
  find_module : list string → string → option (list (string * PyFun));
  now : Q;
  localtime : Q → Exn + unit;
  clock : nat → Q;
  exitcode : nat → nat → option Z
}.

(** The program state: the log of actions so far, [sys.path], the module
    global [parallel_functions_dict] (unbound until the main script assigns
    it) and the controller object. *)
Record State : Type := {
  log : list Event;
  sys_path : list string;
  parallel_functions_dict : option PyVal;
  self : buffer_control
}.

(** ** The monad: state, exceptions, and the log inside the state *)

Definition M (A : Type) : Type := State → State * (Exn + A).

Definition ret {A} (a : A) : M A := λ st, (st, inr a).

Definition bind {A B} (m : M A) (k : A → M B) : M B :=
  λ st, match m st with
        | (st', inr a) => k a st'
        | (st', inl e) => (st', inl e)
        end.

Definition raise {A} (e : Exn) : M A := λ st, (st, inl e).

Definition lift {A} (r : Exn + A) : M A := λ st, (st, r).

(** [try: m  except <catches> as e: handler e] *)
Definition try_except {A} (m : M A) (catches : Exn → bool)
  (handler : Exn → M A) : M A :=
  λ st, match m st with
        | (st', inl e) => if catches e then handler e st' else (st', inl e)
        | r => r
        end.

Declare Scope py_scope.
Delimit Scope py_scope with py.
Notation "x <- m ;; k" := (bind m (λ x, k))
  (at level 100, m at next level, right associativity) : py_scope.
Notation "m ;; k" := (bind m (λ _, k))
  (at level 100, right associativity) : py_scope.
Local Open Scope py_scope.

Definition with_log (l : list Event) (st : State) : State :=
  {| log := l; sys_path := sys_path st;
     parallel_functions_dict := parallel_functions_dict st; self := self st |}.

Definition with_sys_path (p : list string) (st : State) : State :=
  {| log := log st; sys_path := p;
     parallel_functions_dict := parallel_functions_dict st; self := self st |}.

Definition with_self (bc : buffer_control) (st : State) : State :=
  {| log := log st; sys_path := sys_path st;
     parallel_functions_dict := parallel_functions_dict st; self := bc |}.

Definition emit (e : Event) : M unit :=
  λ st, (with_log (log st ++ [e]) st, inr ()).

Definition print (text : string) (args : list PyVal) : M unit :=
  emit (EvPrint text args).

Definition get_self : M buffer_control := λ st, (st, inr (self st)).

Definition modify_self (f : buffer_control → buffer_control) : M unit :=
  λ st, (with_self (f (self st)) st, inr ()).

Definition set_ringbuffers (r : option (list (string * RingBuffer)))
  (bc : buffer_control) : buffer_control :=
  {| buffers_dict := buffers_dict bc;
     number_of_ringbuffers := number_of_ringbuffers bc;
     out_dir := out_dir bc; functions_dict := functions_dict bc;
     number_of_functions := number_of_functions bc;
     workers_setup := workers_setup bc; workers_started := workers_started bc;
     ringbuffers := r; process_list := process_list bc;
     runtime := runtime bc |}.

Definition set_process_list (pl : option (list Process))
  (bc : buffer_control) : buffer_control :=
  {| buffers_dict := buffers_dict bc;
     number_of_ringbuffers := number_of_ringbuffers bc;
     out_dir := out_dir bc; functions_dict := functions_dict bc;
     number_of_functions := number_of_functions bc;
     workers_setup := workers_setup bc; workers_started := workers_started bc;
     ringbuffers := ringbuffers bc; process_list := pl;
     runtime := runtime bc |}.

Definition set_runtime (r : option PyVal) (bc : buffer_control)
  : buffer_control :=
  {| buffers_dict := buffers_dict bc;
     number_of_ringbuffers := number_of_ringbuffers bc;
     out_dir := out_dir bc; functions_dict := functions_dict bc;
     number_of_functions := number_of_functions bc;
     workers_setup := workers_setup bc; workers_started := workers_started bc;
     ringbuffers := ringbuffers bc; process_list := process_list bc;
     runtime := r |}.

Definition set_workers_setup (b : bool) (bc : buffer_control)
  : buffer_control :=
  {| buffers_dict := buffers_dict bc;
     number_of_ringbuffers := number_of_ringbuffers bc;
     out_dir := out_dir bc; functions_dict := functions_dict bc;
     number_of_functions := number_of_functions bc;
     workers_setup := b; workers_started := workers_started bc;
     ringbuffers := ringbuffers bc; process_list := process_list bc;
     runtime := runtime bc |}.

Definition set_workers_started (b : bool) (bc : buffer_control)
  : buffer_control :=
  {| buffers_dict := buffers_dict bc;
     number_of_ringbuffers := number_of_ringbuffers bc;
     out_dir := out_dir bc; functions_dict := functions_dict bc;
     number_of_functions := number_of_functions bc;
     workers_setup := workers_setup bc; workers_started := b;
     ringbuffers := ringbuffers bc; process_list := process_list bc;
     runtime := runtime bc |}.

(** Reading an attribute that is not there raises [AttributeError]. *)
Definition get_ringbuffers : M (list (string * RingBuffer)) :=
  bc <- get_self ;;
  match ringbuffers bc with
  | Some r => ret r
  | None => raise (AttributeError "ringbuffers")
  end.

Definition get_process_list : M (list Process) :=
  bc <- get_self ;;
  match process_list bc with
  | Some pl => ret pl
  | None => raise (AttributeError "process_list")
  end.

(** [for x in l: body x] *)
Fixpoint for_each {A} (l : list A) (body : A → M unit) : M unit :=
  match l with
  | [] => ret ()
  | x :: l' => body x ;; for_each l' body
  end.

(** A [for] loop whose body updates local variables [s]. *)
Fixpoint for_fold {A S} (l : list A) (s : S) (body : S → A → M S) : M S :=
  match l with
  | [] => ret s
  | x :: l' => s' <- body s x ;; for_fold l' s' body
  end.

(** [range(1, n)] *)
Definition range1 (n : nat) : list nat := seq 1 (n - 1).

Definition as_str (v : PyVal) : Exn + string :=
  match v with VStr s => inr s | _ => inl TypeError end.

(** [shutil.copyfile(src, dst)] *)
Definition copyfile (w : World) (src dst : string) : M unit :=
  if copyfile_ok w src dst then emit (EvCopyfile src dst)
  else raise (OSError dst).

(** [get_config(config_file)] (lines 249-258). *)
Definition get_config (w : World) (config_file : PyVal) : M PyVal :=
  f <- lift (as_str config_file) ;;
  lift (yaml_load w (abspath w f)).

(** ** [buffer_control] *)

(** [__init__] (lines 23-40). *)
Definition init (buffers_dict functions_dict : PyVal)
  (output_directory : string) : Exn + buffer_control :=
  match py_len buffers_dict with
  | inl e => inl e
  | inr nb =>
      match py_len functions_dict with
      | inl e => inl e
      | inr nf =>
          inr {| buffers_dict := buffers_dict;
                 number_of_ringbuffers := nb + 1;
                 out_dir := output_directory;
                 functions_dict := functions_dict;
                 number_of_functions := nf;
                 workers_setup := false; workers_started := false;
                 ringbuffers := None; process_list := None;
                 runtime := None |}
      end
  end.

Definition msg_rb_not_found (ringbuffer_name : string) : string :=
  "Ring buffer '" +:+ ringbuffer_name +:+ "' not found in setup congiguration!
".

(** The message of line 64-66: [.format] binds to the last literal only,
    which has no placeholder, so the braces of the first one stay. *)
Definition msg_unknown_data_type : string :=
  "Ring buffer data type '{}' is unknown! " +:+
  "Please use canonical numpy data type names ('float', 'int', 'uint8', ...)" +:+
  " or a list of tuples (see numpy.dtype()-API reference)".

Definition np_dtype_of (w : World) (v : PyVal) : M NpDtype :=
  match np_dtype w v with
  | Some d => ret d
  | None => raise TypeError
  end.

(** Line 62: one [(name, dtype)] tuple more. *)
Definition add_field (w : World) (rb_datatype : list (PyVal * NpDtype))
  (kv : string * PyVal) : M (list (PyVal * NpDtype)) :=
  v0 <- lift (py_getitem kv.2 (VInt 0)) ;;
  v1 <- lift (py_getitem kv.2 (VInt 1)) ;;
  d <- np_dtype_of w v1 ;;
  ret (rb_datatype ++ [(v0, d)]).

(** Lines 55-66: the dtype of the buffer array from [data_type]. *)
Definition make_rb_datatype (w : World) (data_type : PyVal) : M RbDatatype :=
  match data_type with
  | VStr _ => d <- np_dtype_of w data_type ;; ret (DtScalar d)
  | VDict items =>
      fs <- for_fold items [] (add_field w) ;;
      ret (DtFields fs)
  | _ => raise (RuntimeError msg_unknown_data_type)
  end.

(** The body of the loop of lines 44-69 for buffer number [i]. *)
Definition setup_buffer (w : World) (bc : buffer_control) (i : nat) : M unit :=
  let ringbuffer_name := "RB_" +:+ PyStr.str i in
  let entry : M PyVal :=
    e <- lift (py_getitem (buffers_dict bc) (VInt (Z.of_nat i - 1))) ;;
    lift (py_getitem e (VStr ringbuffer_name)) in
  try_except entry is_KeyError
    (λ _, raise (RuntimeError (msg_rb_not_found ringbuffer_name))) ;;
  rb <- entry ;;
  num_slots <- lift (py_getitem rb (VStr "number_of_slots")) ;;
  num_ch <- lift (py_getitem rb (VStr "channel_per_slot")) ;;
  data_type <- lift (py_getitem rb (VStr "data_type")) ;;
  rb_datatype <- make_rb_datatype w data_type ;;
  emit (EvNewBuffer ringbuffer_name) ;;
  rbs <- get_ringbuffers ;;
  modify_self (set_ringbuffers
    (Some (dict_set ringbuffer_name
             (NewBuffer num_slots num_ch rb_datatype) rbs))).

(** [setup_buffers] (lines 42-70). *)
Definition setup_buffers (w : World) : M (list (string * RingBuffer)) :=
  modify_self (set_ringbuffers (Some [])) ;;
  bc <- get_self ;;
  for_each (range1 (number_of_ringbuffers bc)) (setup_buffer w bc) ;;
  get_ringbuffers.

Definition is_ImportError (e : Exn) : bool :=
  match e with ImportError _ => true | _ => false end.

(** [os.path.dirname(self.out_dir) + "/" + os.path.basename(cfg)] *)
Definition config_copy_dest (out_dir cfg : string) : string :=
  PyStr.dirname out_dir +:+ "/" +:+ PyStr.basename cfg.

Definition copy_config (w : World) (cfg : PyVal) : M unit :=
  f <- lift (as_str cfg) ;;
  bc <- get_self ;;
  copyfile w (abspath w f) (config_copy_dest (out_dir bc) f).

(** [d[0]['Fkt_main']] *)
Definition main_entry (d : PyVal) : Exn + PyVal :=
  match py_getitem d (VInt 0) with
  | inr e => py_getitem e (VStr "Fkt_main")
  | inl e => inl e
  end.

(** [self.functions_dict[i][function_name][key]] *)
Definition fkt_item (i : nat) (function_name key : string) : M PyVal :=
  bc <- get_self ;;
  e <- lift (py_getitem (functions_dict bc) (VInt (Z.of_nat i))) ;;
  f <- lift (py_getitem e (VStr function_name)) ;;
  lift (py_getitem f (VStr key)).

(** Lines 83-84: the runtime of the main entry of [self.functions_dict],
    [0] when it has none. *)
Definition base_runtime : M PyVal :=
  bc <- get_self ;;
  m <- lift (main_entry (functions_dict bc)) ;;
  absent <- lift (match py_contains_str m "runtime" with
                  | inr b => inr (negb b)
                  | inl e => inl e
                  end) ;;
  if absent : bool then ret (VInt 0)
  else m' <- lift (main_entry (functions_dict bc)) ;;
       lift (py_getitem m' (VStr "runtime")).

(** Reading the module global [parallel_functions_dict]. *)
Definition global_parallel_functions_dict : M PyVal :=
  λ st, match parallel_functions_dict st with
        | Some v => (st, inr v)
        | None => (st, inl (NameError "parallel_functions_dict"))
        end.

(** Lines 86-95: the common configuration file named by the main entry of
    the GLOBAL [parallel_functions_dict]; its [general.runtime] replaces
    [self.runtime].  The result is the local [config_dict_common], [None]
    while it is unbound. *)
Definition load_common_config (w : World) : M (option PyVal) :=
  g <- global_parallel_functions_dict ;;
  m <- lift (main_entry g) ;;
  has_cfg <- lift (py_contains_str m "config_file") ;;
  if has_cfg : bool then
    g' <- global_parallel_functions_dict ;;
    m' <- lift (main_entry g') ;;
    cfg_common <- lift (py_getitem m' (VStr "config_file")) ;;
    copy_config w cfg_common ;;
    config_dict_common <- get_config w cfg_common ;;
    general <- lift (py_getitem config_dict_common (VStr "general")) ;;
    has_rt <- lift (py_contains_str general "runtime") ;;
    (if has_rt : bool then
       rt <- lift (py_getitem general (VStr "runtime")) ;;
       modify_self (set_runtime (Some rt))
     else ret ()) ;;
    ret (Some config_dict_common)
  else ret None.

(** [v[k] = x] *)
Definition py_setitem (v k x : PyVal) : Exn + PyVal :=
  match v, k with
  | VDict d, VStr s => inr (VDict (dict_set s x d))
  | VList l, VInt i =>
      if bool_decide (0 <= i < Z.of_nat (length l))
      then inr (VList (<[Z.to_nat i := x]> l))
      else if bool_decide (- Z.of_nat (length l) <= i < 0)
           then inr (VList (<[Z.to_nat (Z.of_nat (length l) + i) := x]> l))
           else inl IndexError
  | _, _ => inl TypeError
  end.

(** Lines 115-135: the configuration of one worker.  [config_dict_common] is
    the local variable of that name ([None]: unbound).  When the worker's
    configuration is a section of the common one, the assignment of
    ["directory_prefix"] writes into that shared section, so the updated
    common configuration is returned as well. *)
Definition resolve_config (w : World) (i : nat) (function_name : string)
  (fkt_py_name : PyVal) (config_dict_common : option PyVal)
  : M (list (string * PyVal) * option PyVal) :=
  own <- try_except
           (cfg_file_name <- fkt_item i function_name "config_file" ;;
            ret (Some cfg_file_name))
           is_KeyError (λ _, ret None) ;;
  bc <- get_self ;;
  match own with
  | Some cfg_file_name =>
      copy_config w cfg_file_name ;;
      config_dict <- get_config w cfg_file_name ;;
      match config_dict with
      | VDict d =>
          ret (dict_set "directory_prefix" (VStr (out_dir bc)) d,
               config_dict_common)
      | _ => raise TypeError
      end
  | None =>
      section <- try_except
        (match config_dict_common with
         | None => raise (UnboundLocalError "config_dict_common")
         | Some c => x <- lift (py_getitem c fkt_py_name) ;; ret (Some x)
         end)
        is_KeyError_or_TypeError
        (λ _, print "Warning: no configuration found for file '{}'!"
                [fkt_py_name] ;;
              ret None) ;;
      match section with
      | None => ret ([("directory_prefix", VStr (out_dir bc))],
                     config_dict_common)
      | Some (VDict d) =>
          let d' := dict_set "directory_prefix" (VStr (out_dir bc)) d in
          ret (d', match config_dict_common with
                   | Some c =>
                       match py_setitem c fkt_py_name (VDict d') with
                       | inr c' => Some c'
                       | inl _ => Some c
                       end
                   | None => None
                   end)
      | Some _ => raise TypeError
      end
  end.

Definition ev_new (kind : EndpointKind) (buffer : string) : Event :=
  match kind with
  | Reader => EvNewReaderGroup buffer
  | Writer => EvNewWriter buffer
  | Observer => EvNewObserver buffer
  end.

(** [self.ringbuffers[key].new_reader_group()] and its two siblings. *)
Definition new_endpoint (kind : EndpointKind) (key : string) : M Endpoint :=
  rbs <- get_ringbuffers ;;
  match dict_get key rbs with
  | None => raise (KeyError (VStr key))
  | Some rb =>
      emit (ev_new kind key) ;;
      modify_self (set_ringbuffers (Some (dict_set key (rb_alloc kind key rb).1 rbs))) ;;
      ret (rb_alloc kind key rb).2
  end.

(** The three local lists of lines 138-140. *)
Record Endpoints : Type := {
  sources : list Endpoint;
  sinks : list Endpoint;
  observers : list Endpoint
}.

(** Lines 145-154: one endpoint per assignment whose role is ['read'],
    ['write'] or ['observe']; any other role falls through the chain. *)
Definition assign_endpoint (eps : Endpoints) (kv : string * PyVal)
  : M Endpoints :=
  if py_eq_str kv.2 "read" then
    ep <- new_endpoint Reader kv.1 ;;
    ret {| sources := sources eps ++ [ep]; sinks := sinks eps;
           observers := observers eps |}
  else if py_eq_str kv.2 "write" then
    ep <- new_endpoint Writer kv.1 ;;
    ret {| sources := sources eps; sinks := sinks eps ++ [ep];
           observers := observers eps |}
  else if py_eq_str kv.2 "observe" then
    ep <- new_endpoint Observer kv.1 ;;
    ret {| sources := sources eps; sinks := sinks eps;
           observers := observers eps ++ [ep] |}
  else ret eps.

Definition allocate_endpoints (assigned_ringbuffers : list (string * PyVal))
  : M Endpoints :=
  for_fold assigned_ringbuffers
    {| sources := []; sinks := []; observers := [] |} assign_endpoint.

(** Lines 156-161: [if not l: l = None]. *)
Definition none_if_empty {A} (l : list A) : option (list A) :=
  match l with [] => None | _ => Some l end.

(** [if path_sys not in sys.path: sys.path.append(path_sys)] *)
Definition add_sys_path (path_sys : string) : M unit :=
  λ st, (if bool_decide (path_sys ∈ sys_path st) then st
         else with_sys_path (sys_path st ++ [path_sys]) st, inr ()).

(** [__import__(py_module, ...)]: the namespace of the module found along
    [sys.path], or [ImportError]. *)
Definition import_module (w : World) (py_module : string)
  : M (list (string * PyFun)) :=
  λ st, (st, match find_module w (sys_path st) py_module with
             | Some vars => inr vars
             | None => inl (ImportError py_module)
             end).

(** [import_function] (lines 188-212).  Only [ImportError] is caught; the
    lookup of the name in the module's namespace is outside the [try]. *)
Definition import_function (w : World) (module_path function_name : PyVal)
  : M (option PyFun) :=
  module <- try_except
    (p <- lift (as_str module_path) ;;
     let py_module := PyStr.path_name p in
     let path_sys := PyStr.removesuffix (resolve w p) py_module in
     add_sys_path path_sys ;;
     (if String.eqb py_module "" then raise ValueError else ret ()) ;;
     vars <- import_module w py_module ;;
     ret (Some vars))
    is_ImportError
    (λ _, print "Import Error!" [module_path] ;; ret None) ;;
  match module with
  | None => ret None
  | Some vars =>
      match function_name with
      | VStr f => match dict_get f vars with
                  | Some o => ret (Some o)
                  | None => raise (KeyError function_name)
                  end
      | VList _ | VDict _ => raise TypeError
      | _ => raise (KeyError function_name)
      end
  end.

Definition is_create (e : Event) : bool :=
  match e with EvProcessCreate _ => true | _ => false end.

(** The identity of the next process object: how many were created so far. *)
Definition fresh_process_id : M nat :=
  λ st, (st, inr (length (filter (λ e, is_create e = true) (log st)))).

(** [self.process_list.append(Process(target=..., args=..., kwargs=...,
    name=...))] *)
Definition append_process (target : option PyFun) (args : WorkerArgs)
  (kwargs : list (string * PyVal)) (name : PyVal) : M unit :=
  pl <- get_process_list ;;
  fresh <- fresh_process_id ;;
  let p := {| p_id := fresh; p_target := target; p_args := args;
              p_kwargs := kwargs; p_name := name; p_started := false |} in
  emit (EvProcessCreate p) ;;
  modify_self (set_process_list (Some (pl ++ [p]))).

(** [range(n)] as the number of iterations. *)
Definition py_range (n : PyVal) : Exn + nat :=
  match n with
  | VInt z => inr (Z.to_nat z)
  | VBool b => inr (if b then 1 else 0)%nat
  | _ => inl TypeError
  end.

(** The body of the loop of lines 97-167 for worker definition [i]. *)
Definition setup_worker (w : World) (config_dict_common : option PyVal)
  (i : nat) : M (option PyVal) :=
  let function_name := "Fkt_" +:+ PyStr.str i in
  file_py_name <- fkt_item i function_name "file_name" ;;
  fkt_py_name <- fkt_item i function_name "fkt_name" ;;
  number_of_processes <- fkt_item i function_name "num_process" ;;
  assigned_ringbuffers <- try_except
    (a <- fkt_item i function_name "RB_assign" ;; lift (py_dict a))
    is_KeyError (λ _, ret []) ;;
  cfg <- resolve_config w i function_name fkt_py_name config_dict_common ;;
  eps <- allocate_endpoints assigned_ringbuffers ;;
  let args := {| source_list := none_if_empty (sources eps);
                 sink_list := none_if_empty (sinks eps);
                 observe_list := none_if_empty (observers eps);
                 config_dict := cfg.1 |} in
  parallel_function <- import_function w file_py_name fkt_py_name ;;
  n <- lift (py_range number_of_processes) ;;
  for_each (seq 0 n) (λ _,
    append_process parallel_function args assigned_ringbuffers fkt_py_name) ;;
  ret cfg.2.

(** [setup_workers] (lines 72-169). *)
Definition setup_workers (w : World) : M unit :=
  bc <- get_self ;;
  if workers_setup bc then print "Cannot setup wokers twice" []
  else
    modify_self (set_process_list (Some [])) ;;
    rt <- base_runtime ;;
    modify_self (set_runtime (Some rt)) ;;
    config_dict_common <- load_common_config w ;;
    for_fold (range1 (number_of_functions bc)) config_dict_common
      (setup_worker w) ;;
    modify_self (set_workers_setup true).

(** [p.start()]: a process object can be started once. *)
Definition start_nth (i : nat) : M unit :=
  pl <- get_process_list ;;
  match pl !! i with
  | None => raise IndexError
  | Some p =>
      if p_started p then raise (AssertionError "cannot start a process twice")
      else emit (EvStart (p_id p)) ;;
           modify_self (set_process_list (Some (<[i := p_mark_started p]> pl)))
  end.

(** [start_workers] (lines 171-186).  There is no [return] after the
    message for workers that are started already. *)
Definition start_workers : M (list Process) :=
  bc <- get_self ;;
  (if workers_started bc then print "Workers already started" [] else ret ()) ;;
  pl <- get_process_list ;;
  modify_self (set_process_list (Some (rev pl))) ;;
  for_each (seq 0 (length pl)) start_nth ;;
  modify_self (set_workers_started true) ;;
  get_process_list.

(** [display_layout] (lines 214-217) *)
Definition display_layout : M unit :=
  print "List of buffers" [] ;;
  rbs <- get_ringbuffers ;;
  for_each rbs (λ nb,
    print "" [VStr nb.1; rb_number_of_slots nb.2; rb_values_per_slot nb.2]).

(** [buffer.shutdown()] on the buffer stored under [name]. *)
Definition shutdown_buffer (name : string) : M unit :=
  rbs <- get_ringbuffers ;;
  match dict_get name rbs with
  | None => raise (KeyError (VStr name))
  | Some rb =>
      emit (EvShutdown name) ;;
      modify_self (set_ringbuffers (Some (dict_set name (rb_set_shutdown rb) rbs)))
  end.

(** [p.join()]: only a started process can be joined. *)
Definition join_process (p : Process) : M unit :=
  if p_started p then emit (EvJoin (p_id p))
  else raise (AssertionError "can only join a started process").

(** [shutdown] (lines 219-232) *)
Definition shutdown : M unit :=
  rbs <- get_ringbuffers ;;
  for_each (dict_keys rbs) (λ name,
    print "Shutting down buffer " [VStr name] ;;
    shutdown_buffer name) ;;
  pl <- get_process_list ;;
  for_each pl join_process ;;
  modify_self (set_ringbuffers None).

Definition set_paused (b : bool) : M unit :=
  rbs <- get_ringbuffers ;;
  match dict_get "RB_1" rbs with
  | None => raise (KeyError (VStr "RB_1"))
  | Some rb =>
      emit (if b then EvPause "RB_1" else EvResume "RB_1") ;;
      modify_self (set_ringbuffers (Some (dict_set "RB_1" (rb_set_paused b rb) rbs)))
  end.

(** [pause] (lines 234-238) and [resume] (lines 240-244) *)
Definition pause : M unit := set_paused true.
Definition resume : M unit := set_paused false.

(** ** The main script (lines 261-389) *)

(** The fields of [time.localtime()] the script uses. *)
Record struct_time : Type := {
  tm_year : nat; tm_mon : nat; tm_mday : nat;
  tm_hour : nat; tm_min : nat; tm_sec : nat
}.

(** Lines 289-290: the stem of the setup file cut at the first ["setup"]. *)
Definition template_name (setup_filename : string) : string :=
  let template_name := PyStr.path_stem setup_filename in
  PyStr.slice_to template_name (PyStr.find template_name "setup").

Definition time_code (t : struct_time) : string :=
  PyStr.format_0d 4 (tm_year t) +:+ "-" +:+ PyStr.format_0d 2 (tm_mon t) +:+
  "-" +:+ PyStr.format_0d 2 (tm_mday t) +:+ "_" +:+
  PyStr.format_0d 2 (tm_hour t) +:+ PyStr.format_0d 2 (tm_min t) +:+
  PyStr.format_0d 2 (tm_sec t).

(** Lines 291-293 *)
Definition directory_prefix (setup_filename : string) (t : struct_time)
  : string :=
  "target/" +:+ template_name setup_filename +:+ time_code t +:+ "/".

(** Line 296-297: where the setup file is copied to. *)
Definition setup_copy_dest (setup_filename : string) (t : struct_time)
  : string :=
  PyStr.dirname (directory_prefix setup_filename t) +:+ "/" +:+ setup_filename.

(** Lines 272-307, up to the construction of the controller: the log so far
    and either the exception that ended the script or the state in which the
    controller exists.  [path] is the initial [sys.path]. *)
Definition main_prelude (w : World) (setup_filename : string)
  (start_time : struct_time) (path : list string)
  : list Event * (Exn + State) :=
  if String.eqb setup_filename "" then
    ([], inl (RuntimeError "No setup YAML file was specified!"))
  else
    match yaml_load w (abspath w setup_filename) with
    | inl (FileNotFoundError _) =>
        ([], inl (FileNotFoundError
                    ("The setup YAML file '" +:+ setup_filename +:+
                     "' does not exist!")))
    | inl YAMLError =>
        ([], inl (RuntimeError
                    ("An error occurred while parsing the setup YAML file '"
                     +:+ setup_filename +:+ "'!")))
    | inl e => ([], inl e)
    | inr setup_yaml =>
        let dir := directory_prefix setup_filename start_time in
        let made := [EvMakedirs dir 504] in
        let src := abspath w setup_filename in
        let dst := setup_copy_dest setup_filename start_time in
        if negb (copyfile_ok w src dst) then (made, inl (OSError dst))
        else
          let copied := made ++ [EvCopyfile src dst] in
          match py_getitem setup_yaml (VStr "RingBuffer") with
          | inl e => (copied, inl e)
          | inr ringbuffers_dict =>
              match py_getitem setup_yaml (VStr "Functions") with
              | inl e => (copied, inl e)
              | inr functions =>
                  let hooked := copied ++ [EvHook "appl_init"] in
                  match init ringbuffers_dict functions dir with
                  | inl e => (hooked, inl e)
                  | inr bc =>
                      (hooked,
                       inr {| log := hooked; sys_path := path;
                              parallel_functions_dict := Some functions;
                              self := bc |})
                  end
              end
          end
    end.

(** Lines 306-317: buffers, workers, start. *)
Definition main_setup (w : World) : M (list Process) :=
  ringbuffers <- setup_buffers w ;;
  print "{:d} buffers created..." [VInt (Z.of_nat (length ringbuffers))] ;;
  setup_workers w ;;
  display_layout ;;
  process_list <- start_workers ;;
  print "{:d} workers started..." [VInt (Z.of_nat (length process_list))] ;;
  ret process_list.

(** The status sampling of lines 335-341 and 355-360. *)
Definition sample_status : M unit :=
  rbs <- get_ringbuffers ;;
  for_each (dict_keys rbs) (λ RB_name, emit (EvBufferStatus RB_name)) ;;
  emit EvStatusLine.

(** [p.exitcode == 0] for some [p] of the process list, at poll [poll]. *)
Definition some_exited_zero (w : World) (poll : nat) (pl : list Process)
  : bool :=
  existsb (λ p, bool_decide (exitcode w poll (p_id p) = Some 0)) pl.

(** The loop of lines 353-365.  [fuel] bounds the number of polls that are
    followed; the result is the poll at which the loop ended, [None] when it
    is still running after [fuel] polls. *)
Fixpoint batch_loop (w : World) (fuel poll : nat) : M (option nat) :=
  match fuel with
  | O => ret None
  | S fuel' =>
      emit EvSleep ;;
      sample_status ;;
      process_list <- get_process_list ;;
      if some_exited_zero w poll process_list then ret (Some poll)
      else batch_loop w fuel' (S poll)
  end.

(** The loop of lines 330-341; [clock w k] is [time.time() - now] at the
    [k]-th test of the loop condition. *)
Fixpoint timed_loop (w : World) (runtime : Q) (fuel poll : nat)
  : M (option nat) :=
  if Qle_bool runtime (clock w poll) then ret (Some poll)
  else match fuel with
       | O => ret None
       | S fuel' =>
           emit EvSleep ;;
           sample_status ;;
           timed_loop w runtime fuel' (S poll)
       end.

Definition msg_session_ended : string := "
Session ended, sending shutdown signal...".

Definition msg_good_bye : string := "      Finished - Good Bye".

Definition msg_batch_mode : string :=
  "Batch mode - buffer manager keeps running until one worker process exits!
".

Definition msg_execution_time : string := "
      Execution time: {:.2f}s -  Events processed: {:d}".

Definition prompt_finished : string := "

      Finished - type enter to exit -> ".

(** Lines 374-389 *)
Definition main_finish : M unit :=
  print msg_session_ended [] ;;
  emit (EvHook "appl_after_start") ;;
  emit EvSleep ;;
  shutdown ;;
  emit (EvHook "appl_after_stop") ;;
  print msg_good_bye [].

(** Lines 347-370, the batch mode branch followed by the shutdown. *)
Definition main_batch (w : World) (fuel : nat) : M bool :=
  print msg_batch_mode [] ;;
  ended <- batch_loop w fuel 0 ;;
  match ended with
  | None => ret false
  | Some _ =>
      pause ;;
      print msg_execution_time [] ;;
      emit (EvInput prompt_finished) ;;
      main_finish ;;
      ret true
  end.

(** Lines 326-345, the timed branch followed by the shutdown.  The
    arguments of the first [print] are evaluated before it prints: the sum
    [now + runtime], which raises [TypeError] when the runtime is not a
    number, and [time.localtime] of that sum, which raises when the end of
    the run is outside the range of the platform. *)
Definition main_timed (w : World) (runtime : PyVal) (fuel : nat) : M bool :=
  r <- lift (py_number runtime) ;;
  lift (localtime w (now w + r)%Q) ;;
  print "Start: " [] ;;
  ended <- timed_loop w r fuel 0 ;;
  match ended with
  | None => ret false
  | Some _ =>
      pause ;;
      print msg_execution_time [] ;;
      main_finish ;;
      ret true
  end.

(** Lines 306-389.  The result is [true] when the script ran to its end and
    [false] when the supervision loop is still running after [fuel] polls. *)
Definition main_run (w : World) (fuel : nat) : M bool :=
  main_setup w ;;
  bc <- get_self ;;
  match runtime bc with
  | None => raise (AttributeError "runtime")
  | Some runtime =>
      if py_ne_zero runtime then main_timed w runtime fuel
      else main_batch w fuel
  end.

(** The whole script: the final log and how it ended. *)
Definition main (w : World) (setup_filename : string)
  (start_time : struct_time) (path : list string) (fuel : nat)
  : list Event * (Exn + bool) :=
  match main_prelude w setup_filename start_time path with
  | (l, inl e) => (l, inl e)
  | (_, inr st) => let r := main_run w fuel st in (log r.1, r.2)
  end.

(** ** [histogram_buffer.animHists]: the frequency arrays *)

(** Python and numpy floats are kept abstract: the arithmetic the class uses
    is an interface, so that what is proved holds for IEEE doubles as well as
    for the exact instance below. *)
Class PyNum (F : Type) : Type := {
  of_Q : Q → F;                (* a literal, an [int] converted to float *)
  fadd : F → F → F;
  fsub : F → F → F;
  fmul : F → F → F;
  fdiv : F → F → option F;     (* [/]; [None]: [ZeroDivisionError] *)
  to_int : F → option Z;       (* [int(x)]; [None]: not a finite number *)
  np_div : F → F → F;          (* [/] on numpy values, which does not raise *)
  np_sum : list F → F          (* [numpy.sum] *)
}.

Definition of_int {F} `{PyNum F} (z : Z) : F := of_Q (inject_Z z).

(** One histogram descriptor [[min, max, nbins, ymax, name, type]]. *)
Record Hdescr (F : Type) : Type := {
  h_min : F; h_max : F; h_nbins : Z; h_ymax : F; h_name : string;
  h_type : bool
}.
Arguments h_min {F}. Arguments h_max {F}. Arguments h_nbins {F}.
Arguments h_ymax {F}. Arguments h_name {F}. Arguments h_type {F}.

(** The attributes of an [animHists] object that [__call__] reads or writes.
    [rects] holds the bar heights and [animtxts] the number of entries shown;
    both exist only after [init()] has drawn the empty histograms. *)
Record animHists (F : Type) : Type := {
  nHist : nat;
  entries : list F;
  frqs : list (list F);
  mins : list F;
  maxs : list F;
  nbins : list Z;
  ymxs : list F;
  names : list string;
  types : list bool;
  rects : option (list (list F));
  animtxts : option (list (option Z))
}.
Arguments nHist {F}. Arguments entries {F}. Arguments frqs {F}.
Arguments mins {F}. Arguments maxs {F}. Arguments nbins {F}.
Arguments ymxs {F}. Arguments names {F}. Arguments types {F}.
Arguments rects {F}. Arguments animtxts {F}.

Section Histogram.
Context {F : Type} `{PyNum F}.

Definition set_entries (e : list F) (h : animHists F) : animHists F :=
  {| nHist := nHist h; entries := e; frqs := frqs h; mins := mins h;
     maxs := maxs h; nbins := nbins h; ymxs := ymxs h; names := names h;
     types := types h; rects := rects h; animtxts := animtxts h |}.

Definition set_frqs (f : list (list F)) (h : animHists F) : animHists F :=
  {| nHist := nHist h; entries := entries h; frqs := f; mins := mins h;
     maxs := maxs h; nbins := nbins h; ymxs := ymxs h; names := names h;
     types := types h; rects := rects h; animtxts := animtxts h |}.

Definition set_display (r : option (list (list F)))
  (t : option (list (option Z))) (h : animHists F) : animHists F :=
  {| nHist := nHist h; entries := entries h; frqs := frqs h; mins := mins h;
     maxs := maxs h; nbins := nbins h; ymxs := ymxs h; names := names h;
     types := types h; rects := r; animtxts := t |}.

(** The initial frequency array of one histogram (lines 98-105). *)
Definition initial_frqs (d : Hdescr F) : Exn + list F :=
  match fdiv (h_ymax d) (of_int (h_nbins d)) with
  | None => inl ZeroDivisionError
  | Some ymx =>
      inr (if h_type d
           then replicate (Z.to_nat (h_nbins d))
                  (fmul (fmul (of_Q (1 # 10000)) ymx) (of_Q 1))
           else replicate (Z.to_nat (h_nbins d)) (of_Q 0))
  end.

(** What [numpy.linspace(min, max, nbins + 1)] and the bar width
    [be[1] - be[0]] of lines 57-60 demand of [nbins]. *)
Definition check_nbins (d : Hdescr F) : Exn + unit :=
  if bool_decide (h_nbins d + 1 < 0) then inl ValueError
  else if bool_decide (h_nbins d + 1 < 2) then inl IndexError
  else inr ().

Fixpoint mapM {A B} (f : A → Exn + B) (l : list A) : Exn + list B :=
  match l with
  | [] => inr []
  | x :: l' =>
      match f x with
      | inl e => inl e
      | inr y => match mapM f l' with
                 | inl e => inl e
                 | inr ys => inr (y :: ys)
                 end
      end
  end.

(** [__init__] (lines 22-105), without the figure. *)
Definition hist_init (descr : list (Hdescr F)) : Exn + animHists F :=
  match mapM check_nbins descr with
  | inl e => inl e
  | inr _ =>
      match mapM initial_frqs descr with
      | inl e => inl e
      | inr fs =>
          inr {| nHist := length descr;
                 entries := replicate (length descr) (of_Q 0);
                 frqs := fs;
                 mins := h_min <$> descr; maxs := h_max <$> descr;
                 nbins := h_nbins <$> descr; ymxs := h_ymax <$> descr;
                 names := h_name <$> descr; types := h_type <$> descr;
                 rects := None; animtxts := None |}
      end
  end.

(** [init] (lines 107-121): the bars take the current frequencies, the texts
    are blank. *)
Definition hist_draw (h : animHists F) : animHists F :=
  set_display (Some (take (nHist h) (frqs h)))
    (Some (replicate (nHist h) None)) h.

(** Line 135: [int(nbins * (v - min) / (max - min))] *)
Definition bin_index (nb : Z) (mn mx v : F) : Exn + Z :=
  match fdiv (fmul (of_int nb) (fsub v mn)) (fsub mx mn) with
  | None => inl ZeroDivisionError
  | Some x => match to_int x with
              | None => inl ValueError
              | Some iv => inr iv
              end
  end.

(** [arr[iv] += 1] on a numpy array: a negative index counts from the end,
    an index outside [-len, len) raises [IndexError]. *)
Definition np_incr (arr : list F) (iv : Z) : Exn + list F :=
  let n := Z.of_nat (length arr) in
  if bool_decide (0 <= iv < n)
  then inr (alter (λ x, fadd x (of_int 1)) (Z.to_nat iv) arr)
  else if bool_decide (- n <= iv < 0)
       then inr (alter (λ x, fadd x (of_int 1)) (Z.to_nat (n + iv)) arr)
       else inl IndexError.

Definition lookup_or_IndexError {A} (l : list A) (i : nat) : Exn + A :=
  match l !! i with Some x => inr x | None => inl IndexError end.

(** Lines 135-137 for one value [v] of histogram [ih]. *)
Definition add_value (h : animHists F) (ih : nat) (v : F)
  : Exn + animHists F :=
  match lookup_or_IndexError (nbins h) ih,
        lookup_or_IndexError (mins h) ih,
        lookup_or_IndexError (maxs h) ih with
  | inr nb, inr mn, inr mx =>
      match bin_index nb mn mx v with
      | inl e => inl e
      | inr iv =>
          if bool_decide (iv >= 0) && bool_decide (iv < nb) then
            match lookup_or_IndexError (frqs h) ih with
            | inl e => inl e
            | inr f =>
                match np_incr f iv with
                | inl e => inl e
                | inr f' => inr (set_frqs (<[ih := f']> (frqs h)) h)
                end
            end
          else inr h
      end
  | inl e, _, _ | _, inl e, _ | _, _, inl e => inl e
  end.

(** The loop of lines 134-137.  The object keeps what was added before an
    exception. *)
Fixpoint add_values (h : animHists F) (ih : nat) (vs : list F)
  : animHists F * option Exn :=
  match vs with
  | [] => (h, None)
  | v :: vs' =>
      match add_value h ih v with
      | inl e => (h, Some e)
      | inr h' => add_values h' ih vs'
      end
  end.

(** Lines 138-144: new bar heights and text, when values came in. *)
Definition redraw (h : animHists F) (ih : nat) : animHists F * option Exn :=
  match lookup_or_IndexError (frqs h) ih, rects h, animtxts h with
  | inl e, _, _ => (h, Some e)
  | _, None, _ => (h, Some (AttributeError "rects"))
  | inr f, Some rs, txts =>
      match rs !! ih with
      | None => (h, Some IndexError)
      | Some r =>
          let norm := np_sum f in
          let r' := zip_with (λ _ frq, np_div frq norm) r f
                      ++ drop (length f) r in
          let h1 := set_display (Some (<[ih := r']> rs)) txts h in
          match txts with
          | None => (h1, Some (AttributeError "animtxts"))
          | Some ts =>
              match lookup_or_IndexError ts ih,
                    lookup_or_IndexError (entries h) ih with
              | inl e, _ | _, inl e => (h1, Some e)
              | inr _, inr e =>
                  match to_int e with
                  | None => (h1, Some ValueError)
                  | Some n =>
                      (set_display (Some (<[ih := r']> rs))
                         (Some (<[ih := Some n]> ts)) h, None)
                  end
              end
          end
      end
  end.

(** The body of the loop of line 131 for histogram [ih] (lines 132-144). *)
Definition update_hist (vals : list (list F)) (h : animHists F) (ih : nat)
  : animHists F * option Exn :=
  match lookup_or_IndexError vals ih, lookup_or_IndexError (entries h) ih with
  | inl e, _ | _, inl e => (h, Some e)
  | inr vs, inr e =>
      let h1 := set_entries
                  (<[ih := fadd e (of_int (Z.of_nat (length vs)))]> (entries h))
                  h in
      match add_values h1 ih vs with
      | (h2, Some err) => (h2, Some err)
      | (h2, None) =>
          match vs with
          | [] => (h2, None)
          | _ => redraw h2 ih
          end
      end
  end.

Fixpoint update_all (vals : list (list F)) (h : animHists F) (ihs : list nat)
  : animHists F * option Exn :=
  match ihs with
  | [] => (h, None)
  | ih :: ihs' =>
      match update_hist vals h ih with
      | (h', Some e) => (h', Some e)
      | (h', None) => update_all vals h' ihs'
      end
  end.

(** [__call__] (lines 123-147): the object afterwards and the exception, if
    one ended the call. *)
Definition hist_call (h : animHists F) (vals : option (list (list F)))
  : animHists F * option Exn :=
  match vals with
  | None => (h, None)
  | Some vals => update_all vals h (seq 0 (nHist h))
  end.

End Histogram.

(** ** Notions used to state and prove the properties *)

(** An invariant of the state that a computation keeps whatever its
    outcome. *)
Definition inv (I : State → Prop) {A} (m : M A) : Prop :=
  ∀ st, I st → I (m st).1.

(** Invariants that speak of the log only, or of the controller only. *)
Definition log_inv (P : list Event → Prop) (st : State) : Prop := P (log st).

Definition self_inv (Q : buffer_control → Prop) (st : State) : Prop :=
  Q (self st).

(** ** Reading the log *)

(** The process objects created, in the order of their creation. *)
Definition created (l : list Event) : list Process :=
  omap (λ e, match e with EvProcessCreate p => Some p | _ => None end) l.

(** The processes started, in the order of the calls of [start()]. *)
Definition started (l : list Event) : list nat :=
  omap (λ e, match e with EvStart i => Some i | _ => None end) l.

Definition is_start (e : Event) : bool :=
  match e with EvStart _ => true | _ => false end.

(** What one pass of a supervision loop logs. *)
Definition poll_events (names : list string) : list Event :=
  EvSleep :: (EvBufferStatus <$> names) ++ [EvStatusLine].

(** What [shutdown] logs for the buffers [names]. *)
Definition shutdown_events (names : list string) : list Event :=
  names ≫= λ name, [EvPrint "Shutting down buffer " [VStr name]; EvShutdown name].

(** The names [RB_1 ... RB_n]. *)
Definition rb_names (n : nat) : list string :=
  (λ i, "RB_" +:+ PyStr.str i) <$> seq 1 n.

(** What the end of the main script logs (lines 374-389). *)
Definition finish_events (names : list string) (pl : list Process)
  : list Event :=
  [EvPrint msg_session_ended []; EvHook "appl_after_start"; EvSleep]
  ++ shutdown_events names ++ (EvJoin ∘ p_id <$> pl)
  ++ [EvHook "appl_after_stop"; EvPrint msg_good_bye []].

(** ** A small topology to run the definitions on

    Two buffers and three worker definitions: a source writing [RB_1], a
    filter (two replicas) reading [RB_1] and writing [RB_2], and a writer to
    disk reading [RB_2] and observing [RB_1]. *)

Definition demo_buffers : PyVal :=
  VList
    [VDict [("RB_1", VDict [("number_of_slots", VInt 16);
                            ("channel_per_slot", VInt 4);
                            ("data_type", VStr "float")])];
     VDict [("RB_2", VDict [("number_of_slots", VInt 8);
                            ("channel_per_slot", VInt 1);
                            ("data_type",
                             VDict [("1", VList [VStr "height"; VStr "float32"])])])]].

Definition demo_worker (key file fkt : string) (n : Z)
  (assign : list (string * PyVal)) : PyVal :=
  VDict [(key, VDict [("file_name", VStr file); ("fkt_name", VStr fkt);
                      ("num_process", VInt n); ("RB_assign", VDict assign)])].

Definition demo_functions : PyVal :=
  VList
    [VDict [("Fkt_main", VDict [("config_file", VStr "config/demo.yaml")])];
     demo_worker "Fkt_1" "modules/sources" "pulse_source" 1
       [("RB_1", VStr "write")];
     demo_worker "Fkt_2" "modules/filters" "find_peaks" 2
       [("RB_1", VStr "read"); ("RB_2", VStr "write")];
     demo_worker "Fkt_3" "modules/save_files" "save_to_txt" 1
       [("RB_2", VStr "read"); ("RB_1", VStr "observe")]].

Definition demo_setup : PyVal :=
  VDict [("RingBuffer", demo_buffers); ("Functions", demo_functions)].

Definition demo_config : PyVal :=
  VDict [("general", VDict [("runtime", VInt 0)]);
         ("find_peaks", VDict [("threshold", VInt 5)])].

Definition demo_modules (name : string) : option (list (string * PyFun)) :=
  if String.eqb name "sources" then
    Some [("pulse_source", {| fn_module := "sources"; fn_name := "pulse_source" |})]
  else if String.eqb name "filters" then
    Some [("find_peaks", {| fn_module := "filters"; fn_name := "find_peaks" |})]
  else if String.eqb name "save_files" then
    Some [("save_to_txt", {| fn_module := "save_files"; fn_name := "save_to_txt" |})]
  else None.

(** The files of the demo: [files] maps absolute paths to their YAML
    content.  The process with identity 0 exits with code 0 from the third
    poll on; process 3 has crashed with code 1 from the start.  The clock
    advances by half a second per poll, and [time.localtime] has the range
    of a 64-bit Linux: a 64-bit [time_t] and a year that fits 32 bits. *)
Definition demo_world_with (files : list (string * PyVal)) : World :=
  {| abspath := λ p, "/daq/" +:+ p;
     resolve := λ p, "/daq/" +:+ p;
     copyfile_ok := λ _ _, true;
     yaml_load := λ f, match dict_get f files with
                       | Some v => inr v
                       | None => inl (FileNotFoundError f)
                       end;
     np_dtype := λ v, match v with
                      | VStr s => Some {| dtype_name := s |}
                      | _ => None
                      end;
     find_module := λ _ name, demo_modules name;
     now := inject_Z 1710000000;
     localtime := λ t,
       if Qle_bool (inject_Z (2 ^ 63)) t || Qle_bool t (inject_Z (- 2 ^ 63))
       then inl OverflowError
       else if Qle_bool (inject_Z 67768036191676800) t
            then inl (OSError "Value too large for defined data type")
            else inr ();
     clock := λ k, Qmake (Z.of_nat k) 2;
     exitcode := λ poll pid,
       if bool_decide (pid = 3%nat) then Some 1
       else if bool_decide (2 ≤ poll)%nat && bool_decide (pid = 0%nat)
            then Some 0 else None |}.

Definition demo_world : World :=
  demo_world_with [("/daq/demo_setup.yaml", demo_setup);
                   ("/daq/config/demo.yaml", demo_config)].

Definition demo_time : struct_time :=
  {| tm_year := 2024; tm_mon := 3; tm_mday := 9;
     tm_hour := 14; tm_min := 5; tm_sec := 7 |}.

(** The state in which the controller of the demo has just been built. *)
Definition state_of (w : World) (setup_filename : string) : option State :=
  match main_prelude w setup_filename demo_time [] with
  | (_, inr st) => Some st
  | _ => None
  end.

Definition demo_state_in (w : World) : State :=
  default {| log := []; sys_path := []; parallel_functions_dict := None;
             self := {| buffers_dict := VNone; number_of_ringbuffers := 1;
                        out_dir := ""; functions_dict := VNone;
                        number_of_functions := 0; workers_setup := false;
                        workers_started := false; ringbuffers := None;
                        process_list := None; runtime := None |} |}
    (state_of w "demo_setup.yaml").

Definition demo_state : State := Eval vm_compute in demo_state_in demo_world.

(** ... and the one in which its workers have been started. *)
Definition demo_running : State :=
  Eval vm_compute in (main_setup demo_world demo_state).1.

Definition demo_ringbuffers : list (string * RingBuffer) :=
  Eval vm_compute in default [] (ringbuffers (self demo_running)).

Definition demo_processes : list Process :=
  Eval vm_compute in default [] (process_list (self demo_running)).

(** ** Histograms: well-formedness and an exact instance of the arithmetic *)

(** Every frequency array has as many bins as [nbins] says. *)
Definition hist_wf {F} (h : animHists F) : Prop :=
  Forall2 (λ f nb, Z.of_nat (length f) = nb) (frqs h) (nbins h).

(** An instance to run the definitions on: exact rational arithmetic, in
    which [int()] truncates towards zero.  It is not the arithmetic of
    numpy (nothing is rounded, there is no [nan] and no [inf]); no property
    is stated for it, it only serves the examples of the properties stated
    for every instance. *)
#[export] Instance Q_num : PyNum Q :=
  {| of_Q := λ q, q;
     fadd := Qplus; fsub := Qminus; fmul := Qmult;
     fdiv := λ x y, if Qeq_bool y 0 then None else Some (Qred (Qdiv x y));
     to_int := λ x, Some (Z.quot (Qnum x) (Zpos (Qden x)));
     np_div := λ x y, Qred (Qdiv x y);
     np_sum := foldr Qplus (0 # 1)%Q |}.

Definition demo_descr : list (Hdescr Q) :=
  [{| h_min := (0 # 1)%Q; h_max := (10 # 1)%Q; h_nbins := 5;
      h_ymax := (1 # 1)%Q; h_name := "height"; h_type := false |}].

Definition demo_hist0 : animHists Q :=
  Eval vm_compute in
    match hist_init demo_descr with
    | inr h => h
    | inl _ => {| nHist := 0; entries := []; frqs := []; mins := [];
                  maxs := []; nbins := []; ymxs := []; names := [];
                  types := []; rects := None; animtxts := None |}
    end.

Definition demo_hist : animHists Q := Eval vm_compute in hist_draw demo_hist0.

(** The [animHists] objects a program can hold: built by [__init__], then
    drawn and called any number of times. *)
Inductive hist_reachable {F} `{PyNum F} : animHists F → Prop :=
| reach_init descr h :
    hist_init descr = inr h → hist_reachable h
| reach_draw h :
    hist_reachable h → hist_reachable (hist_draw h)
| reach_call h vals :
    hist_reachable h → hist_reachable (hist_call h vals).1.

(** What holds of every such object. *)
Definition hist_ok {F} (h : animHists F) : Prop :=
  hist_wf h ∧ length (nbins h) = nHist h ∧ length (mins h) = nHist h ∧
  length (maxs h) = nHist h ∧ length (entries h) = nHist h.

(** ** Strings of decimal digits *)

Definition is_digit (a : ascii) : bool :=
  match Ascii.is_nat a with Some _ => true | None => false end.

Fixpoint all_digits (s : string) : bool :=
  match s with
  | "" => true
  | String a s' => is_digit a && all_digits s'
  end.

(** The actions [setup_buffers] and [setup_workers] can log. *)
Definition is_setup_event (e : Event) : bool :=
  match e with
  | EvNewBuffer _ | EvPrint _ _ | EvCopyfile _ _ | EvNewReaderGroup _
  | EvNewWriter _ | EvNewObserver _ | EvProcessCreate _ => true
  | _ => false
  end.

(** ** Variations of the demo *)

(** No common configuration file, and a worker without one of its own. *)
Definition nocfg_functions : PyVal :=
  VList
    [VDict [("Fkt_main", VDict [("runtime", VInt 10)])];
     demo_worker "Fkt_1" "modules/sources" "pulse_source" 1
       [("RB_1", VStr "write")]].

Definition nocfg_world : World :=
  demo_world_with
    [("/daq/demo_setup.yaml",
      VDict [("RingBuffer", demo_buffers); ("Functions", nocfg_functions)])].

(** ** Reading the topology *)

(** [functions_dict[i]["Fkt_<i>"][key]] *)
Definition worker_field (fd : PyVal) (i : nat) (key : string) : Exn + PyVal :=
  match py_getitem fd (VInt (Z.of_nat i)) with
  | inl e => inl e
  | inr entry =>
      match py_getitem entry (VStr ("Fkt_" +:+ PyStr.str i)) with
      | inl e => inl e
      | inr f => py_getitem f (VStr key)
      end
  end.

(** The local [assigned_ringbuffers] of worker definition [i] (lines
    105-108): [dict(...)] of its [RB_assign], empty when that key is
    missing. *)
Definition assigned_ringbuffers_of (fd : PyVal) (i : nat)
  : Exn + list (string * PyVal) :=
  match worker_field fd i "RB_assign" with
  | inr a => py_dict a
  | inl e => if is_KeyError e then inr [] else inl e
  end.

(** The three roles the chain of lines 146-154 knows. *)
Definition is_role (v : PyVal) : bool :=
  py_eq_str v "read" || py_eq_str v "write" || py_eq_str v "observe".

(** [buffers_dict[i-1]["RB_<i>"]] *)
Definition buffer_entry (bd : PyVal) (i : nat) : Exn + PyVal :=
  match py_getitem bd (VInt (Z.of_nat i - 1)) with
  | inl e => inl e
  | inr entry => py_getitem entry (VStr ("RB_" +:+ PyStr.str i))
  end.

(** A [data_type] the controller can turn into a buffer layout: a type name
    numpy knows, or a mapping whose values are [[field, type]] pairs with
    type names numpy knows. *)
Definition field_ok (w : World) (v : PyVal) : bool :=
  match py_getitem v (VInt 0), py_getitem v (VInt 1) with
  | inr _, inr t => bool_decide (is_Some (np_dtype w t))
  | _, _ => false
  end.

Definition data_type_ok (w : World) (data_type : PyVal) : bool :=
  match data_type with
  | VStr _ => bool_decide (is_Some (np_dtype w data_type))
  | VDict items => forallb (λ kv, field_ok w kv.2) items
  | _ => false
  end.

(** How often [new_reader_group()] was called on buffer [b]. *)
Definition is_new_reader (b : string) (e : Event) : bool :=
  match e with EvNewReaderGroup b' => String.eqb b' b | _ => false end.

Definition n_reader_groups (b : string) (l : list Event) : nat :=
  length (filter (λ e, is_new_reader b e = true) l).

(** The positional arguments a worker gets from the endpoints allocated for
    it and its configuration. *)
Definition worker_args (eps : Endpoints) (cfg : list (string * PyVal))
  : WorkerArgs :=
  {| source_list := none_if_empty (sources eps);
     sink_list := none_if_empty (sinks eps);
     observe_list := none_if_empty (observers eps);
     config_dict := cfg |}.

(** What the endpoint allocation of one worker logs: one call per
    assignment with a known role, in the order of the assignments. *)
Definition role_event (kv : string * PyVal) : option Event :=
  if py_eq_str kv.2 "read" then Some (EvNewReaderGroup kv.1)
  else if py_eq_str kv.2 "write" then Some (EvNewWriter kv.1)
  else if py_eq_str kv.2 "observe" then Some (EvNewObserver kv.1)
  else None.

Definition alloc_events (items : list (string * PyVal)) : list Event :=
  omap role_event items.

Definition has_role (role : string) (kv : string * PyVal) : Prop :=
  py_eq_str kv.2 role = true.

#[export] Instance has_role_dec role kv : Decision (has_role role kv) :=
  decide (py_eq_str kv.2 role = true).

(** Two controller objects that differ in their ring buffers at most, and
    there only in the buffer objects, not in the names. *)
Definition same_but_buffers (bc bc' : buffer_control) : Prop :=
  set_ringbuffers None bc = set_ringbuffers None bc' ∧
  (dict_keys <$> ringbuffers bc) = (dict_keys <$> ringbuffers bc').

Definition same_but_processes (bc bc' : buffer_control) : Prop :=
  set_process_list None bc = set_process_list None bc'.

(** Whether the assignments give the role ['read'] to buffer [b]. *)
Definition assigns_read (assigned : list (string * PyVal)) (b : string) : bool :=
  match dict_get b assigned with
  | Some v => py_eq_str v "read"
  | None => false
  end.

(** The demo after [setup_buffers], with an empty process list. *)
Definition demo_buffers_ready : State :=
  Eval vm_compute in
    (modify_self (set_process_list (Some []))
       (setup_buffers demo_world demo_state).1).1.

(** What [setup_workers] leaves as it is: everything but the process list,
    the runtime, the flag [workers_setup] and the state of the buffer
    objects. *)
Definition setup_frame (bc bc' : buffer_control) : Prop :=
  buffers_dict bc' = buffers_dict bc ∧
  number_of_ringbuffers bc' = number_of_ringbuffers bc ∧
  out_dir bc' = out_dir bc ∧
  functions_dict bc' = functions_dict bc ∧
  number_of_functions bc' = number_of_functions bc ∧
  workers_started bc' = workers_started bc ∧
  (dict_keys <$> ringbuffers bc') = (dict_keys <$> ringbuffers bc).

(** What is known of a worker definition once it has been set up. *)
Definition worker_was_set_up (w : World) (bc : buffer_control) (i : nat)
  : Prop :=
  ∃ assigned file fkt f sa sb,
    assigned_ringbuffers_of (functions_dict bc) i = inr assigned ∧
    worker_field (functions_dict bc) i "file_name" = inr file ∧
    worker_field (functions_dict bc) i "fkt_name" = inr fkt ∧
    (∀ kv, kv ∈ assigned → is_role kv.2 = true →
       ∃ rbs, ringbuffers bc = Some rbs ∧ kv.1 ∈ dict_keys rbs) ∧
    import_function w file fkt sa = (sb, inr f).

Definition demo_buffers_done : State :=
  Eval vm_compute in (setup_buffers demo_world demo_state).1.

Definition demo_workers_ready : State :=
  Eval vm_compute in (setup_workers demo_world demo_buffers_done).1.

(** A worker whose assignments use a role the controller does not know, one
    of them on a buffer that is not defined. *)
Definition badrole_functions : PyVal :=
  VList
    [VDict [("Fkt_main", VDict [("config_file", VStr "config/demo.yaml")])];
     demo_worker "Fkt_1" "modules/sources" "pulse_source" 1
       [("RB_1", VStr "reed"); ("RB_9", VStr "writes")]].

Definition badrole_world : World :=
  demo_world_with
    [("/daq/demo_setup.yaml",
      VDict [("RingBuffer", demo_buffers); ("Functions", badrole_functions)]);
     ("/daq/config/demo.yaml", demo_config)].

(** A worker whose module cannot be imported. *)
Definition nomodule_functions : PyVal :=
  VList
    [VDict [("Fkt_main", VDict [("config_file", VStr "config/demo.yaml")])];
     demo_worker "Fkt_1" "modules/missing" "pulse_source" 2
       [("RB_1", VStr "write")]].

Definition nomodule_world : World :=
  demo_world_with
    [("/daq/demo_setup.yaml",
      VDict [("RingBuffer", demo_buffers); ("Functions", nomodule_functions)]);
     ("/daq/config/demo.yaml", demo_config)].

(** A buffer of an unknown data type, a worker on an undefined buffer, and a
    worker whose callable is not in its module. *)
Definition baddtype_world : World :=
  demo_world_with
    [("/daq/demo_setup.yaml",
      VDict [("RingBuffer",
              VList [VDict [("RB_1", VDict [("number_of_slots", VInt 16);
                                            ("channel_per_slot", VInt 4);
                                            ("data_type", VInt 8)])]]);
             ("Functions", demo_functions)]);
     ("/daq/config/demo.yaml", demo_config)].

Definition nobuffer_functions : PyVal :=
  VList
    [VDict [("Fkt_main", VDict [("config_file", VStr "config/demo.yaml")])];
     demo_worker "Fkt_1" "modules/sources" "pulse_source" 1
       [("RB_7", VStr "write")]].

Definition nobuffer_world : World :=
  demo_world_with
    [("/daq/demo_setup.yaml",
      VDict [("RingBuffer", demo_buffers); ("Functions", nobuffer_functions)]);
     ("/daq/config/demo.yaml", demo_config)].

Definition nocallable_functions : PyVal :=
  VList
    [VDict [("Fkt_main", VDict [("config_file", VStr "config/demo.yaml")])];
     demo_worker "Fkt_1" "modules/sources" "no_such_function" 1
       [("RB_1", VStr "write")]].

Definition nocallable_world : World :=
  demo_world_with
    [("/daq/demo_setup.yaml",
      VDict [("RingBuffer", demo_buffers); ("Functions", nocallable_functions)]);
     ("/daq/config/demo.yaml", demo_config)].

(** ** What [setup_workers] does not read from the constructor argument *)






(** The runtime of the main entry [m] (lines 83-84). *)
Definition base_runtime_of (m : list (string * PyVal)) : PyVal :=
  match dict_get "runtime" m with
  | Some v => v
  | None => VInt 0
  end.


(** The state in which [setup_workers] turns to the common configuration
    (line 86), for a controller whose main entry is the mapping [m]. *)
Definition before_common_config (m : list (string * PyVal)) (st : State)
  : State :=
  with_self (set_runtime (Some (base_runtime_of m))
               (set_process_list (Some []) (self st))) st.


(** ** Further notions: buffers, configuration, supervision, histograms *)

(** An entry of [buffers_dict] from which the loop of lines 44-69 can build
    buffer number [i]: it is keyed [RB_<i>], has the three keys read in lines
    53-55, and a [data_type] numpy accepts. *)
Definition buffer_entry_ok (w : World) (bd : PyVal) (i : nat) : bool :=
  match buffer_entry bd i with
  | inr rb =>
      match py_getitem rb (VStr "number_of_slots"),
            py_getitem rb (VStr "channel_per_slot"),
            py_getitem rb (VStr "data_type") with
      | inr _, inr _, inr dt => data_type_ok w dt
      | _, _, _ => false
      end
  | inl _ => false
  end.

(** [type(v) == str or type(v) == dict] (lines 57 and 59) *)
Definition is_str_or_dict (v : PyVal) : bool :=
  match v with VStr _ | VDict _ => true | _ => false end.

(** Invariants that speak of [sys.path] only. *)
Definition path_inv (P : list string → Prop) (st : State) : Prop :=
  P (sys_path st).

Definition is_dict (v : PyVal) : bool :=
  match v with VDict _ => true | _ => false end.

(** How many process objects worker definition [i] asks for:
    [len(range(num_process))]. *)
Definition replicas (fd : PyVal) (i : nat) : nat :=
  match worker_field fd i "num_process" with
  | inr num => match py_range num with inr n => n | inl _ => 0%nat end
  | inl _ => 0%nat
  end.

(** The [fkt_name] of worker definition [i]. *)
Definition fkt_name_of (fd : PyVal) (i : nat) : PyVal :=
  match worker_field fd i "fkt_name" with
  | inr v => v
  | inl _ => VNone
  end.

(** More variations of the demo: a worker with a configuration file of its
    own that is empty, and a common configuration without the section
    [general]. *)
Definition owncfg_functions : PyVal :=
  VList
    [VDict [("Fkt_main", VDict [("config_file", VStr "config/demo.yaml")])];
     VDict [("Fkt_1",
             VDict [("file_name", VStr "modules/sources");
                    ("fkt_name", VStr "pulse_source");
                    ("num_process", VInt 1);
                    ("RB_assign", VDict [("RB_1", VStr "write")]);
                    ("config_file", VStr "config/source.yaml")])]].

Definition emptycfg_world : World :=
  demo_world_with
    [("/daq/demo_setup.yaml",
      VDict [("RingBuffer", demo_buffers); ("Functions", owncfg_functions)]);
     ("/daq/config/demo.yaml", demo_config);
     ("/daq/config/source.yaml", VNone)].

Definition nogeneral_world : World :=
  demo_world_with
    [("/daq/demo_setup.yaml", demo_setup);
     ("/daq/config/demo.yaml",
      VDict [("find_peaks", VDict [("threshold", VInt 5)])])].

(** The state of a variation after [setup_buffers]. *)
Definition buffers_done_in (w : World) : State :=
  (setup_buffers w (demo_state_in w)).1.

(** The calls of [new_reader_group], [new_writer] and [new_observer] in a
    log. *)
Definition is_new_endpoint (e : Event) : bool :=
  match e with
  | EvNewReaderGroup _ | EvNewWriter _ | EvNewObserver _ => true
  | _ => false
  end.

Definition endpoints_allocated (l : list Event) : list Event :=
  filter (λ e, is_new_endpoint e = true) l.

(** A worker definition without [RB_assign]. *)
Definition noassign_functions : PyVal :=
  VList
    [VDict [("Fkt_main", VDict [("config_file", VStr "config/demo.yaml")])];
     VDict [("Fkt_1",
             VDict [("file_name", VStr "modules/sources");
                    ("fkt_name", VStr "pulse_source");
                    ("num_process", VInt 2)])]].

Definition noassign_world : World :=
  demo_world_with
    [("/daq/demo_setup.yaml",
      VDict [("RingBuffer", demo_buffers); ("Functions", noassign_functions)]);
     ("/daq/config/demo.yaml", demo_config)].

(** The state of a variation in which the loop over the worker definitions
    begins. *)
Definition workers_begin_in (w : World) : State :=
  (modify_self (set_process_list (Some [])) (buffers_done_in w)).1.

(** A common configuration whose runtime is not a number. *)
Definition badruntime_world : World :=
  demo_world_with
    [("/daq/demo_setup.yaml", demo_setup);
     ("/daq/config/demo.yaml",
      VDict [("general", VDict [("runtime", VStr "10s")]);
             ("find_peaks", VDict [("threshold", VInt 5)])])].

(** The demo with the runtime [rt] in its common configuration. *)
Definition timed_world (rt : PyVal) : World :=
  demo_world_with
    [("/daq/demo_setup.yaml", demo_setup);
     ("/daq/config/demo.yaml",
      VDict [("general", VDict [("runtime", rt)]);
             ("find_peaks", VDict [("threshold", VInt 5)])])].

(** A setup file without the key [Functions]. *)
Definition nofunctions_world : World :=
  demo_world_with
    [("/daq/demo_setup.yaml", VDict [("RingBuffer", demo_buffers)])].

(** An [animHists] object whose histograms [init()] has drawn: the bars
    and texts exist, one row of bars per histogram and one bar per bin. *)
Definition hist_drawn {F} (h : animHists F) : Prop :=
  ∃ rs ts,
    rects h = Some rs ∧ animtxts h = Some ts ∧ length ts = nHist h ∧
    length <$> rs = length <$> frqs h.

(** The text shown for histogram [ih]: [None] while blank, else the number
    after ["Entries: "]. *)
Definition text_of {F} (h : animHists F) (ih : nat) : option (option Z) :=
  animtxts h ≫= λ ts, ts !! ih.


(** * Properties *)

(** ** Reasoning about monadic code *)

Lemma bind_ok {A B} (m : M A) (k : A → M B) st st' b :
  bind m k st = (st', inr b) →
  ∃ st1 a, m st = (st1, inr a) ∧ k a st1 = (st', inr b).
Proof.
  unfold bind. destruct (m st) as [st1 [e|a]]; intros Hk; [done|]. eauto.
Qed.

Lemma bind_eq {A B} (m : M A) (k : A → M B) st st1 a :
  m st = (st1, inr a) → bind m k st = k a st1.
Proof. unfold bind. by intros ->. Qed.

Lemma bind_err {A B} (m : M A) (k : A → M B) st st1 e :
  m st = (st1, inl e) → bind m k st = (st1, inl e).
Proof. unfold bind. by intros ->. Qed.

Lemma inv_ret I {A} (a : A) : inv I (ret a).
Proof. by intros st. Qed.

Lemma inv_raise I {A} e : inv I (@raise A e).
Proof. by intros st. Qed.

Lemma inv_lift I {A} (r : Exn + A) : inv I (lift r).
Proof. by intros st. Qed.

Lemma inv_get_self I : inv I get_self.
Proof. by intros st. Qed.

Lemma inv_bind I {A B} (m : M A) (k : A → M B) :
  inv I m → (∀ a, inv I (k a)) → inv I (bind m k).
Proof.
  intros Hm Hk st HI. unfold bind. specialize (Hm st HI).
  destruct (m st) as [st1 [e|a]]; [done|]. by apply Hk.
Qed.

Lemma inv_try_except I {A} (m : M A) c h :
  inv I m → (∀ e, inv I (h e)) → inv I (try_except m c h).
Proof.
  intros Hm Hh st HI. unfold try_except. specialize (Hm st HI).
  destruct (m st) as [st1 [e|a]]; [|done].
  destruct (c e); [by apply Hh|done].
Qed.

Lemma inv_for_each I {A} (l : list A) body :
  (∀ x, x ∈ l → inv I (body x)) → inv I (for_each l body).
Proof.
  induction l as [|x l IH]; intros Hb; simpl; [apply inv_ret|].
  apply inv_bind; [apply Hb; left|]. intros _. apply IH.
  intros y Hy. apply Hb. by right.
Qed.

Lemma inv_for_fold I {A S} (l : list A) (s : S) body :
  (∀ s x, x ∈ l → inv I (body s x)) → inv I (for_fold l s body).
Proof.
  revert s. induction l as [|x l IH]; intros s Hb; simpl; [apply inv_ret|].
  apply inv_bind; [apply Hb; left|]. intros s'. apply IH.
  intros s'' y Hy. apply Hb. by right.
Qed.

Lemma inv_get_ringbuffers I : inv I get_ringbuffers.
Proof.
  apply inv_bind; [apply inv_get_self|]. intros bc.
  destruct (ringbuffers bc); [apply inv_ret|apply inv_raise].
Qed.

Lemma inv_get_process_list I : inv I get_process_list.
Proof.
  apply inv_bind; [apply inv_get_self|]. intros bc.
  destruct (process_list bc); [apply inv_ret|apply inv_raise].
Qed.

(** Structural part of an invariant proof: walk through binds, loops,
    handlers and case distinctions; what is left are the actions. *)
Ltac inv_step :=
  first
    [ simple apply inv_ret | simple apply inv_raise | simple apply inv_lift
    | simple apply inv_get_self
    | simple apply inv_get_ringbuffers | simple apply inv_get_process_list
    | assumption
    | match goal with H : _ |- inv _ _ => simple apply H; solve [auto] end
    | simple apply inv_bind; [|intros ?]
    | simple apply inv_try_except; [|intros ?]
    | simple apply inv_for_each; intros ? ?
    | simple apply inv_for_fold; intros ? ? ?
    | match goal with
      | |- inv _ (match ?x with _ => _ end) => destruct x
      | |- inv _ (let '(_, _) := ?x in _) => destruct x
      end ].

Ltac inv_walk := repeat inv_step.

(** *** Invariants of the log *)

Section LogInvariant.
Variable P : list Event → Prop.
Variable allowed : Event → bool.
Hypothesis P_app : ∀ l e, allowed e = true → P l → P (l ++ [e]).

Lemma inv_emit e : allowed e = true → inv (log_inv P) (emit e).
Proof. intros He st HP. by apply P_app. Qed.

Lemma inv_modify_self f : inv (log_inv P) (modify_self f).
Proof. by intros st HP. Qed.

Lemma inv_add_sys_path p : inv (log_inv P) (add_sys_path p).
Proof. intros st HP. unfold add_sys_path. simpl. by case_bool_decide. Qed.

Lemma inv_import_module w m : inv (log_inv P) (import_module w m).
Proof. by intros st HP. Qed.

Lemma inv_fresh_process_id : inv (log_inv P) fresh_process_id.
Proof. by intros st HP. Qed.

Lemma inv_global : inv (log_inv P) global_parallel_functions_dict.
Proof.
  intros st HP. unfold global_parallel_functions_dict.
  by destruct (parallel_functions_dict st).
Qed.

Ltac inv_log :=
  repeat first
    [ inv_step
    | simple apply inv_modify_self | simple apply inv_add_sys_path
    | simple apply inv_import_module
    | simple apply inv_fresh_process_id | simple apply inv_global
    | simple apply inv_emit; solve [ auto | match goal with H : _ |- _ => apply H; reflexivity end ] ].

Lemma inv_fkt_item i n k : inv (log_inv P) (fkt_item i n k).
Proof. unfold fkt_item. inv_log. Qed.

Lemma inv_copyfile w a b :
  (∀ x y, allowed (EvCopyfile x y) = true) → inv (log_inv P) (copyfile w a b).
Proof. intros Ha. unfold copyfile. inv_log. Qed.

Lemma inv_print t a :
  (∀ x y, allowed (EvPrint x y) = true) → inv (log_inv P) (print t a).
Proof. intros Ha. unfold print. inv_log. Qed.

Lemma inv_setup_buffers w :
  (∀ e, is_setup_event e = true → allowed e = true) →
  inv (log_inv P) (setup_buffers w).
Proof.
  intros Ha.
  unfold setup_buffers, setup_buffer, make_rb_datatype, add_field, np_dtype_of.
  inv_log.
Qed.

Lemma inv_new_endpoint k key :
  (∀ e, is_setup_event e = true → allowed e = true) →
  inv (log_inv P) (new_endpoint k key).
Proof.
  intros Ha. unfold new_endpoint. inv_log.
  destruct k; apply inv_emit; apply Ha; reflexivity.
Qed.

Lemma inv_setup_worker w c i :
  (∀ e, is_setup_event e = true → allowed e = true) →
  inv (log_inv P) (setup_worker w c i).
Proof.
  intros Ha. pose proof (λ k key, inv_new_endpoint k key Ha) as Hnew.
  pose proof inv_fkt_item as Hitem.
  unfold setup_worker, resolve_config, copy_config, copyfile, get_config,
    allocate_endpoints, assign_endpoint, import_function, append_process,
    print.
  inv_log.
Qed.

Lemma inv_setup_workers w :
  (∀ e, is_setup_event e = true → allowed e = true) →
  inv (log_inv P) (setup_workers w).
Proof.
  intros Ha. pose proof (λ c i, inv_setup_worker w c i Ha) as Hw.
  unfold setup_workers, base_runtime, load_common_config, copy_config,
    copyfile, get_config, print.
  inv_log.
Qed.

Lemma inv_start_workers :
  (∀ e, allowed e = true) → inv (log_inv P) start_workers.
Proof. intros Ha. unfold start_workers, start_nth, print. inv_log. Qed.

Lemma inv_display_layout :
  (∀ x y, allowed (EvPrint x y) = true) → inv (log_inv P) display_layout.
Proof. intros Ha. unfold display_layout, print. inv_log. Qed.

Lemma inv_shutdown : (∀ e, allowed e = true) → inv (log_inv P) shutdown.
Proof.
  intros Ha. unfold shutdown, shutdown_buffer, join_process, print. inv_log.
Qed.

Lemma inv_set_paused b : (∀ e, allowed e = true) → inv (log_inv P) (set_paused b).
Proof. intros Ha. unfold set_paused. inv_log. Qed.

Lemma inv_sample_status : (∀ e, allowed e = true) → inv (log_inv P) sample_status.
Proof. intros Ha. unfold sample_status. inv_log. Qed.

Lemma inv_batch_loop w fuel : ∀ poll,
  (∀ e, allowed e = true) → inv (log_inv P) (batch_loop w fuel poll).
Proof.
  induction fuel as [|fuel IH]; intros poll Ha; simpl; [apply inv_ret|].
  pose proof (inv_sample_status Ha). pose proof (IH (S poll) Ha). inv_log.
Qed.

Lemma inv_timed_loop w r fuel : ∀ poll,
  (∀ e, allowed e = true) → inv (log_inv P) (timed_loop w r fuel poll).
Proof.
  induction fuel as [|fuel IH]; intros poll Ha; simpl.
  - inv_log.
  - pose proof (inv_sample_status Ha). pose proof (IH (S poll) Ha). inv_log.
Qed.

Lemma inv_main_finish : (∀ e, allowed e = true) → inv (log_inv P) main_finish.
Proof.
  intros Ha. pose proof (inv_shutdown Ha). unfold main_finish, print. inv_log.
Qed.

Lemma inv_main_setup w : (∀ e, allowed e = true) → inv (log_inv P) (main_setup w).
Proof.
  intros Ha.
  pose proof (inv_setup_buffers w (λ e _, Ha e)).
  pose proof (inv_setup_workers w (λ e _, Ha e)).
  pose proof (inv_display_layout (λ x y, Ha _)).
  pose proof (inv_start_workers Ha).
  unfold main_setup, print. inv_log.
Qed.

Lemma inv_main_run w fuel :
  (∀ e, allowed e = true) → inv (log_inv P) (main_run w fuel).
Proof.
  intros Ha.
  pose proof (inv_main_setup w Ha). pose proof (inv_main_finish Ha).
  pose proof (inv_batch_loop w fuel 0 Ha).
  pose proof (λ r, inv_timed_loop w r fuel 0 Ha).
  pose proof (inv_set_paused true Ha).
  unfold main_run, main_batch, main_timed, pause, print. inv_log.
Qed.

End LogInvariant.

(** ** Dictionaries *)

Lemma dict_get_Some_key {V} k (d : list (string * V)) v :
  dict_get k d = Some v → k ∈ dict_keys d.
Proof.
  induction d as [|[k' v'] d IH]; simpl; [done|].
  destruct (String.eqb_spec k' k) as [->|Hne]; intros Hg.
  - left.
  - right. by apply IH.
Qed.

Lemma dict_get_key {V} k (d : list (string * V)) :
  k ∈ dict_keys d → is_Some (dict_get k d).
Proof.
  induction d as [|[k' v'] d IH]; simpl.
  - by intros ?%elem_of_nil.
  - destruct (String.eqb_spec k' k) as [->|Hne]; [by eauto|].
    intros [?|?]%elem_of_cons; [congruence|by apply IH].
Qed.

Lemma dict_keys_set_in {V} k (v : V) d :
  k ∈ dict_keys d → dict_keys (dict_set k v d) = dict_keys d.
Proof.
  induction d as [|[k' v'] d IH]; simpl.
  - by intros ?%elem_of_nil.
  - destruct (String.eqb_spec k' k) as [->|Hne]; [done|].
    intros [?|?]%elem_of_cons; [congruence|]. simpl. f_equal. by apply IH.
Qed.

Lemma dict_keys_set_new {V} k (v : V) d :
  k ∉ dict_keys d → dict_keys (dict_set k v d) = dict_keys d ++ [k].
Proof.
  induction d as [|[k' v'] d IH]; simpl; [done|].
  intros Hn. apply not_elem_of_cons in Hn as [Hne Hn].
  destruct (String.eqb_spec k' k) as [->|_]; [done|].
  simpl. f_equal. by apply IH.
Qed.

Lemma dict_get_set_eq {V} k (v : V) d : dict_get k (dict_set k v d) = Some v.
Proof.
  induction d as [|[k' v'] d IH]; simpl.
  - by rewrite String.eqb_refl.
  - destruct (String.eqb_spec k' k) as [->|Hne]; simpl.
    + by rewrite String.eqb_refl.
    + by destruct (String.eqb_spec k' k).
Qed.

Lemma dict_get_set_ne {V} k k' (v : V) d :
  k ≠ k' → dict_get k' (dict_set k v d) = dict_get k' d.
Proof.
  intros Hne. induction d as [|[k1 v1] d IH]; simpl.
  - by destruct (String.eqb_spec k k').
  - destruct (String.eqb_spec k1 k) as [->|Hne1]; simpl.
    + destruct (String.eqb_spec k k'); [done|]. done.
    + by rewrite IH.
Qed.

Lemma dict_set_NoDup {V} k (v : V) d :
  NoDup (dict_keys d) → NoDup (dict_keys (dict_set k v d)).
Proof.
  intros Hd. destruct (decide (k ∈ dict_keys d)) as [Hin|Hout].
  - by rewrite dict_keys_set_in.
  - rewrite dict_keys_set_new by done.
    apply NoDup_app. split_and!; [done| |apply NoDup_singleton].
    intros x Hx ->%list_elem_of_singleton. done.
Qed.

Lemma dict_of_items_NoDup items acc :
  NoDup (dict_keys acc) → NoDup (dict_keys (dict_of_items items acc)).
Proof.
  revert acc. induction items as [|[k v] items IH]; intros acc Hacc; simpl;
    [done|]. apply IH. by apply dict_set_NoDup.
Qed.

Lemma py_dict_NoDup v d : py_dict v = inr d → NoDup (dict_keys d).
Proof.
  destruct v; simpl; try done.
  - destruct (items_of_pairs l); [done|]. intros [= <-].
    apply dict_of_items_NoDup. constructor.
  - intros [= <-]. apply dict_of_items_NoDup. constructor.
Qed.

(** ** The log only grows, and each action adds what is expected *)

Lemma for_each_emit {A} (f : A → Event) (l : list A) st :
  for_each l (λ x, emit (f x)) st = (with_log (log st ++ (f <$> l)) st, inr ()).
Proof.
  revert st. induction l as [|x l IH]; intros st; simpl.
  - unfold ret. rewrite app_nil_r. by destruct st.
  - unfold bind, emit at 1. rewrite IH. simpl.
    by rewrite <-app_assoc.
Qed.

Lemma sample_status_spec st rbs :
  ringbuffers (self st) = Some rbs →
  sample_status st =
    (with_log (log st ++ (EvBufferStatus <$> dict_keys rbs) ++ [EvStatusLine]) st,
     inr ()).
Proof.
  intros Hr. unfold sample_status, get_ringbuffers, get_self, bind at 1 2.
  rewrite Hr. unfold ret at 1. unfold bind. rewrite for_each_emit.
  unfold emit. simpl. by rewrite <-app_assoc.
Qed.

(** ** The batch-mode loop *)





(** ** [shutdown], [pause] *)

Lemma shutdown_buffers_spec names : ∀ st rbs,
  ringbuffers (self st) = Some rbs →
  names ⊆ dict_keys rbs →
  ∃ rbs',
    dict_keys rbs' = dict_keys rbs ∧
    for_each names (λ name,
        print "Shutting down buffer " [VStr name] ;; shutdown_buffer name) st =
      (with_self (set_ringbuffers (Some rbs') (self st))
         (with_log (log st ++ shutdown_events names) st), inr ()).
Proof.
  induction names as [|name names IH]; intros st rbs Hr Hsub.
  - exists rbs. split; [done|]. simpl. unfold ret, shutdown_events. simpl.
    rewrite app_nil_r. destruct st as [l sp g bc]; simpl in *.
    unfold with_self, with_log; simpl. do 2 f_equal.
    destruct bc; simpl in *. by subst.
  - assert (name ∈ dict_keys rbs) as Hin by (apply Hsub; left).
    destruct (dict_get_key _ _ Hin) as [rb Hrb].
    set (st1 := with_self
                  (set_ringbuffers (Some (dict_set name (rb_set_shutdown rb) rbs)) (self st))
                  (with_log (log st ++ [EvPrint "Shutting down buffer " [VStr name];
                                        EvShutdown name]) st)).
    destruct (IH st1 (dict_set name (rb_set_shutdown rb) rbs)) as (rbs' & Hk & Hrun).
    { done. }
    { rewrite dict_keys_set_in by done. intros x Hx. apply Hsub. by right. }
    exists rbs'. split; [by rewrite Hk, dict_keys_set_in|].
    simpl. unfold bind at 1. unfold bind at 1, print at 1, emit at 1.
    unfold shutdown_buffer, get_ringbuffers, get_self, bind at 1 2. simpl.
    rewrite Hr. unfold ret at 1. rewrite Hrb.
    unfold bind at 1, emit at 1. unfold modify_self at 1. simpl.
    rewrite <-app_assoc. simpl. fold st1 in Hrun.
    etrans; [exact Hrun|]. unfold st1, shutdown_events. simpl.
    by rewrite <-app_assoc.
Qed.

Lemma for_each_join pl st :
  Forall (λ p, p_started p = true) pl →
  for_each pl join_process st =
    (with_log (log st ++ (EvJoin ∘ p_id <$> pl)) st, inr ()).
Proof.
  intros Hall. revert st. induction Hall as [|p pl Hp _ IH]; intros st; simpl.
  - unfold ret. rewrite app_nil_r. by destruct st.
  - unfold bind, join_process at 1. rewrite Hp. unfold emit at 1.
    rewrite IH. simpl. by rewrite <-app_assoc.
Qed.

Lemma shutdown_spec st rbs pl :
  ringbuffers (self st) = Some rbs →
  process_list (self st) = Some pl →
  Forall (λ p, p_started p = true) pl →
  shutdown st =
    (with_self (set_ringbuffers None (self st))
       (with_log (log st ++ shutdown_events (dict_keys rbs)
                         ++ (EvJoin ∘ p_id <$> pl)) st), inr ()).
Proof.
  intros Hr Hp Hall. unfold shutdown.
  unfold get_ringbuffers at 1, get_self, bind at 1 2. rewrite Hr.
  unfold ret at 1.
  destruct (shutdown_buffers_spec (dict_keys rbs) st rbs Hr) as (rbs' & Hk & Hrun);
    [done|].
  unfold bind at 1. rewrite Hrun.
  unfold get_process_list, get_self, bind at 1 2. simpl. rewrite Hp.
  unfold ret at 1. unfold bind at 1. rewrite for_each_join by done.
  unfold modify_self. simpl. unfold with_self, with_log. simpl.
  by rewrite <-app_assoc.
Qed.

Lemma main_finish_spec st rbs pl :
  ringbuffers (self st) = Some rbs →
  process_list (self st) = Some pl →
  Forall (λ p, p_started p = true) pl →
  main_finish st =
    (with_self (set_ringbuffers None (self st))
       (with_log (log st ++ finish_events (dict_keys rbs) pl) st), inr ()).
Proof.
  intros Hr Hp Hall. unfold main_finish, print.
  unfold bind at 1, emit at 1. unfold bind at 1, emit at 1.
  unfold bind at 1, emit at 1. unfold bind at 1.
  erewrite shutdown_spec by done. unfold bind, emit. simpl.
  unfold with_self, with_log, finish_events. simpl.
  by rewrite <-!app_assoc.
Qed.

(** ** Histograms *)

Section HistogramFacts.
Context {F : Type} `{PyNum F}.

Lemma np_incr_length (arr arr' : list F) iv :
  np_incr arr iv = inr arr' → length arr' = length arr.
Proof.
  unfold np_incr. repeat case_bool_decide; intros [= <-];
    by rewrite length_alter.
Qed.

Lemma np_incr_in_range (arr : list F) iv :
  0 <= iv < Z.of_nat (length arr) →
  np_incr arr iv = inr (alter (λ x, fadd x (of_int 1)) (Z.to_nat iv) arr).
Proof. intros Hiv. unfold np_incr. by rewrite bool_decide_eq_true_2. Qed.

Lemma bin_index_not_IndexError nb (mn mx v : F) :
  bin_index nb mn mx v ≠ inl IndexError.
Proof.
  unfold bin_index. destruct (fdiv _ _); [|done]. by destruct (to_int _).
Qed.

Lemma hist_wf_lookup (h : animHists F) ih nb :
  hist_wf h → nbins h !! ih = Some nb →
  ∃ f, frqs h !! ih = Some f ∧ Z.of_nat (length f) = nb.
Proof.
  intros Hwf Hnb. unfold hist_wf in Hwf.
  destruct (Forall2_lookup_r _ _ _ _ _ Hwf Hnb) as (f & Hf & Hlen). eauto.
Qed.

Lemma add_value_cases (h : animHists F) ih v nb mn mx iv :
  hist_wf h →
  nbins h !! ih = Some nb → mins h !! ih = Some mn → maxs h !! ih = Some mx →
  bin_index nb mn mx v = inr iv →
  (0 <= iv < nb →
   ∃ f, frqs h !! ih = Some f ∧ (Z.to_nat iv < length f)%nat ∧
        add_value h ih v =
          inr (set_frqs
                 (<[ih := alter (λ x, fadd x (of_int 1)) (Z.to_nat iv) f]> (frqs h))
                 h)) ∧
  (¬ 0 <= iv < nb → add_value h ih v = inr h).
Proof.
  intros Hwf Hnb Hmn Hmx Hiv.
  destruct (hist_wf_lookup h ih nb Hwf Hnb) as (f & Hf & Hlen).
  unfold add_value, lookup_or_IndexError. rewrite Hnb, Hmn, Hmx, Hiv, Hf.
  split.
  - intros Hin. exists f. split; [done|]. split; [lia|].
    rewrite !bool_decide_eq_true_2 by lia. simpl.
    rewrite np_incr_in_range by lia. done.
  - intros Hout. destruct (bool_decide (iv >= 0)) eqn:H0; [|done].
    destruct (bool_decide (iv < nb)) eqn:H1; [|done].
    apply bool_decide_eq_true in H0, H1. lia.
Qed.

Lemma add_value_wf (h h' : animHists F) ih v :
  hist_wf h → add_value h ih v = inr h' →
  hist_wf h' ∧ entries h' = entries h ∧ nbins h' = nbins h ∧
  mins h' = mins h ∧ maxs h' = maxs h.
Proof.
  intros Hwf. unfold add_value, lookup_or_IndexError.
  destruct (nbins h !! ih) as [nb|] eqn:Hnb; [|by repeat case_match].
  destruct (mins h !! ih) as [mn|]; [|by repeat case_match].
  destruct (maxs h !! ih) as [mx|]; [|done].
  destruct (bin_index nb mn mx v) as [e|iv]; [done|].
  destruct (bool_decide (iv >= 0) && bool_decide (iv < nb)); [|by intros [= <-]].
  destruct (frqs h !! ih) as [f|] eqn:Hf; [|done].
  destruct (np_incr f iv) as [e|f'] eqn:Hincr; [done|].
  intros [= <-]. split; [|done]. unfold hist_wf in *. simpl.
  apply np_incr_length in Hincr.
  rewrite <-(list_insert_id (nbins h) ih nb) by done.
  apply Forall2_insert; [done|].
  destruct (Forall2_lookup_lr _ _ _ _ _ _ Hwf Hf Hnb). lia.
Qed.

Lemma add_value_no_IndexError (h : animHists F) ih v :
  hist_wf h → is_Some (nbins h !! ih) → is_Some (mins h !! ih) →
  is_Some (maxs h !! ih) → add_value h ih v ≠ inl IndexError.
Proof.
  intros Hwf [nb Hnb] [mn Hmn] [mx Hmx].
  destruct (bin_index nb mn mx v) as [e|iv] eqn:Hiv.
  - unfold add_value, lookup_or_IndexError. rewrite Hnb, Hmn, Hmx, Hiv.
    intros [= ->]. by eapply bin_index_not_IndexError.
  - destruct (add_value_cases h ih v nb mn mx iv) as [Hin Hout]; try done.
    destruct (decide (0 <= iv < nb)) as [Hr|Hr].
    + destruct (Hin Hr) as (f & _ & _ & ->). done.
    + by rewrite (Hout Hr).
Qed.

Lemma add_values_entries (vs : list F) : ∀ (h : animHists F) ih,
  hist_wf h →
  hist_wf (add_values h ih vs).1 ∧
  entries (add_values h ih vs).1 = entries h.
Proof.
  induction vs as [|v vs IH]; intros h ih Hwf; simpl; [done|].
  destruct (add_value h ih v) as [e|h'] eqn:Hadd; [done|].
  destruct (add_value_wf h h' ih v Hwf Hadd) as (Hwf' & He & _).
  destruct (IH h' ih Hwf') as [? ?]. split; [done|congruence].
Qed.

Lemma add_values_out_of_range (vs : list F) (h : animHists F) ih nb mn mx :
  hist_wf h →
  nbins h !! ih = Some nb → mins h !! ih = Some mn → maxs h !! ih = Some mx →
  Forall (λ v, ∃ iv, bin_index nb mn mx v = inr iv ∧ ¬ 0 <= iv < nb) vs →
  add_values h ih vs = (h, None).
Proof.
  intros Hwf Hnb Hmn Hmx Hall.
  induction Hall as [|v vs (iv & Hiv & Hout) _ IH]; simpl; [done|].
  destruct (add_value_cases h ih v nb mn mx iv) as [_ Hsame]; try done.
  by rewrite (Hsame Hout).
Qed.

Lemma redraw_keeps (h : animHists F) ih :
  frqs (redraw h ih).1 = frqs h ∧ entries (redraw h ih).1 = entries h.
Proof.
  unfold redraw. repeat case_match; simplify_eq/=; done.
Qed.

Lemma mapM_Forall2 {A B} (f : A → Exn + B) l ys :
  mapM f l = inr ys → Forall2 (λ x y, f x = inr y) l ys.
Proof.
  revert ys. induction l as [|x l IH]; intros ys; simpl.
  - intros [= <-]. constructor.
  - destruct (f x) as [e|y] eqn:Hx; [done|].
    destruct (mapM f l) as [e|ys']; [done|]. intros [= <-].
    constructor; [done|]. by apply IH.
Qed.

Lemma hist_init_ok descr (h : animHists F) :
  hist_init descr = inr h → hist_ok h.
Proof.
  unfold hist_init.
  destruct (mapM check_nbins descr) as [e|us] eqn:Hchk; [done|].
  destruct (mapM initial_frqs descr) as [e|fs] eqn:Hfs; [done|].
  intros [= <-]. unfold hist_ok, hist_wf. simpl.
  rewrite !length_fmap, length_replicate. split; [|done].
  apply mapM_Forall2 in Hchk, Hfs. apply Forall2_fmap_r.
  revert us Hchk. induction Hfs as [|d f descr fs Hf _ IH]; intros us Hchk;
    [constructor|].
  inversion Hchk as [|? u ? us' Hd Hrest]; subst.
  constructor; [|by eapply IH].
  unfold check_nbins in Hd. repeat case_bool_decide; try done.
  unfold initial_frqs in Hf. destruct (fdiv _ _); [|done].
  injection Hf as <-. simpl.
  destruct (h_type d); rewrite length_replicate; lia.
Qed.

Lemma add_values_ok (vs : list F) : ∀ (h : animHists F) ih,
  hist_ok h → hist_ok (add_values h ih vs).1.
Proof.
  induction vs as [|v vs IH]; intros h ih Hok; simpl; [done|].
  destruct (add_value h ih v) as [e|h'] eqn:Hadd; [done|].
  apply IH. destruct Hok as (Hwf & Hn & Hmn & Hmx & He).
  destruct (add_value_wf h h' ih v Hwf Hadd) as (? & E1 & E2 & E3 & E4).
  assert (nHist h' = nHist h) as E5.
  { unfold add_value in Hadd. repeat case_match; simplify_eq/=; done. }
  unfold hist_ok. rewrite E1, E2, E3, E4, E5. done.
Qed.

Lemma redraw_ok (h : animHists F) ih : hist_ok h → hist_ok (redraw h ih).1.
Proof. unfold redraw. repeat case_match; simplify_eq/=; done. Qed.

Lemma update_hist_ok vals (h : animHists F) ih :
  hist_ok h → hist_ok (update_hist vals h ih).1.
Proof.
  intros Hok. unfold update_hist.
  destruct (lookup_or_IndexError vals ih) as [e|vs]; [done|].
  destruct (lookup_or_IndexError (entries h) ih) as [e|x]; [done|].
  set (h1 := set_entries _ h).
  assert (hist_ok h1) as Hok1.
  { destruct Hok as (Hwf & Hn & Hmn & Hmx & He). unfold hist_ok, h1. simpl.
    by rewrite length_insert. }
  pose proof (add_values_ok vs h1 ih Hok1) as Hok2.
  destruct (add_values h1 ih vs) as [h2 [err|]]; simpl in *; [done|].
  destruct vs; [done|]. by apply redraw_ok.
Qed.

Lemma update_all_ok vals ihs : ∀ (h : animHists F),
  hist_ok h → hist_ok (update_all vals h ihs).1.
Proof.
  induction ihs as [|ih ihs IH]; intros h Hok; simpl; [done|].
  pose proof (update_hist_ok vals h ih Hok) as Hok'.
  destruct (update_hist vals h ih) as [h' [e|]]; simpl in *; [done|].
  by apply IH.
Qed.

Lemma hist_reachable_ok (h : animHists F) : hist_reachable h → hist_ok h.
Proof.
  induction 1 as [descr h Hinit|h _ IH|h vals _ IH].
  - by eapply hist_init_ok.
  - done.
  - destruct vals as [vals|]; simpl; [|done]. by apply update_all_ok.
Qed.

(** C10.  For every [animHists] object (built by [__init__], then drawn and
    called any number of times) and every histogram [ih] of it: when
    [__call__] handles a value [v] whose bin index is [iv], the frequency
    array is written only if [0 <= iv < nbins], and then at position [iv],
    which is inside the array, so the update never raises [IndexError] (nor
    wraps around through a negative index); for an index outside that range
    the object is left as it is.  The entries counter of the histogram grows
    by the number of values handed in, whatever their indices, and when all
    of them fall outside the range no frequency array changes. *)
Theorem animHists_bin_update_in_bounds (h : animHists F) ih :
  hist_reachable h → (ih < nHist h)%nat →
  ∃ nb mn mx e,
    nbins h !! ih = Some nb ∧ mins h !! ih = Some mn ∧
    maxs h !! ih = Some mx ∧ entries h !! ih = Some e ∧
    (∀ v iv, bin_index nb mn mx v = inr iv →
       (0 <= iv < nb →
        ∃ f, frqs h !! ih = Some f ∧ (Z.to_nat iv < length f)%nat ∧
             add_value h ih v =
               inr (set_frqs
                      (<[ih := alter (λ x, fadd x (of_int 1)) (Z.to_nat iv) f]>
                         (frqs h)) h)) ∧
       (¬ 0 <= iv < nb → add_value h ih v = inr h)) ∧
    (∀ v, add_value h ih v ≠ inl IndexError) ∧
    (∀ vals vs, vals !! ih = Some vs →
       entries (update_hist vals h ih).1 =
         <[ih := fadd e (of_int (Z.of_nat (length vs)))]> (entries h) ∧
       (Forall (λ v, ∃ iv, bin_index nb mn mx v = inr iv ∧ ¬ 0 <= iv < nb) vs →
        frqs (update_hist vals h ih).1 = frqs h)).
Proof.
  intros (Hwf & Hn & Hm & Hx & He)%hist_reachable_ok Hih.
  destruct (lookup_lt_is_Some_2 (nbins h) ih) as [nb Hnb]; [lia|].
  destruct (lookup_lt_is_Some_2 (mins h) ih) as [mn Hmn]; [lia|].
  destruct (lookup_lt_is_Some_2 (maxs h) ih) as [mx Hmx]; [lia|].
  destruct (lookup_lt_is_Some_2 (entries h) ih) as [e Hent]; [lia|].
  exists nb, mn, mx, e. split_and!; try done.
  - intros v iv Hiv. by apply (add_value_cases h ih v nb mn mx iv).
  - intros v. apply add_value_no_IndexError; eauto.
  - intros vals vs Hvs. unfold update_hist, lookup_or_IndexError.
    rewrite Hvs, Hent.
    set (h1 := set_entries _ h).
    assert (hist_wf h1) as Hwf1 by done.
    destruct (add_values_entries vs h1 ih Hwf1) as [_ Hent1].
    split.
    + destruct (add_values h1 ih vs) as [h2 [err|]]; simpl in *; [done|].
      destruct vs; [done|]. by rewrite (proj2 (redraw_keeps h2 ih)).
    + intros Hall.
      rewrite (add_values_out_of_range vs h1 ih nb mn mx) by done.
      destruct vs; [done|]. by rewrite (proj1 (redraw_keeps h1 ih)).
Qed.

End HistogramFacts.

Lemma animHists_bin_update_in_bounds_witness :
  add_value demo_hist 0 (12 # 1)%Q = inr demo_hist ∧
  add_value demo_hist 0 (3 # 1)%Q ≠ inl IndexError ∧
  entries (update_hist [[(12 # 1)%Q; (-3 # 1)%Q]] demo_hist 0).1 =
    [fadd (0 # 1)%Q (of_int 2)] ∧
  frqs (update_hist [[(12 # 1)%Q; (-3 # 1)%Q]] demo_hist 0).1 = frqs demo_hist.
Proof.
  assert (hist_reachable demo_hist) as Hreach.
  { change demo_hist with (hist_draw demo_hist0).
    apply reach_draw, (reach_init demo_descr). reflexivity. }
  destruct (animHists_bin_update_in_bounds demo_hist 0 Hreach)
    as (nb & mn & mx & e & Hnb & Hmn & Hmx & He & Hval & Hsafe & Hcall).
  { simpl. lia. }
  injection Hnb as <-. injection Hmn as <-. injection Hmx as <-.
  injection He as <-.
  split; [|split; [apply Hsafe|]].
  - apply (Hval (12 # 1)%Q 6); [reflexivity|lia].
  - destruct (Hcall [[(12 # 1)%Q; (-3 # 1)%Q]] [(12 # 1)%Q; (-3 # 1)%Q]
                eq_refl) as [Hent Hfrq].
    split; [exact Hent|]. apply Hfrq.
    repeat constructor.
    + exists 6. split; [reflexivity|lia].
    + exists (-1). split; [reflexivity|lia].
Defined.

(** ** Strings: decimal numbers and paths *)

#[local] Arguments String.append !_ _ / : simpl nomatch.

Example dirname_prefix :
  PyStr.dirname "target/demo_2024-01-02_030405/" = "target/demo_2024-01-02_030405".
Proof. reflexivity. Qed.
Example dirname_noslash : PyStr.dirname "target/run" = "target".
Proof. reflexivity. Qed.
Example basename_ex : PyStr.basename "cfg/a.yaml" = "a.yaml".
Proof. reflexivity. Qed.
Example stem_ex : PyStr.path_stem "examples/demo_setup.yaml" = "demo_setup".
Proof. reflexivity. Qed.
Example stem_ex2 : PyStr.path_stem ".bashrc" = ".bashrc".
Proof. reflexivity. Qed.
Example find_ex : PyStr.find "demo_setup" "setup" = 5.
Proof. reflexivity. Qed.
Example find_ex2 : PyStr.find "config" "setup" = -1.
Proof. reflexivity. Qed.
Example slice_ex : PyStr.slice_to "config" (-1) = "confi".
Proof. reflexivity. Qed.
Example fmt_ex : PyStr.format_0d 4 33 = "0033".
Proof. vm_compute. reflexivity. Qed.
Example rs_ex : PyStr.removesuffix "/a/b/mod" "mod" = "/a/b/".
Proof. reflexivity. Qed.

Lemma string_app_nil_r (s : string) : s +:+ "" = s.
Proof. induction s; simpl; [done|]. by f_equal. Qed.

Lemma string_app_assoc (a b c : string) : (a +:+ b) +:+ c = a +:+ (b +:+ c).
Proof. induction a; simpl; [done|]. by f_equal. Qed.

Lemma all_digits_app a b :
  all_digits (a +:+ b) = all_digits a && all_digits b.
Proof.
  induction a as [|c a IH]; simpl; [done|]. by rewrite IH, andb_assoc.
Qed.

Lemma pretty_N_char_digit x : is_digit (pretty_N_char x) = true.
Proof. unfold pretty_N_char. by repeat case_match. Qed.

Lemma pretty_N_go_digits x : ∀ s,
  ∃ d, pretty_N_go x s = d +:+ s ∧ all_digits d = true ∧
       ((0 < x)%N → d ≠ "").
Proof.
  induction (N.lt_wf_0 x) as [x _ IH]. intros s.
  destruct (decide (0 < x)%N) as [Hpos|Hz].
  - rewrite pretty_N_go_step by done.
    destruct (IH (x `div` 10)%N) with (s := String (pretty_N_char (x `mod` 10)) s)
      as (d & -> & Hd & _).
    { by apply N.div_lt. }
    exists (d +:+ String (pretty_N_char (x `mod` 10)) "").
    rewrite string_app_assoc. split; [done|]. split.
    + rewrite all_digits_app, Hd. simpl. by rewrite pretty_N_char_digit.
    + intros _. by destruct d.
  - assert (x = 0%N) as -> by lia. exists "". split; [done|]. split; [done|lia].
Qed.

Lemma str_digits n : PyStr.str n ≠ "" ∧ all_digits (PyStr.str n) = true.
Proof.
  unfold PyStr.str, pretty, pretty_nat, pretty, pretty_N.
  case_decide; [done|].
  destruct (pretty_N_go_digits (N.of_nat n) "") as (d & -> & Hd & Hne).
  rewrite string_app_nil_r. split; [apply Hne; lia|done].
Qed.

Lemma repeat_zero_digits k : all_digits (PyStr.repeat "0" k) = true.
Proof. induction k; simpl; [done|]. done. Qed.

Lemma format_0d_digits w n :
  PyStr.format_0d w n ≠ "" ∧ all_digits (PyStr.format_0d w n) = true.
Proof.
  destruct (str_digits n) as [Hne Hd]. unfold PyStr.format_0d. split.
  - destruct (PyStr.repeat "0" _); [done|done].
  - by rewrite all_digits_app, repeat_zero_digits, Hd.
Qed.

Lemma str_inj : Inj (=) (=) PyStr.str.
Proof. unfold PyStr.str. apply _. Qed.

Lemma take_index_of s k :
  PyStr.index_of "setup" s = Some k →
  PyStr.slice_to s (PyStr.find s "setup") = PyStr.take k s.
Proof.
  intros Hk. unfold PyStr.find, PyStr.slice_to. rewrite Hk.
  rewrite bool_decide_eq_true_2 by lia. by rewrite Nat2Z.id.
Qed.

Lemma rstrip_sep_digits b :
  all_digits b = true → PyStr.rstrip_sep b = b.
Proof.
  induction b as [|c b IH]; simpl; [done|].
  intros [Hc Hb]%andb_true_iff. rewrite IH by done.
  assert (PyStr.is_sep c = false) as ->; [|done].
  unfold PyStr.is_sep. apply bool_decide_eq_false. intros ->. done.
Qed.

Lemma rstrip_sep_app a b :
  b ≠ "" → all_digits b = true → PyStr.rstrip_sep (a +:+ b) = a +:+ b.
Proof.
  intros Hne Hb. induction a as [|c a IH]; simpl.
  - by apply rstrip_sep_digits.
  - rewrite IH. destruct (String.eqb_spec (a +:+ b) "") as [Heq|_].
    + destruct a; [done|done].
    + by rewrite andb_false_r.
Qed.

Lemma rstrip_sep_slash a :
  a ≠ "" → PyStr.rstrip_sep a = a → PyStr.rstrip_sep (a +:+ "/") = a.
Proof.
  induction a as [|c a IH]; [done|]. intros _. simpl.
  destruct a as [|c' a].
  - simpl. destruct (PyStr.is_sep c); [done|]. simpl. done.
  - intros Hr.
    assert (PyStr.rstrip_sep (String c' a) = String c' a) as Hr'.
    { simpl in Hr. destruct (PyStr.is_sep c && _); [done|]. by injection Hr. }
    rewrite IH by done. destruct (PyStr.is_sep c); done.
Qed.

Lemma split_last_sep_slash a :
  PyStr.split_last_sep (a +:+ "/") = (a +:+ "/", "").
Proof.
  induction a as [|c a IH]; [done|]. simpl. rewrite IH.
  by destruct a.
Qed.

Lemma dirname_slash a b :
  b ≠ "" → all_digits b = true →
  PyStr.dirname (String "t" a +:+ b +:+ "/") = String "t" a +:+ b.
Proof.
  intros Hne Hb. unfold PyStr.dirname.
  rewrite <-string_app_assoc, split_last_sep_slash. simpl. f_equal.
  apply rstrip_sep_slash; [|by apply rstrip_sep_app].
  destruct a; [done|done].
Qed.

(** ** The output directory *)

Lemma main_run_log_prefix w fuel st :
  log st `prefix_of` log (main_run w fuel st).1.
Proof.
  apply (inv_main_run (λ l, log st `prefix_of` l) (λ _, true)).
  - intros l e _ Hl. by apply prefix_app_r.
  - done.
  - unfold log_inv. reflexivity.
Qed.

Lemma directory_prefix_shape f t :
  ∃ a b, b ≠ "" ∧ all_digits b = true ∧
    directory_prefix f t = String "t" a +:+ b +:+ "/" ∧
    String "t" a +:+ b = "target/" +:+ template_name f +:+ time_code t.
Proof.
  exists ("arget/" +:+ template_name f +:+
            PyStr.format_0d 4 (tm_year t) +:+ "-" +:+
            PyStr.format_0d 2 (tm_mon t) +:+ "-" +:+
            PyStr.format_0d 2 (tm_mday t) +:+ "_" +:+
            PyStr.format_0d 2 (tm_hour t) +:+ PyStr.format_0d 2 (tm_min t)),
         (PyStr.format_0d 2 (tm_sec t)).
  destruct (format_0d_digits 2 (tm_sec t)) as [Hne Hd].
  split; [done|]. split; [done|].
  unfold directory_prefix, time_code. simpl.
  repeat (progress (rewrite ?string_app_assoc; simpl)). done.
Qed.

Lemma setup_copy_dest_eq f t :
  setup_copy_dest f t = directory_prefix f t +:+ f.
Proof.
  unfold setup_copy_dest.
  destruct (directory_prefix_shape f t) as (a & b & Hne & Hd & -> & Heq).
  rewrite dirname_slash by done. by rewrite !string_app_assoc.
Qed.

(** C8, as amended.  For a setup file whose stem contains ["setup"], the
    main script creates the directory [target/<prefix><YYYY-MM-DD_HHMMSS>/],
    where [<prefix>] is the stem up to the first ["setup"], with mode
    [0o770], then copies the setup file to that directory followed by the
    setup file name as given; both happen before anything else is logged, so
    before any worker process is started.  (When the copy fails the script
    ends there.) *)
Theorem output_directory_layout w f t path fuel k y :
  f ≠ "" →
  PyStr.index_of "setup" (PyStr.path_stem f) = Some k →
  yaml_load w (abspath w f) = inr y →
  let dir := "target/" +:+ PyStr.take k (PyStr.path_stem f) +:+ time_code t +:+ "/" in
  directory_prefix f t = dir ∧
  (if copyfile_ok w (abspath w f) (dir +:+ f)
   then ∃ rest,
          (main w f t path fuel).1 =
            EvMakedirs dir 504 :: EvCopyfile (abspath w f) (dir +:+ f) :: rest ∧
          ∀ i pid, (main w f t path fuel).1 !! i = Some (EvStart pid) →
                   (2 ≤ i)%nat
   else main w f t path fuel = ([EvMakedirs dir 504], inl (OSError (dir +:+ f)))).
Proof.
  intros Hf Hk Hy dir.
  assert (directory_prefix f t = dir) as Hdir.
  { unfold directory_prefix, template_name, dir. by rewrite (take_index_of _ k). }
  split; [done|].
  unfold main, main_prelude.
  destruct (String.eqb_spec f "") as [|_]; [done|].
  rewrite Hy, setup_copy_dest_eq, Hdir.
  destruct (copyfile_ok w (abspath w f) (dir +:+ f)); simpl; [|done].
  assert (∀ l : list Event,
            [EvMakedirs dir 504; EvCopyfile (abspath w f) (dir +:+ f)] `prefix_of` l →
            ∃ rest, l = EvMakedirs dir 504 :: EvCopyfile (abspath w f) (dir +:+ f) :: rest ∧
                    ∀ i pid, l !! i = Some (EvStart pid) → (2 ≤ i)%nat) as Hpre.
  { intros l [rest ->]. exists rest. split; [done|].
    intros [|[|i]] pid Hi; simplify_eq/=; lia. }
  destruct (py_getitem y (VStr "RingBuffer")) as [e|rb]; simpl.
  { apply Hpre. by exists []. }
  destruct (py_getitem y (VStr "Functions")) as [e|fd]; simpl.
  { apply Hpre. by exists []. }
  destruct (init rb fd dir) as [e|bc]; simpl.
  { apply Hpre. by exists [EvHook "appl_init"]. }
  apply Hpre. etrans; [|apply main_run_log_prefix]. simpl.
  by exists [EvHook "appl_init"].
Qed.

Lemma output_directory_layout_witness :
  directory_prefix "demo_setup.yaml" demo_time = "target/demo_2024-03-09_140507/" ∧
  ∃ rest,
    (main demo_world "demo_setup.yaml" demo_time [] 5).1 =
      EvMakedirs "target/demo_2024-03-09_140507/" 504
      :: EvCopyfile "/daq/demo_setup.yaml"
           "target/demo_2024-03-09_140507/demo_setup.yaml" :: rest.
Proof.
  destruct (output_directory_layout demo_world "demo_setup.yaml" demo_time []
              5 5 demo_setup) as [Hdir Hlog]; [done|reflexivity|reflexivity|].
  split; [exact Hdir|].
  destruct Hlog as (rest & Hrest & _). exists rest. exact Hrest.
Defined.

(** C8 as stated fails: the directory is not named after the whole stem of
    the setup file followed by ["_"] and the time code. *)
Lemma output_directory_not_stem_underscore_time :
  (main demo_world "demo_setup.yaml" demo_time [] 5).1 !! 0%nat =
    Some (EvMakedirs "target/demo_2024-03-09_140507/" 504) ∧
  "target/demo_2024-03-09_140507/" ≠
    "target/" +:+ PyStr.path_stem "demo_setup.yaml" +:+ "_" +:+
      time_code demo_time +:+ "/".
Proof. split; [by vm_compute|]. by vm_compute. Qed.


(** ** Invariants of the controller object *)

Section SelfInvariant.
Variable Q : buffer_control → Prop.

Lemma sinv_emit e : inv (self_inv Q) (emit e).
Proof. by intros st HQ. Qed.

Lemma sinv_add_sys_path p : inv (self_inv Q) (add_sys_path p).
Proof. intros st HQ. unfold add_sys_path. simpl. by case_bool_decide. Qed.

Lemma sinv_import_module w m : inv (self_inv Q) (import_module w m).
Proof. by intros st HQ. Qed.

Lemma sinv_fresh_process_id : inv (self_inv Q) fresh_process_id.
Proof. by intros st HQ. Qed.

Lemma sinv_global : inv (self_inv Q) global_parallel_functions_dict.
Proof.
  intros st HQ. unfold global_parallel_functions_dict.
  by destruct (parallel_functions_dict st).
Qed.

Lemma sinv_modify_self f : (∀ bc, Q bc → Q (f bc)) → inv (self_inv Q) (modify_self f).
Proof. intros Hf st HQ. by apply Hf. Qed.

End SelfInvariant.

Ltac inv_self :=
  repeat first
    [ inv_step
    | simple apply sinv_emit | simple apply sinv_add_sys_path
    | simple apply sinv_import_module | simple apply sinv_fresh_process_id
    | simple apply sinv_global
    | simple apply sinv_modify_self; intros ? ? ].

(** Computations that only read, log and import leave the object alone. *)
Lemma fkt_item_eq i key st :
  fkt_item i ("Fkt_" +:+ PyStr.str i) key st =
    (st, worker_field (functions_dict (self st)) i key).
Proof.
  unfold fkt_item, worker_field, get_self, bind, lift.
  destruct (py_getitem _ _) as [e|entry]; [done|].
  by destruct (py_getitem entry _).
Qed.

Lemma items_of_pairs_not_KeyError l e :
  items_of_pairs l = inl e → is_KeyError e = false.
Proof.
  revert e. induction l as [|x l IH]; intros e; simpl; [done|].
  repeat case_match; intros; simplify_eq; eauto.
Qed.

Lemma py_dict_not_KeyError a e : py_dict a = inl e → is_KeyError e = false.
Proof.
  destruct a; simpl; intros He; simplify_eq; try done.
  destruct (items_of_pairs l) eqn:Hl; simplify_eq.
  by eapply items_of_pairs_not_KeyError.
Qed.

Lemma assigned_ringbuffers_eq i st :
  try_except (a <- fkt_item i ("Fkt_" +:+ PyStr.str i) "RB_assign" ;;
              lift (py_dict a)) is_KeyError (λ _, ret []) st =
    (st, assigned_ringbuffers_of (functions_dict (self st)) i).
Proof.
  unfold try_except, bind, assigned_ringbuffers_of. rewrite fkt_item_eq.
  destruct (worker_field _ _ _) as [e|a]; simpl.
  - by destruct (is_KeyError e).
  - unfold lift. destruct (py_dict a) as [e|d] eqn:Hd; [|done].
    by rewrite (py_dict_not_KeyError a e Hd).
Qed.

(** ** The configuration of a worker *)

(** The step of lines 115-135 for a worker definition without a
    [config_file] of its own: with the common configuration loaded and
    holding no usable section for the callable, the worker gets the empty
    configuration plus [directory_prefix], after a warning ... *)
Lemma resolve_config_common_without_section w i fkt c e st :
  is_KeyError
    (match worker_field (functions_dict (self st)) i "config_file" with
     | inl x => x
     | inr _ => TypeError
     end) = true →
  py_getitem c fkt = inl e → is_KeyError_or_TypeError e = true →
  resolve_config w i ("Fkt_" +:+ PyStr.str i) fkt (Some c) st =
    (with_log
       (log st ++ [EvPrint "Warning: no configuration found for file '{}'!" [fkt]])
       st,
     inr ([("directory_prefix", VStr (out_dir (self st)))], Some c)).
Proof.
  intros Hown Hsec He. unfold resolve_config, try_except at 1, bind at 1.
  unfold bind at 1. rewrite fkt_item_eq.
  destruct (worker_field _ _ _) as [x|]; [|done]. rewrite Hown.
  unfold ret at 1, get_self, bind at 1. unfold bind at 1, try_except.
  unfold bind at 1, lift. rewrite Hsec, He.
  by unfold bind, print, emit, ret.
Qed.

(** ... but with no common configuration loaded the local variable is
    unbound and the step ends with [UnboundLocalError]. *)
Lemma resolve_config_without_common_raises w i fkt st :
  is_KeyError
    (match worker_field (functions_dict (self st)) i "config_file" with
     | inl x => x
     | inr _ => TypeError
     end) = true →
  resolve_config w i ("Fkt_" +:+ PyStr.str i) fkt None st =
    (st, inl (UnboundLocalError "config_dict_common")).
Proof.
  intros Hown. unfold resolve_config, try_except at 1, bind at 1.
  unfold bind at 1. rewrite fkt_item_eq.
  destruct (worker_field _ _ _) as [x|]; [|done]. rewrite Hown.
  by unfold ret at 1, get_self, bind at 1.
Qed.

(** C5, where the code departs from it.  With no common configuration file
    in the main entry and no [config_file] in the worker definition, the
    lookup [config_dict_common[fkt_py_name]] reads a local variable that was
    never assigned; the [UnboundLocalError] is not among the exceptions the
    handler catches, so [setup_workers] ends with it instead of handing the
    worker an empty configuration, and no process object is created. *)
Theorem setup_workers_without_config_files_raises :
  main nocfg_world "demo_setup.yaml" demo_time [] 5 =
    ([EvMakedirs "target/demo_2024-03-09_140507/" 504;
      EvCopyfile "/daq/demo_setup.yaml"
        "target/demo_2024-03-09_140507/demo_setup.yaml";
      EvHook "appl_init"; EvNewBuffer "RB_1"; EvNewBuffer "RB_2";
      EvPrint "{:d} buffers created..." [VInt 2]],
     inl (UnboundLocalError "config_dict_common")).
Proof. by vm_compute. Qed.

(** ** The parts of [setup_worker] *)

Section PartsLog.
Variable P : list Event → Prop.
Variable allowed : Event → bool.
Hypothesis P_app : ∀ l e, allowed e = true → P l → P (l ++ [e]).
Hypothesis allowed_copy : ∀ x y, allowed (EvCopyfile x y) = true.
Hypothesis allowed_print : ∀ x y, allowed (EvPrint x y) = true.

Lemma linv_resolve_config w i n f c :
  inv (log_inv P) (resolve_config w i n f c).
Proof.
  pose proof (inv_fkt_item P) as Hitem.
  pose proof (inv_emit P allowed P_app) as Hemit.
  pose proof (inv_modify_self P) as Hmod.
  unfold resolve_config, copy_config, copyfile, get_config, print.
  repeat first [ inv_step | simple apply Hemit; solve [auto] ].
Qed.

Lemma linv_import_function w m f : inv (log_inv P) (import_function w m f).
Proof.
  pose proof (inv_emit P allowed P_app) as Hemit.
  pose proof (inv_add_sys_path P) as Hadd.
  pose proof (inv_import_module P) as Himp.
  unfold import_function, print.
  repeat first [ inv_step | simple apply Hemit; solve [auto] ].
Qed.

Lemma linv_load_common_config w : inv (log_inv P) (load_common_config w).
Proof.
  pose proof (inv_emit P allowed P_app) as Hemit.
  pose proof (inv_modify_self P) as Hmod.
  pose proof (inv_global P) as Hg.
  unfold load_common_config, copy_config, copyfile, get_config.
  repeat first [ inv_step | simple apply Hemit; solve [auto] ].
Qed.

End PartsLog.

Section PartsSelf.
Variable Q : buffer_control → Prop.

Lemma sinv_fkt_item i n k : inv (self_inv Q) (fkt_item i n k).
Proof. unfold fkt_item. inv_self. Qed.

Lemma sinv_resolve_config w i n f c :
  inv (self_inv Q) (resolve_config w i n f c).
Proof.
  pose proof sinv_fkt_item as Hitem.
  unfold resolve_config, copy_config, copyfile, get_config, print. inv_self.
Qed.

Lemma sinv_import_function w m f : inv (self_inv Q) (import_function w m f).
Proof. unfold import_function, print. inv_self. Qed.

End PartsSelf.

(** [sys.path] is touched by [import_function] only; everything else of the
    state but the log is left alone by the configuration step. *)
Lemma resolve_config_sys_path w i n f c st :
  sys_path (resolve_config w i n f c st).1 = sys_path st ∧
  parallel_functions_dict (resolve_config w i n f c st).1 =
    parallel_functions_dict st.
Proof.
  assert (inv (λ s, sys_path s = sys_path st ∧
                    parallel_functions_dict s = parallel_functions_dict st)
              (resolve_config w i n f c)) as Hinv; [|by apply Hinv].
  assert (∀ e, inv (λ s, sys_path s = sys_path st ∧
                    parallel_functions_dict s = parallel_functions_dict st)
                 (emit e)) as Hemit by (by intros e s Hs).
  assert (∀ i n k, inv (λ s, sys_path s = sys_path st ∧
                    parallel_functions_dict s = parallel_functions_dict st)
                 (fkt_item i n k)) as Hitem.
  { intros. unfold fkt_item. inv_walk. }
  unfold resolve_config, copy_config, copyfile, get_config, print. inv_walk.
Qed.

Lemma new_endpoint_ok kind key st st' ep :
  new_endpoint kind key st = (st', inr ep) →
  ∃ rbs rb,
    ringbuffers (self st) = Some rbs ∧ dict_get key rbs = Some rb ∧
    ep = (rb_alloc kind key rb).2 ∧
    st' = with_self
            (set_ringbuffers (Some (dict_set key (rb_alloc kind key rb).1 rbs))
               (self st))
            (with_log (log st ++ [ev_new kind key]) st).
Proof.
  unfold new_endpoint, get_ringbuffers, get_self, bind at 1 2.
  destruct (ringbuffers (self st)) as [rbs|] eqn:Hr; [|done].
  unfold ret at 1. destruct (dict_get key rbs) as [rb|] eqn:Hg; [|done].
  unfold bind, emit, modify_self, ret. simpl. intros [= <- <-]. eauto 10.
Qed.

Lemma same_but_buffers_refl bc : same_but_buffers bc bc.
Proof. done. Qed.

Lemma same_but_buffers_trans a b c :
  same_but_buffers a b → same_but_buffers b c → same_but_buffers a c.
Proof. intros [? ?] [? ?]. split; congruence. Qed.

Lemma same_but_buffers_set bc rbs k (v : RingBuffer) :
  ringbuffers bc = Some rbs → k ∈ dict_keys rbs →
  same_but_buffers bc (set_ringbuffers (Some (dict_set k v rbs)) bc).
Proof.
  intros Hr Hk. split; [done|]. simpl. rewrite Hr. simpl.
  by rewrite dict_keys_set_in.
Qed.

Lemma assign_endpoint_ok eps kv st st' eps' :
  assign_endpoint eps kv st = (st', inr eps') →
  log st' = log st ++ option_list (role_event kv) ∧
  sys_path st' = sys_path st ∧
  parallel_functions_dict st' = parallel_functions_dict st ∧
  same_but_buffers (self st) (self st') ∧
  (is_role kv.2 = true →
   ∃ rbs, ringbuffers (self st) = Some rbs ∧ kv.1 ∈ dict_keys rbs) ∧
  length (sources eps') =
    (length (sources eps) + if py_eq_str kv.2 "read" then 1 else 0)%nat ∧
  length (sinks eps') =
    (length (sinks eps) +
     if py_eq_str kv.2 "read" then 0
     else if py_eq_str kv.2 "write" then 1 else 0)%nat ∧
  length (observers eps') =
    (length (observers eps) +
     if py_eq_str kv.2 "read" then 0
     else if py_eq_str kv.2 "write" then 0
     else if py_eq_str kv.2 "observe" then 1 else 0)%nat.
Proof.
  unfold assign_endpoint, role_event, is_role.
  destruct (py_eq_str kv.2 "read") eqn:Hread;
    [|destruct (py_eq_str kv.2 "write") eqn:Hwrite;
      [|destruct (py_eq_str kv.2 "observe") eqn:Hobs]].
  4: { unfold ret. intros [= <- <-]. simpl. rewrite app_nil_r.
       split_and!; try done; lia. }
  all: intros Hrun; apply bind_ok in Hrun as (st1 & ep & Hnew & Hret);
    unfold ret in Hret; injection Hret as <- <-;
    apply new_endpoint_ok in Hnew as (rbs & rb & Hr & Hg & -> & ->);
    simpl; rewrite ?length_app; simpl;
    pose proof (dict_get_Some_key _ _ _ Hg) as Hin;
    (split_and!; try done; try lia;
     [by apply same_but_buffers_set|eauto]).
Qed.

Lemma allocate_endpoints_ok items : ∀ eps st st' eps',
  for_fold items eps assign_endpoint st = (st', inr eps') →
  log st' = log st ++ alloc_events items ∧
  sys_path st' = sys_path st ∧
  parallel_functions_dict st' = parallel_functions_dict st ∧
  same_but_buffers (self st) (self st') ∧
  (∀ kv, kv ∈ items → is_role kv.2 = true →
   ∃ rbs, ringbuffers (self st) = Some rbs ∧ kv.1 ∈ dict_keys rbs) ∧
  length (sources eps') =
    (length (sources eps) + length (filter (has_role "read") items))%nat.
Proof.
  induction items as [|kv items IH]; intros eps st st' eps'; simpl.
  - unfold ret. intros [= <- <-]. rewrite app_nil_r.
    split_and!; try done; try lia. by intros kv ?%elem_of_nil.
  - intros Hrun. apply bind_ok in Hrun as (st1 & eps1 & Hstep & Hrest).
    apply assign_endpoint_ok in Hstep
      as (Hlog & Hsp & Hg & Hsame & Hkey & Hsrc & _ & _).
    apply IH in Hrest as (Hlog' & Hsp' & Hg' & Hsame' & Hkey' & Hsrc').
    split_and!.
    + rewrite Hlog', Hlog. unfold alloc_events. simpl.
      destruct (role_event kv); simpl; by rewrite <-app_assoc.
    + congruence.
    + congruence.
    + by eapply same_but_buffers_trans.
    + intros kv' [->|Hin]%elem_of_cons Hrole; [by apply Hkey|].
      destruct (Hkey' kv' Hin Hrole) as (rbs1 & Hr1 & Hin1).
      destruct Hsame as [_ Hkeys]. rewrite Hr1 in Hkeys.
      destruct (ringbuffers (self st)) as [rbs|]; [|done].
      exists rbs. split; [done|]. simpl in Hkeys. by injection Hkeys as ->.
    + rewrite Hsrc', Hsrc. rewrite filter_cons.
      destruct (decide (has_role "read" kv)) as [Hyes|Hno];
        unfold has_role in *.
      * rewrite Hyes. simpl. lia.
      * apply not_true_is_false in Hno. rewrite Hno. lia.
Qed.

Lemma append_process_ok f args kw name st pl :
  process_list (self st) = Some pl →
  ∃ p,
    p_target p = f ∧ p_args p = args ∧ p_kwargs p = kw ∧ p_name p = name ∧
    p_started p = false ∧
    append_process f args kw name st =
      (with_self (set_process_list (Some (pl ++ [p])) (self st))
         (with_log (log st ++ [EvProcessCreate p]) st), inr ()).
Proof.
  intros Hp. eexists. split_and!; [..|
    unfold append_process, get_process_list, get_self, bind at 1 2;
    rewrite Hp; unfold ret at 1, bind, fresh_process_id, emit, modify_self;
    simpl; reflexivity]; done.
Qed.

Lemma append_processes_ok {A} f args kw name (l : list A) : ∀ st pl,
  process_list (self st) = Some pl →
  ∃ procs,
    length procs = length l ∧
    Forall (λ p, p_target p = f ∧ p_args p = args ∧ p_kwargs p = kw ∧
                 p_name p = name ∧ p_started p = false) procs ∧
    for_each l (λ _, append_process f args kw name) st =
      (with_self (set_process_list (Some (pl ++ procs)) (self st))
         (with_log (log st ++ (EvProcessCreate <$> procs)) st), inr ()).
Proof.
  induction l as [|x l IH]; intros st pl Hp.
  - exists []. split; [done|]. split; [constructor|]. simpl. unfold ret.
    rewrite !app_nil_r. destruct st as [lg sp g bc]; simpl in *.
    unfold with_self, with_log. simpl. do 2 f_equal.
    destruct bc; simpl in *. by subst.
  - destruct (append_process_ok f args kw name st pl Hp)
      as (p & Ht & Ha & Hk & Hn & Hs & Hrun).
    destruct (IH (with_self (set_process_list (Some (pl ++ [p])) (self st))
                    (with_log (log st ++ [EvProcessCreate p]) st))
                 (pl ++ [p]) eq_refl) as (procs & Hlen & Hall & Hrest).
    exists (p :: procs). split; [simpl; lia|]. split; [by constructor|].
    simpl. unfold bind. rewrite Hrun, Hrest. simpl.
    unfold with_self, with_log. simpl. by rewrite <-!app_assoc.
Qed.

Lemma setup_worker_ok w cdc i st st' cdc' :
  setup_worker w cdc i st = (st', inr cdc') →
  ∃ file fkt num assigned cfg st1 eps st2 f st3 n,
    worker_field (functions_dict (self st)) i "file_name" = inr file ∧
    worker_field (functions_dict (self st)) i "fkt_name" = inr fkt ∧
    worker_field (functions_dict (self st)) i "num_process" = inr num ∧
    assigned_ringbuffers_of (functions_dict (self st)) i = inr assigned ∧
    resolve_config w i ("Fkt_" +:+ PyStr.str i) fkt cdc st = (st1, inr cfg) ∧
    allocate_endpoints assigned st1 = (st2, inr eps) ∧
    import_function w file fkt st2 = (st3, inr f) ∧
    py_range num = inr n ∧
    for_each (seq 0 n)
      (λ _, append_process f (worker_args eps cfg.1) assigned fkt) st3 =
      (st', inr ()) ∧
    cdc' = cfg.2.
Proof.
  unfold setup_worker. intros Hrun.
  apply bind_ok in Hrun as (s & file & Hfile & Hrun).
  rewrite fkt_item_eq in Hfile. injection Hfile as <- Hfile.
  apply bind_ok in Hrun as (s & fkt & Hfkt & Hrun).
  rewrite fkt_item_eq in Hfkt. injection Hfkt as <- Hfkt.
  apply bind_ok in Hrun as (s & num & Hnum & Hrun).
  rewrite fkt_item_eq in Hnum. injection Hnum as <- Hnum.
  apply bind_ok in Hrun as (s & assigned & Hass & Hrun).
  rewrite assigned_ringbuffers_eq in Hass. injection Hass as <- Hass.
  apply bind_ok in Hrun as (st1 & cfg & Hcfg & Hrun).
  apply bind_ok in Hrun as (st2 & eps & Heps & Hrun).
  apply bind_ok in Hrun as (st3 & f & Himp & Hrun).
  apply bind_ok in Hrun as (s & n & Hn & Hrun).
  unfold lift in Hn. injection Hn as <- Hn.
  apply bind_ok in Hrun as (st4 & [] & Happ & Hret).
  unfold ret in Hret. injection Hret as <- <-.
  exists file, fkt, num, assigned, cfg, st1, eps, st2, f, st3, n.
  split_and!; done.
Qed.

Lemma n_reader_groups_app b l l' :
  n_reader_groups b (l ++ l') =
    (n_reader_groups b l + n_reader_groups b l')%nat.
Proof. unfold n_reader_groups. by rewrite filter_app, length_app. Qed.

Lemma n_reader_groups_creates b (procs : list Process) :
  n_reader_groups b (EvProcessCreate <$> procs) = 0%nat.
Proof.
  unfold n_reader_groups. induction procs as [|p procs IH]; [done|].
  simpl. rewrite filter_cons. by rewrite decide_False by done.
Qed.

Lemma n_reader_groups_role b k v :
  n_reader_groups b (option_list (role_event (k, v))) =
    if String.eqb k b && py_eq_str v "read" then 1%nat else 0%nat.
Proof.
  unfold role_event, n_reader_groups. simpl.
  destruct (py_eq_str v "read"); simpl.
  - rewrite filter_cons. case_decide as Hd; simpl in Hd; rewrite andb_true_r.
    + by rewrite Hd.
    + by apply not_true_is_false in Hd as ->.
  - rewrite andb_false_r.
    destruct (py_eq_str v "write"); [|destruct (py_eq_str v "observe")];
      simpl; rewrite ?filter_cons; try case_decide; done.
Qed.

Lemma alloc_events_cons kv items :
  alloc_events (kv :: items) =
    option_list (role_event kv) ++ alloc_events items.
Proof. unfold alloc_events. simpl. by destruct (role_event kv). Qed.

Lemma n_reader_groups_other b items :
  b ∉ dict_keys items → n_reader_groups b (alloc_events items) = 0%nat.
Proof.
  induction items as [|[k v] items IH]; [done|].
  intros [Hne Hnin]%not_elem_of_cons. simpl in Hne.
  rewrite alloc_events_cons, n_reader_groups_app, n_reader_groups_role.
  rewrite IH by done.
  assert (String.eqb k b = false) as -> by (by apply String.eqb_neq). done.
Qed.

Lemma n_reader_groups_alloc b items :
  NoDup (dict_keys items) →
  n_reader_groups b (alloc_events items) =
    if assigns_read items b then 1%nat else 0%nat.
Proof.
  induction items as [|[k v] items IH]; [done|].
  intros [Hnin Hnd]%NoDup_cons.
  rewrite alloc_events_cons, n_reader_groups_app, n_reader_groups_role.
  unfold assigns_read. simpl in *.
  destruct (String.eqb_spec k b) as [->|Hne]; simpl.
  - rewrite (n_reader_groups_other b items) by done.
    destruct (py_eq_str v "read"); done.
  - by rewrite IH.
Qed.




Lemma created_app l l' : created (l ++ l') = created l ++ created l'.
Proof. unfold created. by rewrite omap_app. Qed.

Lemma created_creates procs : created (EvProcessCreate <$> procs) = procs.
Proof.
  unfold created. induction procs as [|p procs IH]; [done|]. by f_equal/=.
Qed.

Lemma created_alloc items : created (alloc_events items) = [].
Proof.
  induction items as [|kv items IH]; [done|].
  rewrite alloc_events_cons, created_app, IH. unfold role_event.
  by repeat case_match.
Qed.

Lemma created_skip l e :
  negb (is_create e) = true → created (l ++ [e]) = created l.
Proof.
  intros He. rewrite created_app. destruct e; simpl in *; try done;
    by rewrite app_nil_r.
Qed.

(** What setting up one worker definition does to the state. *)
Lemma setup_worker_effect w cdc i st st' cdc' pl :
  setup_worker w cdc i st = (st', inr cdc') →
  process_list (self st) = Some pl →
  ∃ assigned num procs eps cfg f file fkt bc2,
    assigned_ringbuffers_of (functions_dict (self st)) i = inr assigned ∧
    NoDup (dict_keys assigned) ∧
    worker_field (functions_dict (self st)) i "num_process" = inr num ∧
    worker_field (functions_dict (self st)) i "file_name" = inr file ∧
    worker_field (functions_dict (self st)) i "fkt_name" = inr fkt ∧
    py_range num = inr (length procs) ∧
    Forall (λ p, p_target p = f ∧ p_args p = worker_args eps cfg ∧
                 p_kwargs p = assigned ∧ p_name p = fkt ∧
                 p_started p = false) procs ∧
    length (sources eps) = length (filter (has_role "read") assigned) ∧
    same_but_buffers (self st) bc2 ∧
    self st' = set_process_list (Some (pl ++ procs)) bc2 ∧
    parallel_functions_dict st' = parallel_functions_dict st ∧
    created (log st') = created (log st) ++ procs ∧
    (∀ kv, kv ∈ assigned → is_role kv.2 = true →
       ∃ rbs, ringbuffers (self st) = Some rbs ∧ kv.1 ∈ dict_keys rbs) ∧
    (∃ sa sb, import_function w file fkt sa = (sb, inr f)) ∧
    (∀ b, n_reader_groups b (log st') =
            (n_reader_groups b (log st) +
             if assigns_read assigned b then 1 else 0)%nat).
Proof.
  intros Hrun Hpl.
  apply setup_worker_ok in Hrun
    as (file & fkt & num & assigned & cfg & st1 & eps & st2 & f & st3 & n &
        Hfile & Hfkt & Hnum & Hass & Hcfg & Heps & Himp & Hn & Happ & ->).
  assert (NoDup (dict_keys assigned)) as Hnd.
  { unfold assigned_ringbuffers_of in Hass.
    destruct (worker_field (functions_dict (self st)) i "RB_assign")
      as [e|a]; [|by eapply py_dict_NoDup].
    destruct (is_KeyError e); [|done]. injection Hass as <-. constructor. }
  (* the object after each step *)
  assert (self st1 = self st) as Hself1.
  { pose proof (sinv_resolve_config (λ bc, bc = self st) w i
                  ("Fkt_" +:+ PyStr.str i) fkt cdc st eq_refl) as Hs.
    by rewrite Hcfg in Hs. }
  pose proof (resolve_config_sys_path w i ("Fkt_" +:+ PyStr.str i) fkt cdc st)
    as [_ Hg1]. rewrite Hcfg in Hg1. simpl in Hg1.
  apply allocate_endpoints_ok in Heps
    as (Hlog2 & _ & Hg2 & Hsame2 & Hkeys & Hsrc).
  assert (self st3 = self st2 ∧
          parallel_functions_dict st3 = parallel_functions_dict st2)
    as [Hself3 Hg3].
  { assert (inv (λ s, self s = self st2 ∧
                      parallel_functions_dict s = parallel_functions_dict st2)
                (import_function w file fkt)) as Hinv.
    { assert (∀ e, inv (λ s, self s = self st2 ∧
                      parallel_functions_dict s = parallel_functions_dict st2)
                (emit e)) as Hemit by (by intros e s Hs).
      assert (∀ p, inv (λ s, self s = self st2 ∧
                      parallel_functions_dict s = parallel_functions_dict st2)
                (add_sys_path p)) as Hadd.
      { intros p s Hs. unfold add_sys_path. simpl. by case_bool_decide. }
      assert (∀ m, inv (λ s, self s = self st2 ∧
                      parallel_functions_dict s = parallel_functions_dict st2)
                (import_module w m)) as Himpm by (by intros m s Hs).
      unfold import_function, print. inv_walk. }
    specialize (Hinv st2 (conj eq_refl eq_refl)). by rewrite Himp in Hinv. }
  assert (process_list (self st3) = Some pl) as Hpl3.
  { rewrite Hself3. rewrite <-Hpl, <-Hself1. destruct Hsame2 as [Hsame2 _].
    apply (f_equal process_list) in Hsame2. simpl in Hsame2. done. }
  destruct (append_processes_ok f (worker_args eps cfg.1) assigned fkt
              (seq 0 n) st3 pl Hpl3) as (procs & Hlen & Hall & Hrun).
  rewrite Hrun in Happ. injection Happ as <-.
  rewrite length_seq in Hlen.
  (* what the log gains *)
  assert (created (log st1) = created (log st)) as Hc1.
  { pose proof (linv_resolve_config (λ l, created l = created (log st))
                  (λ e, negb (is_create e))) as Hinv.
    unfold inv, log_inv in Hinv.
    specialize (Hinv (λ l e He Hl, eq_trans (created_skip l e He) Hl)
                     (λ _ _, eq_refl) (λ _ _, eq_refl)
                     w i ("Fkt_" +:+ PyStr.str i) fkt cdc st eq_refl).
    by rewrite Hcfg in Hinv. }
  assert (created (log st3) = created (log st2)) as Hc3.
  { pose proof (linv_import_function (λ l, created l = created (log st2))
                  (λ e, negb (is_create e))) as Hinv.
    unfold inv, log_inv in Hinv.
    specialize (Hinv (λ l e He Hl, eq_trans (created_skip l e He) Hl)
                     (λ _ _, eq_refl) w file fkt st2 eq_refl).
    by rewrite Himp in Hinv. }
  exists assigned, num, procs, eps, cfg.1, f, file, fkt, (self st2).
  split; [done|]. split; [done|]. split; [done|]. split; [done|].
  split; [done|]. split; [by rewrite Hlen|]. split; [done|].
  split; [exact Hsrc|]. split; [by rewrite <-Hself1|].
  split; [simpl; by rewrite Hself3|]. split; [simpl; congruence|].
  split.
  { simpl. rewrite created_app, created_creates, Hc3, Hlog2, created_app,
      created_alloc, app_nil_r, Hc1. done. }
  split.
  { intros kv Hin Hrole. rewrite <-Hself1. by apply Hkeys. }
  split; [eauto|].
  - intros b. simpl.
    rewrite n_reader_groups_app, n_reader_groups_creates, Nat.add_0_r.
    assert (∀ l e, negb (is_new_reader b e) = true →
                   n_reader_groups b (l ++ [e]) = n_reader_groups b l) as Hskip.
    { intros l e He. rewrite n_reader_groups_app. unfold n_reader_groups.
      rewrite filter_cons. apply negb_true_iff in He.
      rewrite decide_False by congruence. simpl. lia. }
    assert (n_reader_groups b (log st3) = n_reader_groups b (log st2)) as ->.
    { pose proof (linv_import_function
                    (λ l, n_reader_groups b l = n_reader_groups b (log st2))
                    (λ e, negb (is_new_reader b e))) as Hinv.
      unfold inv, log_inv in Hinv.
      specialize (Hinv (λ l e He Hl, eq_trans (Hskip l e He) Hl)
                       (λ _ _, eq_refl) w file fkt st2 eq_refl).
      by rewrite Himp in Hinv. }
    assert (n_reader_groups b (log st1) = n_reader_groups b (log st)) as E1.
    { pose proof (linv_resolve_config
                    (λ l, n_reader_groups b l = n_reader_groups b (log st))
                    (λ e, negb (is_new_reader b e))) as Hinv.
      unfold inv, log_inv in Hinv.
      specialize (Hinv (λ l e He Hl, eq_trans (Hskip l e He) Hl)
                       (λ _ _, eq_refl) (λ _ _, eq_refl)
                       w i ("Fkt_" +:+ PyStr.str i) fkt cdc st eq_refl).
      by rewrite Hcfg in Hinv. }
    by rewrite Hlog2, n_reader_groups_app, n_reader_groups_alloc, E1.
Qed.



(** ** [setup_workers] as a whole *)

Lemma for_fold_ok_inv {A S} (R : State → Prop) (body : S → A → M S) l :
  (∀ s x st st' s', x ∈ l → R st → body s x st = (st', inr s') → R st') →
  ∀ s st st' s', R st → for_fold l s body st = (st', inr s') →
    R st' ∧
    ∀ x, x ∈ l → ∃ s1 st1 st2 s2, R st1 ∧ body s1 x st1 = (st2, inr s2).
Proof.
  induction l as [|x l IH]; intros Hbody s st st' s' HR; simpl.
  - unfold ret. intros [= <- <-]. split; [done|]. by intros x ?%elem_of_nil.
  - intros Hrun. apply bind_ok in Hrun as (st1 & s1 & Hx & Hrest).
    assert (R st1) as HR1 by (eapply Hbody; [left|done|done]).
    destruct (IH (λ s x' st st' s' Hin, Hbody s x' st st' s' (list_elem_of_further _ _ _ Hin))
                 s1 st1 st' s' HR1 Hrest) as [HR' Heach].
    split; [done|]. intros y [->|Hy]%elem_of_cons; [eauto 10|by apply Heach].
Qed.

Lemma for_each_ok_inv {A} (R : State → Prop) (body : A → M unit) l :
  (∀ x st st', x ∈ l → R st → body x st = (st', inr ()) → R st') →
  ∀ st st', R st → for_each l body st = (st', inr ()) →
    R st' ∧ ∀ x, x ∈ l → ∃ st1 st2, R st1 ∧ body x st1 = (st2, inr ()).
Proof.
  induction l as [|x l IH]; intros Hbody st st' HR; simpl.
  - unfold ret. intros [= <-]. split; [done|]. by intros x ?%elem_of_nil.
  - intros Hrun. apply bind_ok in Hrun as (st1 & [] & Hx & Hrest).
    assert (R st1) as HR1 by (eapply Hbody; [left|done|done]).
    destruct (IH (λ x' st st' Hin, Hbody x' st st' (list_elem_of_further _ _ _ Hin))
                 st1 st' HR1 Hrest) as [HR' Heach].
    split; [done|]. intros y [->|Hy]%elem_of_cons; [eauto 10|by apply Heach].
Qed.

Lemma base_runtime_state st : (base_runtime st).1 = st.
Proof.
  unfold base_runtime, get_self, bind, lift, ret.
  repeat case_match; simplify_eq/=; done.
Qed.

Lemma setup_frame_refl bc : setup_frame bc bc.
Proof. by repeat split. Qed.

Lemma setup_frame_trans a b c :
  setup_frame a b → setup_frame b c → setup_frame a c.
Proof.
  unfold setup_frame. intros (?&?&?&?&?&?&?) (?&?&?&?&?&?&?).
  split_and!; congruence.
Qed.

Lemma same_but_buffers_frame bc bc2 pl :
  same_but_buffers bc bc2 →
  setup_frame bc (set_process_list pl bc2).
Proof.
  intros [Heq Hkeys]. unfold setup_frame. simpl.
  split_and!; try done;
    [by apply (f_equal buffers_dict) in Heq
    |by apply (f_equal number_of_ringbuffers) in Heq
    |by apply (f_equal out_dir) in Heq
    |by apply (f_equal functions_dict) in Heq
    |by apply (f_equal number_of_functions) in Heq
    |by apply (f_equal workers_started) in Heq].
Qed.

Lemma load_common_config_frame w st :
  setup_frame (self st) (self (load_common_config w st).1) ∧
  process_list (self (load_common_config w st).1) = process_list (self st) ∧
  ringbuffers (self (load_common_config w st).1) = ringbuffers (self st) ∧
  workers_setup (self (load_common_config w st).1) = workers_setup (self st) ∧
  parallel_functions_dict (load_common_config w st).1 =
    parallel_functions_dict st ∧
  created (log (load_common_config w st).1) = created (log st).
Proof.
  assert (inv (λ s, set_runtime None (self s) = set_runtime None (self st) ∧
                    parallel_functions_dict s = parallel_functions_dict st)
              (load_common_config w)) as Hinv.
  { assert (∀ e, inv (λ s, set_runtime None (self s) = set_runtime None (self st) ∧
                    parallel_functions_dict s = parallel_functions_dict st)
                (emit e)) as Hemit by (by intros e s Hs).
    assert (∀ r, inv (λ s, set_runtime None (self s) = set_runtime None (self st) ∧
                    parallel_functions_dict s = parallel_functions_dict st)
                (modify_self (set_runtime r))) as Hmod by (by intros r s Hs).
    assert (inv (λ s, set_runtime None (self s) = set_runtime None (self st) ∧
                    parallel_functions_dict s = parallel_functions_dict st)
                global_parallel_functions_dict) as Hg.
    { intros s Hs. unfold global_parallel_functions_dict.
      by destruct (parallel_functions_dict s) eqn:E; simpl; rewrite ?E. }
    unfold load_common_config, copy_config, copyfile, get_config. inv_walk. }
  destruct (Hinv st (conj eq_refl eq_refl)) as [Heq Hg].
  pose proof (linv_load_common_config (λ l, created l = created (log st))
                (λ e, negb (is_create e))) as Hlog.
  unfold inv, log_inv in Hlog.
  specialize (Hlog (λ l e He Hl, eq_trans (created_skip l e He) Hl)
                   (λ _ _, eq_refl) w st eq_refl).
  split_and!; try done.
  - unfold setup_frame.
    split_and!;
      [by apply (f_equal buffers_dict) in Heq
      |by apply (f_equal number_of_ringbuffers) in Heq
      |by apply (f_equal out_dir) in Heq
      |by apply (f_equal functions_dict) in Heq
      |by apply (f_equal number_of_functions) in Heq
      |by apply (f_equal workers_started) in Heq
      |apply (f_equal ringbuffers) in Heq; simpl in Heq; by rewrite Heq].
  - by apply (f_equal process_list) in Heq.
  - by apply (f_equal ringbuffers) in Heq.
  - by apply (f_equal workers_setup) in Heq.
Qed.

Lemma setup_workers_unfold w st :
  workers_setup (self st) = false →
  setup_workers w st =
    (modify_self (set_process_list (Some [])) ;;
     rt <- base_runtime ;;
     modify_self (set_runtime (Some rt)) ;;
     config_dict_common <- load_common_config w ;;
     for_fold (range1 (number_of_functions (self st))) config_dict_common
       (setup_worker w) ;;
     modify_self (set_workers_setup true)) st.
Proof. intros Hw. unfold setup_workers, get_self, bind at 1. by rewrite Hw. Qed.

(** What a successful [setup_workers] has done. *)
Lemma setup_workers_effect w st st' :
  workers_setup (self st) = false →
  setup_workers w st = (st', inr ()) →
  ∃ procs,
    process_list (self st') = Some procs ∧
    created (log st') = created (log st) ++ procs ∧
    Forall (λ p, p_started p = false) procs ∧
    setup_frame (self st) (self st') ∧
    workers_setup (self st') = true ∧
    ∀ i, i ∈ range1 (number_of_functions (self st)) →
      ∃ bc, setup_frame (self st) bc ∧ worker_was_set_up w bc i.
Proof.
  intros Hw Hrun. rewrite setup_workers_unfold in Hrun by done.
  apply bind_ok in Hrun as (s0 & [] & H0 & Hrun).
  unfold modify_self in H0. injection H0 as <-.
  apply bind_ok in Hrun as (s1 & rt & Hrt & Hrun).
  pose proof (base_runtime_state
    (with_self (set_process_list (Some []) (self st)) st)) as Hs1.
  rewrite Hrt in Hs1. simpl in Hs1. subst s1.
  apply bind_ok in Hrun as (s2 & [] & H2 & Hrun).
  unfold modify_self in H2. injection H2 as <-. simpl in Hrun.
  set (sa := with_self _ _) in Hrun.
  apply bind_ok in Hrun as (sb & cdc & Hload & Hrun).
  apply bind_ok in Hrun as (sc & cdc' & Hloop & Hfin).
  unfold modify_self in Hfin. injection Hfin as <-.
  destruct (load_common_config_frame w sa) as (Hfr & Hpl & Hrb & Hws & Hg & Hcr).
  rewrite Hload in Hfr, Hpl, Hrb, Hws, Hg, Hcr. simpl in *.
  set (R := λ s : State,
    ∃ pl, process_list (self s) = Some pl ∧
          created (log s) = created (log st) ++ pl ∧
          Forall (λ p, p_started p = false) pl ∧
          setup_frame (self st) (self s)).
  assert (R sb) as HRb.
  { exists []. split_and!; [done|by rewrite app_nil_r|constructor|].
    eapply setup_frame_trans; [|exact Hfr]. by repeat split. }
  assert (∀ s x s1 s2 s', x ∈ range1 (number_of_functions (self st)) →
            R s1 → setup_worker w s x s1 = (s2, inr s') → R s2) as Hstep.
  { intros s x s1 s2 s' _ (pl & Hpl1 & Hc1 & Hun & Hfr1) Hx.
    destruct (setup_worker_effect w s x s1 s2 s' pl Hx Hpl1)
      as (assigned & num & procs & eps & cfg & f & file & fkt & bc2 & _ & _ &
          _ & _ & _ & _ & Hall & _ & Hsame & Hself & _ & Hcreated & _).
    exists (pl ++ procs). rewrite Hself. split_and!.
    - done.
    - by rewrite Hcreated, Hc1, app_assoc.
    - apply Forall_app. split; [done|].
      eapply Forall_impl; [exact Hall|]. by intros p (_ & _ & _ & _ & ?).
    - eapply setup_frame_trans; [exact Hfr1|].
      by apply same_but_buffers_frame. }
  destruct (for_fold_ok_inv R (setup_worker w) _ Hstep cdc sb sc cdc' HRb Hloop)
    as [(pl & Hplc & Hcc & Hunc & Hfrc) Heach].
  exists pl. split_and!; try done.
  intros i Hi. destruct (Heach i Hi) as (s1 & st1 & st2 & s2 & HR1 & Hx).
  destruct HR1 as (pl1 & Hpl1 & _ & _ & Hfr1).
  destruct (setup_worker_effect w s1 i st1 st2 s2 pl1 Hx Hpl1)
    as (assigned & num & procs & eps & cfg & f & file & fkt & bc2 & Hass &
        _ & _ & Hfile & Hfkt & _ & _ & _ & _ & _ & _ & _ & Hkeys &
        (sa' & sb' & Himp) & _).
  exists (self st1). split; [done|].
  exists assigned, file, fkt, f, sa', sb'. split_and!; done.
Qed.

(** ** [start_workers] *)

Lemma fmap_rev {A B} (f : A → B) (l : list A) : f <$> rev l = rev (f <$> l).
Proof.
  induction l as [|x l IH]; [done|]. simpl. by rewrite fmap_app, IH.
Qed.

Lemma start_loop l : ∀ k before st,
  process_list (self st) = Some (before ++ l) →
  length before = k →
  Forall (λ p, p_started p = false) l →
  for_each (seq k (length l)) start_nth st =
    (with_self
       (set_process_list (Some (before ++ (p_mark_started <$> l))) (self st))
       (with_log (log st ++ (EvStart ∘ p_id <$> l)) st), inr ()).
Proof.
  induction l as [|p l IH]; intros k before st Hpl Hk Hun.
  - simpl. unfold ret. rewrite !app_nil_r in *.
    destruct st as [lg sp g bc]; simpl in *. unfold with_self, with_log.
    simpl. do 2 f_equal. destruct bc; simpl in *. by subst.
  - apply Forall_cons in Hun as [Hp Hun]. simpl.
    unfold bind at 1. unfold start_nth at 1.
    unfold get_process_list, get_self, bind at 1 2. rewrite Hpl.
    unfold ret at 1. rewrite list_lookup_middle by done. rewrite Hp.
    unfold bind at 1, emit at 1, modify_self at 1.
    rewrite insert_app_r_alt by lia. rewrite Hk, Nat.sub_diag. simpl.
    rewrite (IH (S k) (before ++ [p_mark_started p])).
    + simpl. unfold with_self, with_log. simpl.
      by rewrite <-!app_assoc.
    + simpl. by rewrite <-app_assoc.
    + rewrite length_app. simpl. lia.
    + done.
Qed.

Lemma start_workers_spec st pl :
  process_list (self st) = Some pl →
  Forall (λ p, p_started p = false) pl →
  ∃ st',
    start_workers st = (st', inr (p_mark_started <$> rev pl)) ∧
    process_list (self st') = Some (p_mark_started <$> rev pl) ∧
    started (drop (length (log st)) (log st')) = p_id <$> rev pl ∧
    log st `prefix_of` log st' ∧
    workers_started (self st') = true ∧
    ringbuffers (self st') = ringbuffers (self st).
Proof.
  intros Hpl Hun. unfold start_workers.
  unfold get_self at 1, bind at 1.
  set (st0 := (if workers_started (self st)
               then print "Workers already started" [] else ret ()) st).
  assert (∃ evs, st0 = (with_log (log st ++ evs) st, inr ()) ∧ started evs = [])
    as (evs & Hst0 & Hevs).
  { unfold st0. destruct (workers_started (self st)).
    - by exists [EvPrint "Workers already started" []].
    - exists []. split; [|done]. unfold ret. rewrite app_nil_r. by destruct st. }
  unfold bind at 1. fold st0. rewrite Hst0.
  unfold get_process_list at 1, get_self, bind at 1 2. simpl. rewrite Hpl.
  unfold ret at 1. unfold bind at 1, modify_self at 1. simpl.
  unfold bind at 1.
  rewrite <-(length_rev pl).
  rewrite (start_loop (rev pl) 0 []); [|done|done|by apply Forall_rev].
  simpl. unfold bind, modify_self, get_process_list, get_self. simpl.
  eexists. split; [reflexivity|]. simpl. split_and!; try done.
  - rewrite <-app_assoc, drop_app_length. unfold started.
    rewrite omap_app. fold (started evs). rewrite Hevs. simpl.
    clear. induction (rev pl) as [|p l IH]; [done|]. simpl. by f_equal.
  - rewrite <-app_assoc. by apply prefix_app_r.
Qed.

(** C1.  After [setup_workers] has set the workers up (on a controller that
    was not set up before), the process list holds the process objects in
    the order in which they were created and appended, and [start_workers]
    calls [start()] on them in exactly the reverse of that order: the
    processes of the worker definition declared last are started first. *)
Theorem start_workers_reverses_creation_order w st st1 :
  workers_setup (self st) = false →
  setup_workers w st = (st1, inr ()) →
  ∃ procs st2,
    created (log st1) = created (log st) ++ procs ∧
    process_list (self st1) = Some procs ∧
    start_workers st1 = (st2, inr (p_mark_started <$> rev procs)) ∧
    started (drop (length (log st1)) (log st2)) = rev (p_id <$> procs).
Proof.
  intros Hw Hrun.
  destruct (setup_workers_effect w st st1 Hw Hrun)
    as (procs & Hpl & Hcreated & Hun & _).
  destruct (start_workers_spec st1 procs Hpl Hun)
    as (st2 & Hstart & _ & Hstarted & _).
  exists procs, st2. split_and!; try done. by rewrite Hstarted, fmap_rev.
Qed.

Lemma start_workers_reverses_creation_order_witness :
  started (drop (length (log demo_workers_ready))
             (log (start_workers demo_workers_ready).1)) = [3; 2; 1; 0]%nat.
Proof.
  destruct (start_workers_reverses_creation_order demo_world
              demo_buffers_done demo_workers_ready eq_refl eq_refl)
    as (procs & st2 & _ & Hpl & Hstart & Hstarted).
  replace (start_workers demo_workers_ready).1 with st2 by (by rewrite Hstart).
  rewrite Hstarted.
  vm_compute in Hpl. injection Hpl as <-. reflexivity.
Defined.

(** ** [setup_buffers] *)

Lemma make_rb_fields_ok w items : ∀ acc st st' r,
  for_fold items acc (add_field w) st = (st', inr r) →
  st' = st ∧ forallb (λ kv, field_ok w kv.2) items = true.
Proof.
  induction items as [|kv items IH]; intros acc st st' r; simpl.
  - unfold ret. by intros [= <- <-].
  - intros Hrun. apply bind_ok in Hrun as (s1 & acc1 & Hkv & Hrest).
    apply IH in Hrest as [-> Hall]. rewrite Hall, andb_true_r.
    unfold add_field, field_ok, bind, lift, np_dtype_of, ret, raise in *.
    destruct (py_getitem kv.2 (VInt 0)); [done|].
    destruct (py_getitem kv.2 (VInt 1)) as [|v1]; [done|].
    destruct (np_dtype w v1) eqn:Hd; [|done].
    injection Hkv as <- _. split; [done|]. by apply bool_decide_eq_true.
Qed.

Lemma make_rb_datatype_ok w dt st st' r :
  make_rb_datatype w dt st = (st', inr r) →
  st' = st ∧ data_type_ok w dt = true.
Proof.
  unfold make_rb_datatype, data_type_ok. destruct dt; try done.
  - unfold bind, np_dtype_of, ret, raise.
    destruct (np_dtype w (VStr s)) eqn:Hd; [|done]. intros [= <- _].
    split; [done|]. by apply bool_decide_eq_true.
  - intros Hrun. apply bind_ok in Hrun as (s1 & fs & Hfs & Hret).
    unfold ret in Hret. injection Hret as <- _.
    by apply make_rb_fields_ok in Hfs.
Qed.

Lemma setup_buffer_ok w bc i st st' :
  setup_buffer w bc i st = (st', inr ()) →
  ∃ rb dt num_slots num_ch layout rbs,
    buffer_entry (buffers_dict bc) i = inr rb ∧
    py_getitem rb (VStr "data_type") = inr dt ∧
    data_type_ok w dt = true ∧
    ringbuffers (self st) = Some rbs ∧
    st' = with_self
            (set_ringbuffers
               (Some (dict_set ("RB_" +:+ PyStr.str i)
                        (NewBuffer num_slots num_ch layout) rbs)) (self st))
            (with_log (log st ++ [EvNewBuffer ("RB_" +:+ PyStr.str i)]) st).
Proof.
  unfold setup_buffer. intros Hrun.
  apply bind_ok in Hrun as (s1 & x & Htry & Hrun).
  assert (s1 = st) as ->.
  { unfold try_except, bind, lift, raise in Htry.
    repeat case_match; simplify_eq/=; done. }
  apply bind_ok in Hrun as (s1 & rb & Hentry & Hrun).
  assert (s1 = st ∧ buffer_entry (buffers_dict bc) i = inr rb) as [-> Hrb].
  { unfold buffer_entry, bind, lift in *.
    destruct (py_getitem (buffers_dict bc) _); [done|]. by injection Hentry. }
  apply bind_ok in Hrun as (s1 & num_slots & H1 & Hrun).
  unfold lift in H1. injection H1 as <- H1.
  apply bind_ok in Hrun as (s1 & num_ch & H2 & Hrun).
  unfold lift in H2. injection H2 as <- H2.
  apply bind_ok in Hrun as (s1 & dt & H3 & Hrun).
  unfold lift in H3. injection H3 as <- H3.
  apply bind_ok in Hrun as (s1 & layout & H4 & Hrun).
  apply make_rb_datatype_ok in H4 as [-> Hok].
  apply bind_ok in Hrun as (s1 & [] & H5 & Hrun).
  unfold emit in H5. injection H5 as <-.
  apply bind_ok in Hrun as (s2 & rbs & H6 & Hrun).
  unfold get_ringbuffers, get_self, bind, ret, raise in H6. simpl in H6.
  destruct (ringbuffers (self st)) as [rbs'|] eqn:Hr; [|done].
  injection H6 as <- <-. unfold modify_self in Hrun. injection Hrun as <-.
  exists rb, dt, num_slots, num_ch, layout, rbs'. split_and!; done.
Qed.

Lemma rb_names_snoc n : rb_names (S n) = rb_names n ++ ["RB_" +:+ PyStr.str (S n)].
Proof. unfold rb_names. by rewrite seq_S, fmap_app. Qed.

Lemma rb_name_fresh n : "RB_" +:+ PyStr.str (S n) ∉ rb_names n.
Proof.
  unfold rb_names. intros (i & Heq & Hi)%list_elem_of_fmap.
  apply String.app_inj, str_inj in Heq. apply elem_of_seq in Hi. lia.
Qed.

Lemma setup_buffers_loop w bc m : ∀ a st st' rbs,
  ringbuffers (self st) = Some rbs → dict_keys rbs = rb_names a →
  for_each (seq (S a) m) (setup_buffer w bc) st = (st', inr ()) →
  ∃ rbs',
    ringbuffers (self st') = Some rbs' ∧ dict_keys rbs' = rb_names (a + m) ∧
    set_ringbuffers None (self st') = set_ringbuffers None (self st) ∧
    sys_path st' = sys_path st ∧
    parallel_functions_dict st' = parallel_functions_dict st ∧
    created (log st') = created (log st) ∧
    ∀ i, i ∈ seq (S a) m →
      ∃ rb dt, buffer_entry (buffers_dict bc) i = inr rb ∧
               py_getitem rb (VStr "data_type") = inr dt ∧
               data_type_ok w dt = true.
Proof.
  induction m as [|m IH]; intros a st st' rbs Hr Hk; simpl.
  - unfold ret. intros [= <-]. exists rbs. rewrite Nat.add_0_r.
    split_and!; try done. by intros i ?%elem_of_nil.
  - intros Hrun. apply bind_ok in Hrun as (s1 & [] & Hone & Hrest).
    apply setup_buffer_ok in Hone
      as (rb & dt & ns & nc & layout & rbs0 & Hrb & Hdt & Hok & Hr0 & ->).
    rewrite Hr in Hr0. injection Hr0 as <-.
    apply (IH (S a)) with
        (rbs := dict_set ("RB_" +:+ PyStr.str (S a)) (NewBuffer ns nc layout) rbs)
      in Hrest as (rbs' & Hr' & Hk' & Hself & Hsp & Hg & Hc & Hall).
    + exists rbs'. split_and!; try done.
      * by rewrite Hk', Nat.add_succ_r.
      * rewrite Hc. simpl. by rewrite created_app, app_nil_r.
      * intros i [->|Hi]%elem_of_cons; [eauto|by apply Hall].
    + done.
    + rewrite dict_keys_set_new, Hk, rb_names_snoc; [done|].
      rewrite Hk. apply rb_name_fresh.
Qed.

Lemma setup_buffers_ok w st st' rbs :
  setup_buffers w st = (st', inr rbs) →
  ringbuffers (self st') = Some rbs ∧
  dict_keys rbs = rb_names (number_of_ringbuffers (self st) - 1) ∧
  set_ringbuffers None (self st') = set_ringbuffers None (self st) ∧
  parallel_functions_dict st' = parallel_functions_dict st ∧
  created (log st') = created (log st) ∧
  ∀ i, i ∈ range1 (number_of_ringbuffers (self st)) →
    ∃ rb dt, buffer_entry (buffers_dict (self st)) i = inr rb ∧
             py_getitem rb (VStr "data_type") = inr dt ∧
             data_type_ok w dt = true.
Proof.
  unfold setup_buffers. intros Hrun.
  apply bind_ok in Hrun as (s0 & [] & H0 & Hrun).
  unfold modify_self in H0. injection H0 as <-.
  apply bind_ok in Hrun as (s1 & bc & H1 & Hrun).
  unfold get_self in H1. injection H1 as <- <-. simpl in Hrun.
  apply bind_ok in Hrun as (s2 & [] & Hloop & Hget).
  unfold range1 in Hloop.
  apply (setup_buffers_loop w _ _ 0) with (rbs := []) in Hloop
    as (rbs' & Hr' & Hk' & Hself & Hsp & Hg & Hc & Hall); [|done|done].
  unfold get_ringbuffers, get_self, bind, ret in Hget. rewrite Hr' in Hget.
  injection Hget as <- <-.
  split_and!; try done.
Qed.

(** C2.  On a controller whose buffers and workers were set up and
    started, [shutdown] (called in any later state with the same buffers and
    processes) first calls [shutdown()] on every ring buffer in the order of
    their declaration, [RB_1], [RB_2], ..., and then joins the worker
    processes in the order of the process list: every buffer is shut down
    before the first process is joined. *)
Theorem shutdown_buffers_in_order_then_join w st0 st1 st2 st3 rbs pl st :
  workers_setup (self st0) = false →
  setup_buffers w st0 = (st1, inr rbs) →
  setup_workers w st1 = (st2, inr ()) →
  start_workers st2 = (st3, inr pl) →
  (dict_keys <$> ringbuffers (self st)) = (dict_keys <$> ringbuffers (self st3)) →
  process_list (self st) = Some pl →
  shutdown st =
    (with_self (set_ringbuffers None (self st))
       (with_log
          (log st ++
           shutdown_events (rb_names (number_of_ringbuffers (self st0) - 1)) ++
           (EvJoin ∘ p_id <$> pl)) st), inr ()).
Proof.
  intros Hw Hbuf Hwork Hstart Hkeys Hpl.
  apply setup_buffers_ok in Hbuf as (Hr1 & Hk1 & Hself1 & _).
  assert (workers_setup (self st1) = false) as Hw1.
  { apply (f_equal workers_setup) in Hself1. simpl in Hself1. congruence. }
  destruct (setup_workers_effect w st1 st2 Hw1 Hwork)
    as (procs & Hpl2 & _ & Hun & Hframe & _).
  destruct (start_workers_spec st2 procs Hpl2 Hun)
    as (st3' & Hstart' & Hpl3 & _ & _ & _ & Hr3).
  rewrite Hstart in Hstart'. injection Hstart' as <- ->.
  destruct Hframe as (_ & _ & _ & _ & _ & _ & Hk2).
  rewrite Hr3, Hk2, Hr1 in Hkeys. simpl in Hkeys.
  destruct (ringbuffers (self st)) as [rbs'|] eqn:Hr; [|done].
  injection Hkeys as Hkeys.
  rewrite (shutdown_spec st rbs' _ Hr Hpl).
  - by rewrite Hkeys, Hk1.
  - apply Forall_fmap, Forall_forall. done.
Qed.

Lemma shutdown_buffers_in_order_then_join_witness :
  log (shutdown demo_running).1 =
    log demo_running ++
    [EvPrint "Shutting down buffer " [VStr "RB_1"]; EvShutdown "RB_1";
     EvPrint "Shutting down buffer " [VStr "RB_2"]; EvShutdown "RB_2";
     EvJoin 3; EvJoin 2; EvJoin 1; EvJoin 0].
Proof.
  assert (∃ st3, start_workers demo_workers_ready = (st3, inr demo_processes) ∧
                 ringbuffers (self st3) = ringbuffers (self demo_running))
    as (st3 & Hstart & Hsame).
  { eexists. split; [vm_compute; reflexivity|reflexivity]. }
  rewrite (shutdown_buffers_in_order_then_join demo_world demo_state
             demo_buffers_done demo_workers_ready st3
             [("RB_1", NewBuffer (VInt 16) (VInt 4) (DtScalar {| dtype_name := "float" |}));
              ("RB_2", NewBuffer (VInt 8) (VInt 1)
                         (DtFields [(VStr "height", {| dtype_name := "float32" |})]))]
             demo_processes demo_running eq_refl eq_refl eq_refl Hstart).
  - reflexivity.
  - by rewrite Hsame.
  - reflexivity.
Defined.

(** ** Errors at setup *)

Lemma started_skip l e :
  negb (is_start e) = true → started (l ++ [e]) = started l.
Proof.
  intros He. unfold started. rewrite omap_app.
  destruct e; simpl in *; try done; by rewrite app_nil_r.
Qed.

Lemma setup_event_not_start e :
  is_setup_event e = true → negb (is_start e) = true.
Proof. by destruct e. Qed.

Lemma setup_buffers_no_start w st :
  started (log st) = [] → started (log (setup_buffers w st).1) = [].
Proof.
  intros Hs.
  apply (inv_setup_buffers (λ l, started l = []) (λ e, negb (is_start e))).
  - intros l e He Hl. by rewrite started_skip.
  - apply setup_event_not_start.
  - done.
Qed.

Lemma setup_workers_no_start w st :
  started (log st) = [] → started (log (setup_workers w st).1) = [].
Proof.
  intros Hs.
  apply (inv_setup_workers (λ l, started l = []) (λ e, negb (is_start e))).
  - intros l e He Hl. by rewrite started_skip.
  - apply setup_event_not_start.
  - done.
Qed.

(** The main script starts workers only after both setup steps have
    returned; an exception in either ends it with nothing started.  [Good]
    is what a successful setup is known to establish. *)
Lemma main_setup_aborts w st (Good : Prop) :
  started (log st) = [] →
  ¬ Good →
  (∀ s1 rbs s2,
     setup_buffers w st = (s1, inr rbs) →
     setup_workers w
       (with_log (log s1 ++ [EvPrint "{:d} buffers created..."
                               [VInt (Z.of_nat (length rbs))]]) s1) =
       (s2, inr ()) →
     Good) →
  ∃ e, (main_setup w st).2 = inl e ∧ started (log (main_setup w st).1) = [].
Proof.
  intros Hs Hbad Hgood.
  pose proof (setup_buffers_no_start w st Hs) as Hs1.
  destruct (setup_buffers w st) as [s1 [e|rbs]] eqn:Hbuf; simpl in Hs1.
  { exists e. unfold main_setup. by rewrite (bind_err _ _ _ _ _ Hbuf). }
  set (s1' := with_log (log s1 ++ [EvPrint "{:d} buffers created..."
                                     [VInt (Z.of_nat (length rbs))]]) s1).
  assert (started (log s1') = []) as Hs1'.
  { unfold s1'. simpl. by rewrite started_skip. }
  pose proof (setup_workers_no_start w s1' Hs1') as Hs2.
  assert (main_setup w st =
          (setup_workers w ;; display_layout ;;
           process_list <- start_workers ;;
           print "{:d} workers started..."
             [VInt (Z.of_nat (length process_list))] ;;
           ret process_list) s1') as ->.
  { unfold main_setup. by rewrite (bind_eq _ _ _ _ _ Hbuf). }
  destruct (setup_workers w s1') as [s2 [e|[]]] eqn:Hwork; simpl in Hs2.
  { exists e. by rewrite (bind_err _ _ _ _ _ Hwork). }
  destruct Hbad. by eapply Hgood.
Qed.

(** C6, as amended.  When the main script sets the controller up, a buffer
    whose [data_type] is neither a type name numpy knows nor a mapping of
    [[field, type]] pairs with such type names, and a worker that assigns
    one of the roles ['read'], ['write'], ['observe'] to a buffer name that
    is not among the defined [RB_1 ... RB_n], each end the script with an
    exception before any worker process is started.  (An assignment with any
    other role string is skipped: see the counterexample.) *)
Theorem invalid_data_type_or_undefined_buffer_aborts w st :
  workers_setup (self st) = false →
  started (log st) = [] →
  (∃ i rb dt,
     i ∈ range1 (number_of_ringbuffers (self st)) ∧
     buffer_entry (buffers_dict (self st)) i = inr rb ∧
     py_getitem rb (VStr "data_type") = inr dt ∧
     data_type_ok w dt = false) ∨
  (∃ i assigned kv,
     i ∈ range1 (number_of_functions (self st)) ∧
     assigned_ringbuffers_of (functions_dict (self st)) i = inr assigned ∧
     kv ∈ assigned ∧ is_role kv.2 = true ∧
     kv.1 ∉ rb_names (number_of_ringbuffers (self st) - 1)) →
  ∃ e, (main_setup w st).2 = inl e ∧ started (log (main_setup w st).1) = [].
Proof.
  intros Hw Hs Hbad.
  apply (main_setup_aborts w st
           ((∀ i, i ∈ range1 (number_of_ringbuffers (self st)) →
               ∃ rb dt, buffer_entry (buffers_dict (self st)) i = inr rb ∧
                        py_getitem rb (VStr "data_type") = inr dt ∧
                        data_type_ok w dt = true) ∧
            (∀ i, i ∈ range1 (number_of_functions (self st)) →
               ∃ assigned,
                 assigned_ringbuffers_of (functions_dict (self st)) i = inr assigned ∧
                 ∀ kv, kv ∈ assigned → is_role kv.2 = true →
                       kv.1 ∈ rb_names (number_of_ringbuffers (self st) - 1))));
    [done| |].
  - intros [Hbufs Hworkers].
    destruct Hbad as [(i & rb & dt & Hi & Hrb & Hdt & Hok)
                     |(i & assigned & kv & Hi & Hass & Hkv & Hrole & Hundef)].
    + destruct (Hbufs i Hi) as (rb' & dt' & Hrb' & Hdt' & Hok').
      congruence.
    + destruct (Hworkers i Hi) as (assigned' & Hass' & Hall).
      rewrite Hass in Hass'. injection Hass' as <-. by apply Hundef, Hall.
  - intros s1 rbs s2 Hbuf Hwork.
    apply setup_buffers_ok in Hbuf as (Hr1 & Hk1 & Hself1 & _ & _ & Hbufs).
    split; [done|].
    set (s1' := with_log _ s1) in Hwork.
    assert (workers_setup (self s1') = false) as Hw1.
    { apply (f_equal workers_setup) in Hself1. simpl in *. congruence. }
    destruct (setup_workers_effect w s1' s2 Hw1 Hwork)
      as (procs & _ & _ & _ & _ & _ & Heach).
    assert (number_of_functions (self s1') = number_of_functions (self st))
      as Hnf by (by apply (f_equal number_of_functions) in Hself1).
    assert (functions_dict (self s1') = functions_dict (self st))
      as Hfd by (by apply (f_equal functions_dict) in Hself1).
    intros i Hi. rewrite <-Hnf in Hi.
    destruct (Heach i Hi) as (bc & Hframe & assigned & file & fkt & f & sa &
                              sb & Hass & _ & _ & Hkeys & _).
    destruct Hframe as (_ & _ & _ & Hfd' & _ & _ & Hk').
    exists assigned. rewrite <-Hfd, <-Hfd'. split; [done|].
    intros kv Hkv Hrole. destruct (Hkeys kv Hkv Hrole) as (rbs' & Hr' & Hin).
    rewrite Hr' in Hk'. simpl in Hk'. rewrite Hr1 in Hk'. simpl in Hk'.
    injection Hk' as Hk'. by rewrite <-Hk1, <-Hk'.
Qed.

Lemma invalid_data_type_or_undefined_buffer_aborts_witness :
  (∃ e, (main_setup baddtype_world (demo_state_in baddtype_world)).2 = inl e ∧
        started (log (main_setup baddtype_world
                        (demo_state_in baddtype_world)).1) = []) ∧
  (∃ e, (main_setup nobuffer_world (demo_state_in nobuffer_world)).2 = inl e ∧
        started (log (main_setup nobuffer_world
                        (demo_state_in nobuffer_world)).1) = []).
Proof.
  split.
  - apply invalid_data_type_or_undefined_buffer_aborts; [done|done|].
    left. exists 1%nat. eexists _, (VInt 8).
    split; [by left|]. split; [reflexivity|]. split; reflexivity.
  - apply invalid_data_type_or_undefined_buffer_aborts; [done|done|].
    right. exists 1%nat, [("RB_7", VStr "write")], ("RB_7", VStr "write").
    split; [by left|]. split; [reflexivity|]. split; [by left|].
    split; [reflexivity|]. vm_compute.
    intros Hin. repeat (apply elem_of_cons in Hin as [Hin|Hin]; [done|]).
    by apply elem_of_nil in Hin.
Defined.

(** C6 as stated fails: a role string the controller does not know, even on
    a buffer that is not defined, does not stop the setup; the worker is
    created without endpoints and started. *)
Lemma unknown_role_is_not_fatal :
  (main badrole_world "demo_setup.yaml" demo_time [] 0).2 = inr false ∧
  started (main badrole_world "demo_setup.yaml" demo_time [] 0).1 = [0%nat].
Proof. split; by vm_compute. Qed.

Lemma import_function_missing_callable w file name st :
  (∀ path, ∃ vars, find_module w path (PyStr.path_name file) = Some vars ∧
                   dict_get name vars = None) →
  ∃ e, (import_function w (VStr file) (VStr name) st).2 = inl e.
Proof.
  intros Hmod. unfold import_function, try_except, bind at 1.
  unfold bind at 1, lift at 1, as_str. unfold bind at 1.
  destruct (add_sys_path _ st) as [s1 [e|[]]] eqn:Hadd.
  { unfold add_sys_path in Hadd. done. }
  destruct (String.eqb (PyStr.path_name file) "") eqn:Hname.
  - unfold bind at 1, raise at 1. simpl. unfold bind. eauto.
  - unfold bind at 1, ret at 1. unfold bind at 1, import_module at 1.
    destruct (Hmod (sys_path s1)) as (vars & -> & Hget). unfold ret at 1.
    unfold bind. rewrite Hget. unfold raise. eauto.
Qed.

Lemma import_function_missing_module w file fkt st :
  PyStr.path_name file ≠ "" →
  (∀ path, find_module w path (PyStr.path_name file) = None) →
  ∃ st',
    import_function w (VStr file) fkt st = (st', inr None) ∧
    log st' = log st ++ [EvPrint "Import Error!" [VStr file]] ∧
    self st' = self st.
Proof.
  intros Hname Hmod. unfold import_function, try_except, bind at 1.
  unfold bind at 1, lift at 1, as_str. unfold bind at 1.
  destruct (add_sys_path _ st) as [s1 [e|[]]] eqn:Hadd.
  { unfold add_sys_path in Hadd. done. }
  assert (log s1 = log st ∧ self s1 = self st) as [Hlog Hself].
  { unfold add_sys_path in Hadd. injection Hadd as <-. by case_bool_decide. }
  destruct (String.eqb_spec (PyStr.path_name file) "") as [|_]; [done|].
  unfold bind at 1, ret at 1. unfold bind at 1, import_module at 1.
  rewrite Hmod. simpl. unfold bind, print, emit, ret. simpl.
  eexists. split; [reflexivity|]. simpl. by rewrite Hlog, Hself.
Qed.

(** C7, as amended.  For a worker definition [i] with module path [file]
    and callable name [fkt]: when the module is found but has no object of
    that name, the main script ends with an exception before any worker
    process is started; when the module cannot be imported, the failure is
    not fatal: [import_function] prints the import error and returns [None],
    and [setup_workers] goes on to create the processes of that worker
    definition with [target=None]. *)
Theorem missing_callable_aborts_missing_module_does_not w st i file fkt :
  workers_setup (self st) = false →
  started (log st) = [] →
  i ∈ range1 (number_of_functions (self st)) →
  worker_field (functions_dict (self st)) i "file_name" = inr (VStr file) →
  worker_field (functions_dict (self st)) i "fkt_name" = inr fkt →
  ((∃ name, fkt = VStr name ∧
            ∀ path, ∃ vars,
              find_module w path (PyStr.path_name file) = Some vars ∧
              dict_get name vars = None) →
   ∃ e, (main_setup w st).2 = inl e ∧
        started (log (main_setup w st).1) = []) ∧
  (PyStr.path_name file ≠ "" →
   (∀ path, find_module w path (PyStr.path_name file) = None) →
   (∀ s, ∃ s', import_function w (VStr file) fkt s = (s', inr None) ∧
               log s' = log s ++ [EvPrint "Import Error!" [VStr file]]) ∧
   (∀ cdc s s' cdc' pl,
      functions_dict (self s) = functions_dict (self st) →
      process_list (self s) = Some pl →
      setup_worker w cdc i s = (s', inr cdc') →
      ∃ num procs,
        worker_field (functions_dict (self st)) i "num_process" = inr num ∧
        py_range num = inr (length procs) ∧
        process_list (self s') = Some (pl ++ procs) ∧
        Forall (λ p, p_target p = None) procs)).
Proof.
  intros Hw Hs Hi Hfile Hfkt. split.
  - intros (name & -> & Hmod).
    apply (main_setup_aborts w st
             (∃ sa sb f, import_function w (VStr file) (VStr name) sa =
                           (sb, inr f))); [done| |].
    + intros (sa & sb & f & Himp).
      destruct (import_function_missing_callable w file name sa Hmod) as [e He].
      by rewrite Himp in He.
    + intros s1 rbs s2 Hbuf Hwork.
      apply setup_buffers_ok in Hbuf as (_ & _ & Hself1 & _).
      set (s1' := with_log _ s1) in Hwork.
      assert (workers_setup (self s1') = false) as Hw1.
      { apply (f_equal workers_setup) in Hself1. simpl in *. congruence. }
      destruct (setup_workers_effect w s1' s2 Hw1 Hwork)
        as (procs & _ & _ & _ & _ & _ & Heach).
      assert (number_of_functions (self s1') = number_of_functions (self st))
        as Hnf by (by apply (f_equal number_of_functions) in Hself1).
      assert (functions_dict (self s1') = functions_dict (self st))
        as Hfd by (by apply (f_equal functions_dict) in Hself1).
      rewrite <-Hnf in Hi.
      destruct (Heach i Hi) as (bc & Hframe & assigned & file' & fkt' & f &
                                sa & sb & _ & Hfile' & Hfkt' & _ & Himp).
      destruct Hframe as (_ & _ & _ & Hfd' & _).
      rewrite Hfd', Hfd in Hfile', Hfkt'.
      rewrite Hfile in Hfile'. rewrite Hfkt in Hfkt'.
      injection Hfile' as <-. injection Hfkt' as <-. eauto.
  - intros Hname Hmod. split.
    + intros s.
      destruct (import_function_missing_module w file fkt s Hname Hmod)
        as (s' & Himp & Hlog & _). eauto.
    + intros cdc s s' cdc' pl Hfd Hpl Hrun.
      destruct (setup_worker_effect w cdc i s s' cdc' pl Hrun Hpl)
        as (assigned & num & procs & eps & cfg & f & file' & fkt' & bc2 & _ &
            _ & Hnum & Hfile' & Hfkt' & Hrange & Hall & _ & _ & Hself & _ &
            _ & _ & (sa & sb & Himp) & _).
      rewrite Hfd in Hnum, Hfile', Hfkt'.
      rewrite Hfile in Hfile'. rewrite Hfkt in Hfkt'.
      injection Hfile' as <-. injection Hfkt' as <-.
      destruct (import_function_missing_module w file fkt sa Hname Hmod)
        as (sb' & Himp' & _). rewrite Himp in Himp'. injection Himp' as _ ->.
      exists num, procs. split; [done|]. split; [done|].
      split; [by rewrite Hself|].
      eapply Forall_impl; [exact Hall|]. by intros p (? & _).
Qed.

Lemma missing_callable_aborts_missing_module_does_not_witness :
  (∃ e, (main_setup nocallable_world (demo_state_in nocallable_world)).2 = inl e ∧
        started (log (main_setup nocallable_world
                        (demo_state_in nocallable_world)).1) = []) ∧
  (∀ s, ∃ s',
     import_function nomodule_world (VStr "modules/missing")
       (VStr "pulse_source") s = (s', inr None) ∧
     log s' = log s ++ [EvPrint "Import Error!" [VStr "modules/missing"]]).
Proof.
  split.
  - apply (missing_callable_aborts_missing_module_does_not nocallable_world
             (demo_state_in nocallable_world) 1 "modules/sources"
             (VStr "no_such_function")); try done; [by left|].
    exists "no_such_function". split; [done|]. intros path. by eexists.
  - apply (missing_callable_aborts_missing_module_does_not nomodule_world
             (demo_state_in nomodule_world) 1 "modules/missing"
             (VStr "pulse_source")); try done. by left.
Defined.

(** C7 as stated fails: with a module that cannot be imported the setup goes
    through; two process objects without a target are created and both are
    started. *)
Lemma unresolvable_module_is_not_fatal :
  (main nomodule_world "demo_setup.yaml" demo_time [] 0).2 = inr false ∧
  p_target <$> created (main nomodule_world "demo_setup.yaml" demo_time [] 0).1
    = [None; None] ∧
  started (main nomodule_world "demo_setup.yaml" demo_time [] 0).1
    = [1%nat; 0%nat].
Proof. split_and!; by vm_compute. Qed.

(** ** What [setup_workers] reads of [functions_dict] *)




























Lemma base_runtime_dict st m :
  main_entry (functions_dict (self st)) = inr (VDict m) →
  base_runtime st = (st, inr (base_runtime_of m)).
Proof.
  intros Hm. unfold base_runtime, get_self, bind at 1. unfold bind at 1.
  rewrite Hm. unfold lift at 1. unfold bind at 1.
  unfold py_contains_str, lift at 1, base_runtime_of.
  case_bool_decide as Hin; simpl.
  - destruct Hin as [v Hv]. unfold bind, lift. rewrite ?Hm. simpl.
    by rewrite Hv.
  - destruct (dict_get "runtime" m) eqn:Hget; [|done]. destruct Hin. eauto.
Qed.



Lemma setup_workers_twice w st :
  workers_setup (self st) = true →
  setup_workers w st = print "Cannot setup wokers twice" [] st.
Proof. intros Hw. unfold setup_workers, get_self, bind at 1. by rewrite Hw. Qed.

Lemma setup_workers_dict w st m :
  workers_setup (self st) = false →
  main_entry (functions_dict (self st)) = inr (VDict m) →
  setup_workers w st =
    (config_dict_common <- load_common_config w ;;
     for_fold (range1 (number_of_functions (self st))) config_dict_common
       (setup_worker w) ;;
     modify_self (set_workers_setup true))
      (with_self (set_runtime (Some (base_runtime_of m))
                    (set_process_list (Some []) (self st))) st).
Proof.
  intros Hw Hm. rewrite setup_workers_unfold by done.
  unfold bind at 1, modify_self at 1. unfold bind at 1.
  rewrite (base_runtime_dict _ m) by done.
  unfold bind at 1, modify_self at 1. done.
Qed.



(** * Further properties of the controller and of the histograms *)

(** ** Loops *)

Lemma for_each_app {A} (l1 l2 : list A) (body : A → M unit) : ∀ st,
  for_each (l1 ++ l2) body st =
    match for_each l1 body st with
    | (st1, inr _) => for_each l2 body st1
    | (st1, inl e) => (st1, inl e)
    end.
Proof.
  induction l1 as [|x l1 IH]; intros st; simpl; [done|].
  unfold bind. destruct (body x st) as [s [e|[]]]; [done|]. apply IH.
Qed.

(** ** [setup_buffers]: when it succeeds and what it builds *)

Lemma add_field_pure w acc kv :
  ∃ r, (∀ st, add_field w acc kv st = (st, r)) ∧
       (field_ok w kv.2 = true ↔ ∃ x, r = inr x).
Proof.
  unfold add_field, field_ok, bind, lift, np_dtype_of, ret, raise.
  destruct (py_getitem kv.2 (VInt 0)) as [e|v0].
  { eexists. split; [done|]. split; [done|by intros [? ?]]. }
  destruct (py_getitem kv.2 (VInt 1)) as [e|v1].
  { eexists. split; [done|]. split; [done|by intros [? ?]]. }
  destruct (np_dtype w v1) eqn:Hd.
  - eexists. split; [done|]. rewrite bool_decide_eq_true_2 by eauto.
    split; [by eexists|done].
  - eexists. split; [done|]. rewrite bool_decide_eq_false_2 by (by intros [? ?]).
    split; [done|by intros [? ?]].
Qed.

Lemma add_fields_pure w items : ∀ acc,
  ∃ r, (∀ st, for_fold items acc (add_field w) st = (st, r)) ∧
       (forallb (λ kv, field_ok w kv.2) items = true ↔ ∃ x, r = inr x).
Proof.
  induction items as [|kv items IH]; intros acc; simpl.
  - eexists. split; [done|]. split; [by eexists|done].
  - destruct (add_field_pure w acc kv) as (r1 & Hrun1 & Hok1).
    destruct r1 as [e|acc1].
    + exists (inl e). split; [intros st; unfold bind; by rewrite Hrun1|].
      rewrite andb_true_iff, Hok1. split; [by intros [[? ?] _]|by intros [? ?]].
    + destruct (IH acc1) as (r & Hrun & Hok). exists r.
      split; [intros st; unfold bind; by rewrite Hrun1|].
      rewrite andb_true_iff, Hok1, Hok. split; [by intros [_ ?]|eauto].
Qed.

(** The layout of a buffer depends on its [data_type] and on numpy only. *)
Lemma make_rb_datatype_pure w dt :
  ∃ r, (∀ st, make_rb_datatype w dt st = (st, r)) ∧
       (data_type_ok w dt = true ↔ ∃ x, r = inr x).
Proof.
  unfold make_rb_datatype, data_type_ok.
  destruct dt as [| | | |s|l|items];
    try (eexists; split; [done|]; split; [done|by intros [? ?]]).
  - unfold bind, np_dtype_of, ret, raise.
    destruct (np_dtype w (VStr s)) eqn:Hd.
    + eexists. split; [done|]. rewrite bool_decide_eq_true_2 by eauto.
      split; [by eexists|done].
    + eexists. split; [done|]. rewrite bool_decide_eq_false_2 by (by intros [? ?]).
      split; [done|by intros [? ?]].
  - destruct (add_fields_pure w items []) as ([e|fs] & Hrun & Hok).
    + exists (inl e). split; [intros st; unfold bind; by rewrite Hrun|].
      rewrite Hok. split; by intros [? ?].
    + exists (inr (DtFields fs)).
      split; [intros st; unfold bind; by rewrite Hrun|].
      rewrite Hok. split; by eexists.
Qed.

(** One pass of the loop: with a usable entry the buffer is built from the
    entry's values and stored under its name ... *)
Lemma setup_buffer_run w bc i st rbs :
  ringbuffers (self st) = Some rbs →
  buffer_entry_ok w (buffers_dict bc) i = true →
  ∃ rb ns nc dt layout,
    buffer_entry (buffers_dict bc) i = inr rb ∧
    py_getitem rb (VStr "number_of_slots") = inr ns ∧
    py_getitem rb (VStr "channel_per_slot") = inr nc ∧
    py_getitem rb (VStr "data_type") = inr dt ∧
    (∀ s, make_rb_datatype w dt s = (s, inr layout)) ∧
    setup_buffer w bc i st =
      (with_self
         (set_ringbuffers
            (Some (dict_set ("RB_" +:+ PyStr.str i) (NewBuffer ns nc layout) rbs))
            (self st))
         (with_log (log st ++ [EvNewBuffer ("RB_" +:+ PyStr.str i)]) st),
       inr ()).
Proof.
  intros Hr. unfold buffer_entry_ok.
  destruct (buffer_entry (buffers_dict bc) i) as [|rb] eqn:Hrb; [done|].
  destruct (py_getitem rb (VStr "number_of_slots")) as [|ns] eqn:Hns; [done|].
  destruct (py_getitem rb (VStr "channel_per_slot")) as [|nc] eqn:Hnc; [done|].
  destruct (py_getitem rb (VStr "data_type")) as [|dt] eqn:Hdt; [done|].
  intros Hok.
  destruct (make_rb_datatype_pure w dt) as (r & Hrun & Hiff).
  destruct r as [e|layout]; [apply Hiff in Hok; by destruct Hok|].
  exists rb, ns, nc, dt, layout. split_and!; try done.
  unfold buffer_entry in Hrb. unfold setup_buffer.
  destruct (py_getitem (buffers_dict bc) (VInt (Z.of_nat i - 1))) as [|e] eqn:He;
    [done|].
  unfold try_except, bind, lift. rewrite Hrb, Hns, Hnc, Hdt, Hrun.
  unfold emit, get_ringbuffers, get_self, bind, ret, modify_self. simpl.
  by rewrite Hr.
Qed.

(** ... and with any other entry the pass ends with an exception before
    anything was built. *)
Lemma setup_buffer_fail w bc i st :
  buffer_entry_ok w (buffers_dict bc) i = false →
  ∃ e, setup_buffer w bc i st = (st, inl e).
Proof.
  unfold buffer_entry_ok, buffer_entry, setup_buffer.
  destruct (make_rb_datatype_pure w
              (match py_getitem (buffers_dict bc) (VInt (Z.of_nat i - 1)) with
               | inr e =>
                   match py_getitem e (VStr ("RB_" +:+ PyStr.str i)) with
                   | inr rb =>
                       match py_getitem rb (VStr "data_type") with
                       | inr dt => dt
                       | inl _ => VNone
                       end
                   | inl _ => VNone
                   end
               | inl _ => VNone
               end)) as (r & Hrun & Hiff).
  unfold try_except, bind, lift, raise.
  destruct (py_getitem (buffers_dict bc) (VInt (Z.of_nat i - 1))) as [e|x].
  { destruct (is_KeyError e); eauto. }
  destruct (py_getitem x (VStr ("RB_" +:+ PyStr.str i))) as [e|rb].
  { destruct (is_KeyError e); eauto. }
  destruct (py_getitem rb (VStr "number_of_slots")) as [e|ns]; [eauto|].
  destruct (py_getitem rb (VStr "channel_per_slot")) as [e|nc]; [eauto|].
  destruct (py_getitem rb (VStr "data_type")) as [e|dt]; [eauto|].
  intros Hbad. rewrite Hrun. destruct r as [e|layout]; [eauto|].
  destruct Hiff as [_ Hiff]. rewrite Hiff in Hbad by eauto. done.
Qed.

Lemma setup_buffers_loop_run w bc m : ∀ a st rbs,
  ringbuffers (self st) = Some rbs → dict_keys rbs = rb_names a →
  (∀ i, i ∈ seq (S a) m → buffer_entry_ok w (buffers_dict bc) i = true) →
  ∃ rbs',
    for_each (seq (S a) m) (setup_buffer w bc) st =
      (with_self (set_ringbuffers (Some rbs') (self st))
         (with_log
            (log st ++ (EvNewBuffer <$> ((λ i, "RB_" +:+ PyStr.str i) <$> seq (S a) m)))
            st), inr ()) ∧
    dict_keys rbs' = rb_names (a + m) ∧
    (∀ k, k ∈ dict_keys rbs → dict_get k rbs' = dict_get k rbs) ∧
    ∀ i, i ∈ seq (S a) m →
      ∃ rb ns nc dt layout,
        buffer_entry (buffers_dict bc) i = inr rb ∧
        py_getitem rb (VStr "number_of_slots") = inr ns ∧
        py_getitem rb (VStr "channel_per_slot") = inr nc ∧
        py_getitem rb (VStr "data_type") = inr dt ∧
        (∀ s, make_rb_datatype w dt s = (s, inr layout)) ∧
        dict_get ("RB_" +:+ PyStr.str i) rbs' = Some (NewBuffer ns nc layout).
Proof.
  induction m as [|m IH]; intros a st rbs Hr Hk Hall; simpl.
  - exists rbs. rewrite Nat.add_0_r, app_nil_r. split_and!; try done.
    + unfold ret. f_equal. destruct st as [l p g bc']. simpl in *.
      unfold with_self, with_log. simpl. f_equal.
      destruct bc'. simpl in *. by subst.
    + by intros i ?%elem_of_nil.
  - destruct (setup_buffer_run w bc (S a) st rbs Hr)
      as (rb & ns & nc & dt & layout & Hrb & Hns & Hnc & Hdt & Hlay & Hrun).
    { apply Hall. left. }
    set (name := "RB_" +:+ PyStr.str (S a)) in *.
    set (rbs1 := dict_set name (NewBuffer ns nc layout) rbs) in *.
    assert (dict_keys rbs1 = rb_names (S a)) as Hk1.
    { unfold rbs1. rewrite dict_keys_set_new, Hk, rb_names_snoc; [done|].
      rewrite Hk. apply rb_name_fresh. }
    destruct (IH (S a)
                (with_self (set_ringbuffers (Some rbs1) (self st))
                   (with_log (log st ++ [EvNewBuffer name]) st)) rbs1)
      as (rbs' & Hloop & Hk' & Hold & Hnew); [done|exact Hk1| |].
    { intros i Hi. apply Hall. by right. }
    exists rbs'. unfold bind. rewrite Hrun, Hloop. split_and!.
    + simpl. by rewrite <-app_assoc.
    + by rewrite Hk', Nat.add_succ_r.
    + intros k Hin. rewrite Hold.
      * unfold rbs1. apply dict_get_set_ne. intros <-.
        rewrite Hk in Hin. by apply rb_name_fresh in Hin.
      * rewrite Hk1, rb_names_snoc, <-Hk. apply elem_of_app. by left.
    + intros i [->|Hi]%elem_of_cons; [|by apply Hnew].
      exists rb, ns, nc, dt, layout. split_and!; try done.
      rewrite Hold; [apply dict_get_set_eq|].
      rewrite Hk1, rb_names_snoc. apply elem_of_app. right. by left.
Qed.

Lemma with_self_log_id st :
  with_self (self st) (with_log (log st) st) = st.
Proof. by destruct st. Qed.

Lemma setup_buffers_run w st :
  (∀ i, i ∈ range1 (number_of_ringbuffers (self st)) →
        buffer_entry_ok w (buffers_dict (self st)) i = true) →
  ∃ rbs,
    setup_buffers w st =
      (with_self (set_ringbuffers (Some rbs) (self st))
         (with_log
            (log st ++
             (EvNewBuffer <$> rb_names (number_of_ringbuffers (self st) - 1)))
            st), inr rbs) ∧
    dict_keys rbs = rb_names (number_of_ringbuffers (self st) - 1) ∧
    ∀ i, i ∈ range1 (number_of_ringbuffers (self st)) →
      ∃ rb ns nc dt layout,
        buffer_entry (buffers_dict (self st)) i = inr rb ∧
        py_getitem rb (VStr "number_of_slots") = inr ns ∧
        py_getitem rb (VStr "channel_per_slot") = inr nc ∧
        py_getitem rb (VStr "data_type") = inr dt ∧
        (∀ s, make_rb_datatype w dt s = (s, inr layout)) ∧
        dict_get ("RB_" +:+ PyStr.str i) rbs = Some (NewBuffer ns nc layout).
Proof.
  intros Hall.
  destruct (setup_buffers_loop_run w
              (set_ringbuffers (Some []) (self st))
              (number_of_ringbuffers (self st) - 1) 0
              (with_self (set_ringbuffers (Some []) (self st)) st) [])
    as (rbs & Hloop & Hk & _ & Hnew); [done|done|exact Hall|].
  exists rbs. split; [|split; [done|exact Hnew]].
  unfold setup_buffers, modify_self at 1, bind at 1.
  unfold get_self at 1, bind at 1. simpl. unfold range1, bind at 1.
  simpl in Hloop. rewrite Hloop.
  unfold get_ringbuffers, get_self, bind, ret. simpl. done.
Qed.

Lemma setup_buffers_entries_ok w st st' rbs :
  setup_buffers w st = (st', inr rbs) →
  ∀ i, i ∈ range1 (number_of_ringbuffers (self st)) →
       buffer_entry_ok w (buffers_dict (self st)) i = true.
Proof.
  unfold setup_buffers. intros Hrun i Hi.
  apply bind_ok in Hrun as (s0 & [] & H0 & Hrun).
  unfold modify_self in H0. injection H0 as <-.
  apply bind_ok in Hrun as (s1 & bc & H1 & Hrun).
  unfold get_self in H1. injection H1 as <- <-. simpl in Hrun.
  apply bind_ok in Hrun as (s2 & [] & Hloop & _).
  eapply (for_each_ok_inv (λ _, True)) in Hloop as [_ Hbody]; [|done|done].
  destruct (Hbody i Hi) as (s3 & s4 & _ & Hone).
  destruct (buffer_entry_ok w (buffers_dict (self st)) i) eqn:Hok; [done|].
  eapply (setup_buffer_fail w (set_ringbuffers (Some []) (self st)) i s3)
    in Hok as [e He].
  rewrite He in Hone. done.
Qed.

(** X1.  [setup_buffers] returns normally exactly when every entry of
    [buffers_dict] is usable: entry [i-1] is keyed [RB_<i>], has the keys
    [number_of_slots], [channel_per_slot] and [data_type], and the data type
    is one numpy accepts (a type name, or a mapping of [[field, type]]
    pairs).  In every other case it ends with an exception. *)
Theorem setup_buffers_succeeds_iff w st :
  (∃ rbs, (setup_buffers w st).2 = inr rbs) ↔
  ∀ i, i ∈ range1 (number_of_ringbuffers (self st)) →
       buffer_entry_ok w (buffers_dict (self st)) i = true.
Proof.
  split.
  - intros [rbs Hrun].
    destruct (setup_buffers w st) as [st' r] eqn:Hsb. simpl in Hrun. subst r.
    by eapply setup_buffers_entries_ok.
  - intros Hall. destruct (setup_buffers_run w st Hall) as (rbs & Hrun & _).
    exists rbs. by rewrite Hrun.
Qed.

(** X2.  When [setup_buffers] returns, the controller holds exactly the
    buffers [RB_1 ... RB_n] (one per entry of [buffers_dict], in that order),
    whatever [self.ringbuffers] held before; [NewBuffer] was called once per
    entry and nothing else was done; and buffer [RB_<i>] is the new buffer
    built from the [number_of_slots], [channel_per_slot] and [data_type] of
    its own entry. *)
Theorem setup_buffers_builds_one_buffer_per_entry w st st' rbs :
  setup_buffers w st = (st', inr rbs) →
  st' = with_self (set_ringbuffers (Some rbs) (self st))
          (with_log
             (log st ++
              (EvNewBuffer <$> rb_names (number_of_ringbuffers (self st) - 1)))
             st) ∧
  dict_keys rbs = rb_names (number_of_ringbuffers (self st) - 1) ∧
  ∀ i, i ∈ range1 (number_of_ringbuffers (self st)) →
    ∃ rb ns nc dt layout,
      buffer_entry (buffers_dict (self st)) i = inr rb ∧
      py_getitem rb (VStr "number_of_slots") = inr ns ∧
      py_getitem rb (VStr "channel_per_slot") = inr nc ∧
      py_getitem rb (VStr "data_type") = inr dt ∧
      (∀ s, make_rb_datatype w dt s = (s, inr layout)) ∧
      dict_get ("RB_" +:+ PyStr.str i) rbs = Some (NewBuffer ns nc layout).
Proof.
  intros Hrun.
  destruct (setup_buffers_run w st (setup_buffers_entries_ok w st st' rbs Hrun))
    as (rbs' & Hrun' & Hk & Hnew).
  rewrite Hrun in Hrun'. injection Hrun' as -> ->. done.
Qed.

Lemma setup_buffers_builds_one_buffer_per_entry_witness :
  ∃ rbs,
    dict_keys rbs = ["RB_1"; "RB_2"] ∧
    dict_get "RB_2" rbs =
      Some (NewBuffer (VInt 8) (VInt 1)
              (DtFields [(VStr "height", {| dtype_name := "float32" |})])) ∧
    log (setup_buffers demo_world demo_state).1 =
      log demo_state ++ [EvNewBuffer "RB_1"; EvNewBuffer "RB_2"].
Proof.
  destruct (setup_buffers demo_world demo_state) as [st' [e|rbs]] eqn:Hrun;
    [by vm_compute in Hrun|].
  destruct (setup_buffers_builds_one_buffer_per_entry demo_world demo_state
              st' rbs Hrun) as (-> & Hk & Hnew).
  exists rbs. split; [exact Hk|]. split; [|reflexivity].
  destruct (Hnew 2%nat) as (rb & ns & nc & dt & layout & Hrb & Hns & Hnc &
                            Hdt & Hlay & Hget).
  { vm_compute. right. left. }
  vm_compute in Hrb. injection Hrb as <-.
  vm_compute in Hns. injection Hns as <-.
  vm_compute in Hnc. injection Hnc as <-.
  vm_compute in Hdt. injection Hdt as <-.
  specialize (Hlay demo_state). vm_compute in Hlay. injection Hlay as <-.
  exact Hget.
Defined.

Lemma setup_buffer_missing_name w bc k d st :
  py_getitem (buffers_dict bc) (VInt (Z.of_nat k - 1)) = inr (VDict d) →
  dict_get ("RB_" +:+ PyStr.str k) d = None →
  setup_buffer w bc k st =
    (st, inl (RuntimeError (msg_rb_not_found ("RB_" +:+ PyStr.str k)))).
Proof.
  intros He Hd. unfold setup_buffer, try_except, bind, lift, raise.
  rewrite He. cbn [py_getitem]. by rewrite Hd.
Qed.

Lemma setup_buffer_unknown_type w bc k rb ns nc dt st :
  buffer_entry (buffers_dict bc) k = inr rb →
  py_getitem rb (VStr "number_of_slots") = inr ns →
  py_getitem rb (VStr "channel_per_slot") = inr nc →
  py_getitem rb (VStr "data_type") = inr dt →
  is_str_or_dict dt = false →
  setup_buffer w bc k st = (st, inl (RuntimeError msg_unknown_data_type)).
Proof.
  unfold buffer_entry. intros Hrb Hns Hnc Hdt Hty.
  unfold setup_buffer, try_except, bind, lift, raise.
  destruct (py_getitem (buffers_dict bc) (VInt (Z.of_nat k - 1))); [done|].
  rewrite Hrb, Hns, Hnc, Hdt. by destruct dt.
Qed.

Lemma setup_buffers_fails_at w st k e :
  k ∈ range1 (number_of_ringbuffers (self st)) →
  (∀ i, i ∈ range1 (number_of_ringbuffers (self st)) → (i < k)%nat →
        buffer_entry_ok w (buffers_dict (self st)) i = true) →
  (∀ s, setup_buffer w (set_ringbuffers (Some []) (self st)) k s = (s, inl e)) →
  (setup_buffers w st).2 = inl e ∧
  log (setup_buffers w st).1 = log st ++ (EvNewBuffer <$> rb_names (k - 1)) ∧
  (dict_keys <$> ringbuffers (self (setup_buffers w st).1)) =
    Some (rb_names (k - 1)).
Proof.
  intros Hk Hbefore Hfail. unfold range1 in *.
  apply elem_of_seq in Hk.
  set (n := number_of_ringbuffers (self st)) in *.
  assert (seq 1 (n - 1) = seq 1 (k - 1) ++ k :: seq (S k) (n - 1 - k)) as Hsplit.
  { replace (n - 1)%nat with ((k - 1) + S (n - 1 - k))%nat at 1 by lia.
    rewrite seq_app. by replace (1 + (k - 1))%nat with k by lia. }
  destruct (setup_buffers_loop_run w
              (set_ringbuffers (Some []) (self st)) (k - 1) 0
              (with_self (set_ringbuffers (Some []) (self st)) st) [])
    as (rbs & Hloop & Hkeys & _ & _); [done|done| |].
  { intros i Hi. apply Hbefore.
    - apply elem_of_seq. apply elem_of_seq in Hi. lia.
    - apply elem_of_seq in Hi. lia. }
  assert (setup_buffers w st =
            (with_self (set_ringbuffers (Some rbs) (self st))
               (with_log (log st ++ (EvNewBuffer <$> rb_names (k - 1))) st),
             inl e)) as ->.
  { unfold setup_buffers, modify_self at 1, bind at 1.
    unfold get_self at 1, bind at 1. simpl. unfold range1, bind at 1.
    fold n. rewrite Hsplit, for_each_app, Hloop. simpl.
    unfold bind at 1. by rewrite Hfail. }
  simpl in Hkeys |- *. by rewrite Hkeys.
Qed.

(** X3.  The two diagnostics of [setup_buffers].  When the entries before
    number [k] are usable and entry [k] is a mapping, then: if it has no key
    [RB_<k>] the method raises [RuntimeError] with the message that names
    [RB_<k>]; if its [data_type] is neither a string nor a mapping it raises
    [RuntimeError] with a message that does not name the data type (the
    placeholder is left as it is, [format] being applied to the last string
    literal only).  In both cases the buffers before [k], and only those,
    were created. *)
Theorem setup_buffers_diagnostics w st k d :
  k ∈ range1 (number_of_ringbuffers (self st)) →
  (∀ i, i ∈ range1 (number_of_ringbuffers (self st)) → (i < k)%nat →
        buffer_entry_ok w (buffers_dict (self st)) i = true) →
  py_getitem (buffers_dict (self st)) (VInt (Z.of_nat k - 1)) = inr (VDict d) →
  (dict_get ("RB_" +:+ PyStr.str k) d = None →
   (setup_buffers w st).2 =
     inl (RuntimeError (msg_rb_not_found ("RB_" +:+ PyStr.str k))) ∧
   log (setup_buffers w st).1 = log st ++ (EvNewBuffer <$> rb_names (k - 1)) ∧
   (dict_keys <$> ringbuffers (self (setup_buffers w st).1)) =
     Some (rb_names (k - 1))) ∧
  (∀ rb ns nc dt,
     dict_get ("RB_" +:+ PyStr.str k) d = Some rb →
     py_getitem rb (VStr "number_of_slots") = inr ns →
     py_getitem rb (VStr "channel_per_slot") = inr nc →
     py_getitem rb (VStr "data_type") = inr dt →
     is_str_or_dict dt = false →
     (setup_buffers w st).2 = inl (RuntimeError msg_unknown_data_type) ∧
     PyStr.index_of "{}" msg_unknown_data_type = Some 23%nat ∧
     log (setup_buffers w st).1 = log st ++ (EvNewBuffer <$> rb_names (k - 1)) ∧
     (dict_keys <$> ringbuffers (self (setup_buffers w st).1)) =
       Some (rb_names (k - 1))).
Proof.
  intros Hk Hbefore Hentry. split.
  - intros Hnone.
    apply (setup_buffers_fails_at w st k _ Hk Hbefore).
    intros s. by apply (setup_buffer_missing_name _ _ _ d).
  - intros rb ns nc dt Hrb Hns Hnc Hdt Hty.
    destruct (setup_buffers_fails_at w st k
                (RuntimeError msg_unknown_data_type) Hk Hbefore)
      as (Hres & Hlog & Hkeys); [|by split_and!].
    intros s. eapply setup_buffer_unknown_type; try done.
    unfold buffer_entry. cbn [buffers_dict set_ringbuffers]. rewrite Hentry.
    cbn [py_getitem]. by rewrite Hrb.
Qed.

Lemma setup_buffers_diagnostics_witness :
  (setup_buffers baddtype_world (demo_state_in baddtype_world)).2 =
    inl (RuntimeError msg_unknown_data_type) ∧
  log (setup_buffers baddtype_world (demo_state_in baddtype_world)).1 =
    log (demo_state_in baddtype_world).
Proof.
  destruct (setup_buffers_diagnostics baddtype_world
              (demo_state_in baddtype_world) 1
              [("RB_1", VDict [("number_of_slots", VInt 16);
                               ("channel_per_slot", VInt 4);
                               ("data_type", VInt 8)])])
    as [_ Htype].
  - vm_compute. left.
  - intros i Hi ?. unfold range1 in Hi. apply elem_of_seq in Hi. lia.
  - reflexivity.
  - destruct (Htype _ (VInt 16) (VInt 4) (VInt 8) eq_refl eq_refl eq_refl
                eq_refl eq_refl) as (Hres & _ & Hlog & _).
    split; [exact Hres|]. rewrite Hlog. apply app_nil_r.
Defined.

(** ** The life cycle of the controller *)

Section ControllerInvariant.
Variable Q : buffer_control → Prop.
Hypothesis Q_ringbuffers : ∀ bc r, Q bc → Q (set_ringbuffers r bc).
Hypothesis Q_process_list : ∀ bc pl, Q bc → Q (set_process_list pl bc).
Hypothesis Q_runtime : ∀ bc r, Q bc → Q (set_runtime r bc).

Lemma keeps_setup_worker w c i : inv (self_inv Q) (setup_worker w c i).
Proof.
  pose proof (sinv_fkt_item Q) as Hitem.
  pose proof (sinv_resolve_config Q) as Hcfg.
  pose proof (sinv_import_function Q) as Himp.
  unfold setup_worker, allocate_endpoints, assign_endpoint, new_endpoint,
    append_process.
  repeat first
    [ inv_step
    | simple apply sinv_emit | simple apply sinv_fresh_process_id
    | simple apply sinv_modify_self; intros ? ?; auto ].
Qed.

Lemma keeps_load_common_config w : inv (self_inv Q) (load_common_config w).
Proof.
  unfold load_common_config, copy_config, copyfile, get_config.
  repeat first
    [ inv_step
    | simple apply sinv_emit | simple apply sinv_global
    | simple apply sinv_modify_self; intros ? ?; auto ].
Qed.

Lemma keeps_base_runtime : inv (self_inv Q) base_runtime.
Proof. unfold base_runtime. inv_walk. Qed.

(** Everything [setup_workers] does before it sets its flag (lines 80-167). *)
Lemma keeps_setup_workers_body w n :
  inv (self_inv Q)
    (modify_self (set_process_list (Some [])) ;;
     rt <- base_runtime ;;
     modify_self (set_runtime (Some rt)) ;;
     config_dict_common <- load_common_config w ;;
     for_fold (range1 n) config_dict_common (setup_worker w)).
Proof.
  pose proof keeps_setup_worker as Hworker.
  pose proof keeps_load_common_config as Hload.
  pose proof keeps_base_runtime as Hbase.
  repeat first
    [ inv_step
    | simple apply sinv_modify_self; intros ? ?; auto ].
Qed.

End ControllerInvariant.

Lemma bind_modify_err {A} (m : M A) f st st' e :
  bind m (λ _, modify_self f) st = (st', inl e) → m st = (st', inl e).
Proof.
  unfold bind, modify_self. destruct (m st) as [s [e'|a]]; intros Heq.
  - by injection Heq as -> ->.
  - discriminate Heq.
Qed.

Lemma setup_workers_assoc w st :
  workers_setup (self st) = false →
  setup_workers w st =
    bind (modify_self (set_process_list (Some [])) ;;
          rt <- base_runtime ;;
          modify_self (set_runtime (Some rt)) ;;
          config_dict_common <- load_common_config w ;;
          for_fold (range1 (number_of_functions (self st))) config_dict_common
            (setup_worker w))
      (λ _, modify_self (set_workers_setup true)) st.
Proof.
  intros Hw. rewrite setup_workers_unfold by done.
  unfold bind. by repeat case_match.
Qed.

(** X4.  [setup_workers] takes effect once.  After a call that returned,
    another call only prints its message: no configuration is read, no
    endpoint is allocated, no process object is created, and the process
    list stays as it is.  The flag behind this is set in the last line of the
    method only: after a call that ended with an exception the workers do
    not count as set up. *)
Theorem setup_workers_takes_effect_once w st st1 r :
  workers_setup (self st) = false →
  setup_workers w st = (st1, r) →
  match r with
  | inr _ =>
      setup_workers w st1 =
        (with_log (log st1 ++ [EvPrint "Cannot setup wokers twice" []]) st1,
         inr ())
  | inl _ => workers_setup (self st1) = false
  end.
Proof.
  intros Hw Hrun. destruct r as [e|[]].
  - rewrite setup_workers_assoc in Hrun by done.
    apply bind_modify_err in Hrun.
    pose proof (keeps_setup_workers_body (λ bc, workers_setup bc = false)
                  ltac:(done) ltac:(done) ltac:(done) w
                  (number_of_functions (self st)) st Hw) as Hinv.
    by rewrite Hrun in Hinv.
  - destruct (setup_workers_effect w st st1 Hw Hrun) as (_ & _ & _ & _ & _ & Hset & _).
    by rewrite setup_workers_twice.
Qed.

Lemma setup_workers_takes_effect_once_witness :
  log (setup_workers demo_world demo_workers_ready).1 =
    log demo_workers_ready ++ [EvPrint "Cannot setup wokers twice" []] ∧
  self (setup_workers demo_world demo_workers_ready).1 = self demo_workers_ready.
Proof.
  pose proof (setup_workers_takes_effect_once demo_world demo_buffers_done
                demo_workers_ready (inr ()) eq_refl eq_refl) as Hrun.
  simpl in Hrun. by rewrite Hrun.
Defined.

Lemma start_workers_again st pl p rest :
  workers_started (self st) = true →
  process_list (self st) = Some pl →
  rev pl = p :: rest →
  p_started p = true →
  start_workers st =
    (with_self (set_process_list (Some (rev pl)) (self st))
       (with_log (log st ++ [EvPrint "Workers already started" []]) st),
     inl (AssertionError "cannot start a process twice")).
Proof.
  intros Hws Hpl Hrev Hp.
  assert (length pl = S (length rest)) as Hlen.
  { by rewrite <-length_rev, Hrev. }
  unfold start_workers, get_self, print, emit, get_process_list, get_self,
    modify_self, bind, ret.
  rewrite Hws. simpl. rewrite Hpl, Hlen. simpl.
  unfold start_nth, get_process_list, get_self, bind, ret, raise. simpl.
  rewrite Hrev. simpl. by rewrite Hp.
Qed.

(** X5.  [start_workers] has no guard against a second call: after a call
    that started a non-empty process list, the next call prints its message
    and goes on, reverses the process list once more (back into the order of
    creation) and ends with the assertion error of [start()] on the first
    process, which is running already.  No process is started twice. *)
Theorem start_workers_twice_raises st pl :
  process_list (self st) = Some pl →
  pl ≠ [] →
  Forall (λ p, p_started p = false) pl →
  ∃ st1 st2,
    start_workers st = (st1, inr (p_mark_started <$> rev pl)) ∧
    start_workers st1 =
      (st2, inl (AssertionError "cannot start a process twice")) ∧
    log st2 = log st1 ++ [EvPrint "Workers already started" []] ∧
    process_list (self st2) = Some (p_mark_started <$> pl).
Proof.
  intros Hpl Hne Hun.
  destruct (start_workers_spec st pl Hpl Hun)
    as (st1 & Hstart & Hpl1 & _ & _ & Hws & _).
  exists st1. destruct pl as [|p pl']; [done|].
  rewrite (start_workers_again st1 _ (p_mark_started p)
             (p_mark_started <$> pl') Hws Hpl1).
  - eexists. split_and!; try done. simpl.
    by rewrite <-(fmap_rev p_mark_started (rev pl' ++ [p])), rev_app_distr,
      rev_involutive.
  - by rewrite <-fmap_rev, rev_involutive.
  - done.
Qed.

Lemma start_workers_twice_raises_witness :
  ∃ st1 st2,
    (start_workers demo_workers_ready).1 = st1 ∧
    start_workers st1 =
      (st2, inl (AssertionError "cannot start a process twice")) ∧
    started (log st2) = started (log st1).
Proof.
  destruct (start_workers_twice_raises demo_workers_ready
              (default [] (process_list (self demo_workers_ready))))
    as (st1 & st2 & Hfirst & Hsecond & Hlog & _).
  - reflexivity.
  - by vm_compute.
  - vm_compute. repeat constructor.
  - exists st1, st2. split; [by rewrite Hfirst|]. split; [exact Hsecond|].
    rewrite Hlog. by apply started_skip.
Defined.

Lemma get_ringbuffers_deleted {A} (k : list (string * RingBuffer) → M A) st :
  ringbuffers (self st) = None →
  bind get_ringbuffers k st = (st, inl (AttributeError "ringbuffers")).
Proof.
  intros Hr. unfold get_ringbuffers, get_self, bind, raise. by rewrite Hr.
Qed.

(** X6.  [shutdown] deletes the attribute [ringbuffers] as its last step,
    so a controller that was shut down cannot be used again: [shutdown],
    [pause] and [resume] end with [AttributeError] and do nothing, and
    [display_layout] ends with it after its headline. *)
Theorem no_operation_after_shutdown st st' :
  shutdown st = (st', inr ()) →
  ringbuffers (self st') = None ∧
  shutdown st' = (st', inl (AttributeError "ringbuffers")) ∧
  pause st' = (st', inl (AttributeError "ringbuffers")) ∧
  resume st' = (st', inl (AttributeError "ringbuffers")) ∧
  display_layout st' =
    (with_log (log st' ++ [EvPrint "List of buffers" []]) st',
     inl (AttributeError "ringbuffers")).
Proof.
  intros Hrun.
  assert (ringbuffers (self st') = None) as Hr.
  { unfold shutdown in Hrun.
    apply bind_ok in Hrun as (s1 & rbs & _ & Hrun).
    apply bind_ok in Hrun as (s2 & [] & _ & Hrun).
    apply bind_ok in Hrun as (s3 & pl & _ & Hrun).
    apply bind_ok in Hrun as (s4 & [] & _ & Hrun).
    unfold modify_self in Hrun. by injection Hrun as <-. }
  split; [done|].
  unfold shutdown, pause, resume, set_paused, display_layout.
  rewrite !get_ringbuffers_deleted by done. split_and!; try done.
  unfold print, emit, bind at 1. by rewrite get_ringbuffers_deleted.
Qed.

Lemma no_operation_after_shutdown_witness :
  (pause (shutdown demo_running).1).2 = inl (AttributeError "ringbuffers") ∧
  (shutdown (shutdown demo_running).1).2 = inl (AttributeError "ringbuffers").
Proof.
  destruct (shutdown demo_running) as [st' [e|[]]] eqn:Hrun;
    [by vm_compute in Hrun|].
  destruct (no_operation_after_shutdown demo_running st' Hrun)
    as (_ & Hs & Hp & _).
  simpl. by rewrite Hs, Hp.
Defined.

Lemma RB_1_in_names m : "RB_1" ∈ rb_names m ↔ (1 ≤ m)%nat.
Proof.
  unfold rb_names. rewrite list_elem_of_fmap. split.
  - intros (i & _ & Hi). apply elem_of_seq in Hi. lia.
  - intros Hm. exists 1%nat. split; [done|]. apply elem_of_seq. lia.
Qed.

(** X7.  [pause] and [resume] address the buffer named [RB_1] and no
    other.  On a controller whose buffers were set up they succeed exactly
    when the setup defines at least one ring buffer; they then call the
    method on [RB_1] and leave every other buffer as it is.  With an empty
    list of ring buffers they end with [KeyError: 'RB_1'] and do nothing. *)
Theorem pause_and_resume_address_RB_1 w st0 st1 rbs st rbs' b :
  setup_buffers w st0 = (st1, inr rbs) →
  ringbuffers (self st) = Some rbs' →
  dict_keys rbs' = dict_keys rbs →
  if decide (2 ≤ number_of_ringbuffers (self st0))%nat then
    ∃ rb new,
      dict_get "RB_1" rbs' = Some rb ∧
      set_paused b st =
        (with_self (set_ringbuffers (Some new) (self st))
           (with_log (log st ++ [if b then EvPause "RB_1" else EvResume "RB_1"])
              st), inr ()) ∧
      dict_get "RB_1" new = Some (rb_set_paused b rb) ∧
      dict_keys new = dict_keys rbs' ∧
      ∀ k, k ≠ "RB_1" → dict_get k new = dict_get k rbs'
  else set_paused b st = (st, inl (KeyError (VStr "RB_1"))).
Proof.
  intros Hsb Hr Hk.
  apply setup_buffers_ok in Hsb as (_ & Hnames & _).
  rewrite Hnames in Hk.
  unfold set_paused, get_ringbuffers, get_self, bind, ret. rewrite Hr.
  case_decide as Hn.
  - destruct (dict_get_key "RB_1" rbs') as [rb Hrb].
    { rewrite Hk. apply RB_1_in_names. lia. }
    exists rb, (dict_set "RB_1" (rb_set_paused b rb) rbs').
    rewrite Hrb. split_and!; try done.
    + apply dict_get_set_eq.
    + apply dict_keys_set_in. by eapply dict_get_Some_key.
    + intros k Hne. by apply dict_get_set_ne.
  - destruct (dict_get "RB_1" rbs') as [rb|] eqn:Hrb; [|done].
    apply dict_get_Some_key in Hrb. rewrite Hk in Hrb.
    apply RB_1_in_names in Hrb. lia.
Qed.

Lemma pause_and_resume_address_RB_1_witness :
  log (pause demo_running).1 = log demo_running ++ [EvPause "RB_1"].
Proof.
  pose proof (pause_and_resume_address_RB_1 demo_world demo_state
                demo_buffers_done
                (default [] (ringbuffers (self demo_buffers_done)))
                demo_running demo_ringbuffers true
                eq_refl eq_refl eq_refl) as Hrun.
  destruct (decide (2 ≤ number_of_ringbuffers (self demo_state))%nat)
    as [_|Hn]; [|by vm_compute in Hn; lia].
  destruct Hrun as (rb & new & _ & Hrun & _).
  unfold pause. by rewrite Hrun.
Defined.

(** ** [sys.path] *)

Section PathInvariant.
Variable P : list string → Prop.
Hypothesis P_add : ∀ l x, x ∉ l → P l → P (l ++ [x]).

Lemma pinv_emit e : inv (path_inv P) (emit e).
Proof. by intros st. Qed.

Lemma pinv_modify_self f : inv (path_inv P) (modify_self f).
Proof. by intros st. Qed.

Lemma pinv_import_module w m : inv (path_inv P) (import_module w m).
Proof. by intros st. Qed.

Lemma pinv_fresh_process_id : inv (path_inv P) fresh_process_id.
Proof. by intros st. Qed.

Lemma pinv_global : inv (path_inv P) global_parallel_functions_dict.
Proof.
  intros st. unfold global_parallel_functions_dict.
  by destruct (parallel_functions_dict st).
Qed.

Lemma pinv_add_sys_path p : inv (path_inv P) (add_sys_path p).
Proof.
  intros st Hst. unfold add_sys_path, path_inv. simpl.
  case_bool_decide; [done|]. by apply P_add.
Qed.

Ltac inv_path :=
  repeat first
    [ inv_step
    | simple apply pinv_emit | simple apply pinv_modify_self
    | simple apply pinv_import_module | simple apply pinv_fresh_process_id
    | simple apply pinv_global | simple apply pinv_add_sys_path ].

Lemma pinv_import_function w m f : inv (path_inv P) (import_function w m f).
Proof. unfold import_function, print. inv_path. Qed.

Lemma pinv_setup_buffers w : inv (path_inv P) (setup_buffers w).
Proof.
  unfold setup_buffers, setup_buffer, make_rb_datatype, add_field, np_dtype_of.
  inv_path.
Qed.

Lemma pinv_setup_worker w c i : inv (path_inv P) (setup_worker w c i).
Proof.
  pose proof pinv_import_function as Himp.
  unfold setup_worker, resolve_config, copy_config, copyfile,
    get_config, print, allocate_endpoints, assign_endpoint, new_endpoint,
    append_process, fkt_item.
  inv_path.
Qed.

Lemma pinv_setup_workers w : inv (path_inv P) (setup_workers w).
Proof.
  pose proof pinv_setup_worker as Hworker.
  unfold setup_workers, base_runtime, load_common_config, copy_config,
    copyfile, get_config, print.
  inv_path.
Qed.

Lemma pinv_shutdown : inv (path_inv P) shutdown.
Proof. unfold shutdown, shutdown_buffer, join_process, print. inv_path. Qed.

Lemma pinv_set_paused b : inv (path_inv P) (set_paused b).
Proof. unfold set_paused. inv_path. Qed.

Lemma pinv_sample_status : inv (path_inv P) sample_status.
Proof. unfold sample_status. inv_path. Qed.

Lemma pinv_batch_loop w fuel : ∀ poll, inv (path_inv P) (batch_loop w fuel poll).
Proof.
  pose proof pinv_sample_status as Hs.
  induction fuel as [|fuel IH]; intros poll; simpl; inv_path.
Qed.

Lemma pinv_timed_loop w r fuel : ∀ poll,
  inv (path_inv P) (timed_loop w r fuel poll).
Proof.
  pose proof pinv_sample_status as Hs.
  induction fuel as [|fuel IH]; intros poll; simpl; inv_path.
Qed.

Lemma pinv_main_run w fuel : inv (path_inv P) (main_run w fuel).
Proof.
  pose proof pinv_setup_buffers as H1. pose proof pinv_setup_workers as H2.
  pose proof pinv_shutdown as H3. pose proof pinv_set_paused as H4.
  pose proof pinv_batch_loop as H5. pose proof pinv_timed_loop as H6.
  unfold main_run, main_setup, main_batch, main_timed, main_finish, pause,
    display_layout, start_workers, start_nth, print.
  inv_path.
Qed.

End PathInvariant.

(** X8.  The controller treats [sys.path] as a set that only grows: in a
    run of the script from the construction of the controller on, whatever
    its outcome, the entries present at the start stay where they are, new
    ones are appended behind them, and no entry is inserted that is there
    already. *)
Theorem sys_path_only_grows w fuel st :
  sys_path st `prefix_of` sys_path (main_run w fuel st).1 ∧
  (NoDup (sys_path st) → NoDup (sys_path (main_run w fuel st).1)).
Proof.
  split.
  - refine (pinv_main_run (λ l, sys_path st `prefix_of` l) _ w fuel st _);
      [|unfold path_inv; reflexivity].
    intros l x _ Hl. by apply prefix_app_r.
  - intros Hnd. refine (pinv_main_run NoDup _ w fuel st Hnd).
    intros l x Hx Hl. apply NoDup_app. split_and!; [done| |apply NoDup_singleton].
    intros y Hy ->%list_elem_of_singleton. done.
Qed.

(** X9.  [import_function] appends the directory of the module to
    [sys.path] unless it is there already, and it does so before the import
    is tried: the entry stays when the import fails or the callable is
    missing.  A second call with the same module path leaves [sys.path] as
    the first one left it. *)
Theorem import_function_extends_sys_path w p f g st :
  let dir := PyStr.removesuffix (resolve w p) (PyStr.path_name p) in
  let st1 := (import_function w (VStr p) f st).1 in
  sys_path st1 =
    (if decide (dir ∈ sys_path st) then sys_path st else sys_path st ++ [dir]) ∧
  dir ∈ sys_path st1 ∧
  sys_path (import_function w (VStr p) g st1).1 = sys_path st1.
Proof.
  intros dir st1.
  assert (∀ s h, sys_path (import_function w (VStr p) h s).1 =
            if decide (dir ∈ sys_path s) then sys_path s
            else sys_path s ++ [dir]) as Hone.
  { intros s h. unfold import_function, try_except, bind, lift, as_str,
      add_sys_path, import_module, print, emit, ret, raise. fold dir.
    case_bool_decide; case_decide; try done;
      repeat (case_match; simplify_eq/=; try done). }
  assert (dir ∈ sys_path st1) as Hin.
  { unfold st1. rewrite Hone. case_decide; [done|].
    apply elem_of_app. right. by left. }
  split; [apply Hone|]. split; [done|].
  rewrite Hone. by rewrite decide_True.
Qed.

(** ** One worker definition, step by step *)

Lemma import_function_self w file fkt st :
  self (import_function w file fkt st).1 = self st ∧
  parallel_functions_dict (import_function w file fkt st).1 =
    parallel_functions_dict st.
Proof.
  assert (inv (λ s, self s = self st ∧
                    parallel_functions_dict s = parallel_functions_dict st)
              (import_function w file fkt)) as Hinv.
  { assert (∀ e, inv (λ s, self s = self st ∧
                    parallel_functions_dict s = parallel_functions_dict st)
              (emit e)) as Hemit by (by intros e s Hs).
    assert (∀ p, inv (λ s, self s = self st ∧
                    parallel_functions_dict s = parallel_functions_dict st)
              (add_sys_path p)) as Hadd.
    { intros p s Hs. unfold add_sys_path. simpl. by case_bool_decide. }
    assert (∀ m, inv (λ s, self s = self st ∧
                    parallel_functions_dict s = parallel_functions_dict st)
              (import_module w m)) as Himpm by (by intros m s Hs).
    unfold import_function, print. inv_walk. }
  by apply Hinv.
Qed.

(** A successful pass of the loop of lines 97-167, with the states between
    its steps and the process objects it appends. *)
Lemma setup_worker_run w cdc i st st' cdc' pl :
  setup_worker w cdc i st = (st', inr cdc') →
  process_list (self st) = Some pl →
  ∃ file fkt num assigned cfg st1 eps st2 f st3 procs,
    worker_field (functions_dict (self st)) i "file_name" = inr file ∧
    worker_field (functions_dict (self st)) i "fkt_name" = inr fkt ∧
    worker_field (functions_dict (self st)) i "num_process" = inr num ∧
    assigned_ringbuffers_of (functions_dict (self st)) i = inr assigned ∧
    resolve_config w i ("Fkt_" +:+ PyStr.str i) fkt cdc st = (st1, inr cfg) ∧
    self st1 = self st ∧
    allocate_endpoints assigned st1 = (st2, inr eps) ∧
    import_function w file fkt st2 = (st3, inr f) ∧
    self st3 = self st2 ∧
    py_range num = inr (length procs) ∧
    Forall (λ p, p_target p = f ∧ p_args p = worker_args eps cfg.1 ∧
                 p_kwargs p = assigned ∧ p_name p = fkt ∧
                 p_started p = false) procs ∧
    st' = with_self (set_process_list (Some (pl ++ procs)) (self st3))
            (with_log (log st3 ++ (EvProcessCreate <$> procs)) st3) ∧
    cdc' = cfg.2.
Proof.
  intros Hrun Hpl.
  apply setup_worker_ok in Hrun
    as (file & fkt & num & assigned & cfg & st1 & eps & st2 & f & st3 & n &
        Hfile & Hfkt & Hnum & Hass & Hcfg & Heps & Himp & Hn & Happ & ->).
  assert (self st1 = self st) as Hself1.
  { pose proof (sinv_resolve_config (λ bc, bc = self st) w i
                  ("Fkt_" +:+ PyStr.str i) fkt cdc st eq_refl) as Hs.
    by rewrite Hcfg in Hs. }
  pose proof Heps as Heps'.
  apply allocate_endpoints_ok in Heps' as (_ & _ & _ & Hsame2 & _).
  destruct (import_function_self w file fkt st2) as [Hself3 _].
  rewrite Himp in Hself3. simpl in Hself3.
  assert (process_list (self st3) = Some pl) as Hpl3.
  { rewrite Hself3. rewrite <-Hpl, <-Hself1. destruct Hsame2 as [Hsame2 _].
    apply (f_equal process_list) in Hsame2. simpl in Hsame2. done. }
  destruct (append_processes_ok f (worker_args eps cfg.1) assigned fkt
              (seq 0 n) st3 pl Hpl3) as (procs & Hlen & Hall & Hrun).
  rewrite Hrun in Happ. injection Happ as <-.
  rewrite length_seq in Hlen.
  exists file, fkt, num, assigned, cfg, st1, eps, st2, f, st3, procs.
  split_and!; try done. by rewrite Hlen.
Qed.

(** ** The configuration of a worker (lines 114-135) *)

Lemma copy_config_run w f st :
  copy_config w (VStr f) st =
    if copyfile_ok w (abspath w f) (config_copy_dest (out_dir (self st)) f)
    then (with_log
            (log st ++
             [EvCopyfile (abspath w f) (config_copy_dest (out_dir (self st)) f)])
            st, inr ())
    else (st, inl (OSError (config_copy_dest (out_dir (self st)) f))).
Proof.
  unfold copy_config, copyfile, bind, lift, get_self, as_str, emit, raise.
  by case_match.
Qed.

(** Every way in which the step can succeed. *)
Lemma resolve_config_ok w i fkt cdc st st1 cfg :
  resolve_config w i ("Fkt_" +:+ PyStr.str i) fkt cdc st = (st1, inr cfg) →
  (∃ f d,
     worker_field (functions_dict (self st)) i "config_file" = inr (VStr f) ∧
     yaml_load w (abspath w f) = inr (VDict d) ∧
     st1 = with_log
             (log st ++
              [EvCopyfile (abspath w f)
                 (config_copy_dest (out_dir (self st)) f)]) st ∧
     cfg = (dict_set "directory_prefix" (VStr (out_dir (self st))) d, cdc)) ∨
  (∃ key c,
     worker_field (functions_dict (self st)) i "config_file"
       = inl (KeyError key) ∧
     cdc = Some c ∧
     ((∃ d, py_getitem c fkt = inr (VDict d) ∧ st1 = st ∧
            cfg.1 = dict_set "directory_prefix" (VStr (out_dir (self st))) d) ∨
      (∃ e, py_getitem c fkt = inl e ∧ is_KeyError_or_TypeError e = true ∧
            st1 = with_log
                    (log st ++
                     [EvPrint "Warning: no configuration found for file '{}'!"
                        [fkt]]) st ∧
            cfg = ([("directory_prefix", VStr (out_dir (self st)))], cdc)))).
Proof.
  unfold resolve_config. intros Hrun.
  apply bind_ok in Hrun as (s0 & own & Hown & Hrun).
  unfold try_except, bind at 1 in Hown. rewrite fkt_item_eq in Hown.
  unfold get_self, bind at 1 in Hrun.
  destruct (worker_field (functions_dict (self st)) i "config_file")
    as [e|cf] eqn:Hcf.
  - destruct (is_KeyError e) eqn:He; [|done]. destruct e; try done.
    unfold ret in Hown. injection Hown as <- <-. right.
    apply bind_ok in Hrun as (s1 & section & Hsec & Hrun).
    destruct cdc as [c|]; [|done]. exists key, c. split; [done|]. split; [done|].
    unfold try_except, bind, lift, print, emit, ret in Hsec.
    destruct (py_getitem c fkt) as [e|x] eqn:Hget.
    + destruct (is_KeyError_or_TypeError e) eqn:Hkt; [|done].
      injection Hsec as <- <-. unfold ret in Hrun. injection Hrun as <- <-.
      right. by exists e.
    + injection Hsec as <- <-. destruct x; try done.
      unfold ret in Hrun. injection Hrun as <- <-. left. by exists d.
  - unfold ret in Hown. injection Hown as <- <-. left.
    apply bind_ok in Hrun as (s1 & [] & Hcopy & Hrun).
    apply bind_ok in Hrun as (s2 & config & Hget & Hrun).
    destruct cf as [| | | |f| |]; try done.
    rewrite copy_config_run in Hcopy.
    destruct (copyfile_ok w _ _); [|done]. injection Hcopy as <-.
    unfold get_config, bind, lift, as_str in Hget. injection Hget as <- Hget.
    destruct config as [| | | | | |d]; try done.
    unfold ret in Hrun. injection Hrun as <- <-. by exists f, d.
Qed.

Lemma import_function_log_prefix w file fkt st :
  log st `prefix_of` log (import_function w file fkt st).1.
Proof.
  refine (linv_import_function (λ l, log st `prefix_of` l) (λ _, true)
            _ (λ _ _, eq_refl) w file fkt st _).
  - intros l e _ Hl. by apply prefix_app_r.
  - unfold log_inv. reflexivity.
Qed.

Lemma dict_get_directory_prefix (v : PyVal) d :
  dict_get "directory_prefix" (dict_set "directory_prefix" v d) = Some v.
Proof. apply dict_get_set_eq. Qed.

(** X10.  How a worker definition comes to its configuration.  For every
    worker definition that was set up, all its process objects carry the
    same configuration, which is one of three: the content of the
    definition's own [config_file] (this file is then copied into the
    output directory under its base name) whatever the common configuration
    says; without a [config_file], the section of the common configuration
    keyed by the callable's name; or, when the common configuration has no
    such section, nothing, after a warning.  In each case the key
    [directory_prefix] is set to the output directory, replacing a value the
    file may have given. *)
Theorem worker_configuration w cdc i st st' cdc' pl :
  setup_worker w cdc i st = (st', inr cdc') →
  process_list (self st) = Some pl →
  ∃ fkt cfg procs,
    worker_field (functions_dict (self st)) i "fkt_name" = inr fkt ∧
    process_list (self st') = Some (pl ++ procs) ∧
    Forall (λ p, config_dict (p_args p) = cfg) procs ∧
    dict_get "directory_prefix" cfg = Some (VStr (out_dir (self st))) ∧
    ((∃ f d,
        worker_field (functions_dict (self st)) i "config_file"
          = inr (VStr f) ∧
        yaml_load w (abspath w f) = inr (VDict d) ∧
        cfg = dict_set "directory_prefix" (VStr (out_dir (self st))) d ∧
        EvCopyfile (abspath w f)
          (PyStr.dirname (out_dir (self st)) +:+ "/" +:+ PyStr.basename f)
          ∈ log st') ∨
     (∃ key c,
        worker_field (functions_dict (self st)) i "config_file"
          = inl (KeyError key) ∧
        cdc = Some c ∧
        ((∃ d, py_getitem c fkt = inr (VDict d) ∧
               cfg = dict_set "directory_prefix" (VStr (out_dir (self st))) d) ∨
         (∃ e, py_getitem c fkt = inl e ∧
               is_KeyError_or_TypeError e = true ∧
               cfg = [("directory_prefix", VStr (out_dir (self st)))] ∧
               EvPrint "Warning: no configuration found for file '{}'!" [fkt]
                 ∈ log st')))).
Proof.
  intros Hrun Hpl.
  destruct (setup_worker_run w cdc i st st' cdc' pl Hrun Hpl)
    as (file & fkt & num & assigned & cfg & st1 & eps & st2 & f & st3 & procs &
        Hfile & Hfkt & Hnum & Hass & Hcfg & Hself1 & Heps & Himp & Hself3 &
        Hrange & Hall & -> & ->).
  assert (∀ e, e ∈ log st1 →
               e ∈ log st3 ++ (EvProcessCreate <$> procs)) as Hlog.
  { intros e He. apply elem_of_app. left.
    apply allocate_endpoints_ok in Heps as (Hlog2 & _).
    pose proof (import_function_log_prefix w file fkt st2) as [l Hl].
    rewrite Himp in Hl. simpl in Hl. rewrite Hl, Hlog2.
    apply elem_of_app. left. apply elem_of_app. by left. }
  exists fkt, cfg.1, procs. split; [done|]. split; [done|].
  split; [eapply Forall_impl; [exact Hall|]; by intros p (_ & -> & _)|].
  apply resolve_config_ok in Hcfg
    as [(cf & d & Hcf & Hload & -> & ->)
       |(key & c & Hcf & -> & [(d & Hget & -> & Hd)|(e & Hget & He & -> & ->)])].
  - split; [apply dict_get_directory_prefix|]. left. exists cf, d.
    split_and!; try done. apply Hlog. simpl. apply elem_of_app. right. by left.
  - rewrite Hd. split; [apply dict_get_directory_prefix|]. right.
    exists key, c. split_and!; try done. left. by exists d.
  - split; [done|]. right. exists key, c. split_and!; try done. right.
    exists e. split_and!; try done. apply Hlog. simpl.
    apply elem_of_app. right. by left.
Qed.

Lemma worker_configuration_witness :
  ∃ procs,
    process_list
      (self (setup_worker demo_world (Some demo_config) 2 demo_buffers_ready).1)
      = Some procs ∧
    Forall (λ p, config_dict (p_args p) =
                   [("threshold", VInt 5);
                    ("directory_prefix", VStr "target/demo_2024-03-09_140507/")])
      procs.
Proof.
  destruct (setup_worker demo_world (Some demo_config) 2 demo_buffers_ready)
    as [st' [e|cdc']] eqn:Hrun; [by vm_compute in Hrun|].
  destruct (worker_configuration demo_world (Some demo_config) 2
              demo_buffers_ready st' cdc' [] Hrun eq_refl)
    as (fkt & cfg & procs & Hfkt & Hpl & Hall & _ & Hcases).
  exists procs. split; [exact Hpl|].
  eapply Forall_impl; [exact Hall|]. intros p ->.
  vm_compute in Hfkt. injection Hfkt as <-.
  destruct Hcases as [(f & d & Hcf & _)
                     |(key & c & _ & Hc & [(d & Hget & ->)|(e & Hget & _)])].
  - by vm_compute in Hcf.
  - injection Hc as <-. vm_compute in Hget. by injection Hget as <-.
  - injection Hc as <-. by vm_compute in Hget.
Defined.

Lemma resolve_config_own_file w i fkt cdc st f v :
  worker_field (functions_dict (self st)) i "config_file" = inr (VStr f) →
  copyfile_ok w (abspath w f) (config_copy_dest (out_dir (self st)) f) = true →
  yaml_load w (abspath w f) = inr v →
  resolve_config w i ("Fkt_" +:+ PyStr.str i) fkt cdc st =
    (with_log
       (log st ++
        [EvCopyfile (abspath w f) (config_copy_dest (out_dir (self st)) f)]) st,
     match v with
     | VDict d =>
         inr (dict_set "directory_prefix" (VStr (out_dir (self st))) d, cdc)
     | _ => inl TypeError
     end).
Proof.
  intros Hcf Hcopy Hload. unfold resolve_config, try_except, bind at 1.
  unfold bind at 1. rewrite fkt_item_eq, Hcf. unfold ret at 1.
  unfold get_self, bind at 1. unfold bind at 1.
  rewrite copy_config_run, Hcopy.
  unfold get_config, bind, lift, as_str, ret, raise. simpl. rewrite Hload.
  by destruct v.
Qed.

Lemma setup_worker_config_error w cdc i st file fkt num assigned st1 e :
  worker_field (functions_dict (self st)) i "file_name" = inr file →
  worker_field (functions_dict (self st)) i "fkt_name" = inr fkt →
  worker_field (functions_dict (self st)) i "num_process" = inr num →
  assigned_ringbuffers_of (functions_dict (self st)) i = inr assigned →
  resolve_config w i ("Fkt_" +:+ PyStr.str i) fkt cdc st = (st1, inl e) →
  setup_worker w cdc i st = (st1, inl e).
Proof.
  intros Hfile Hfkt Hnum Hass Hcfg. unfold setup_worker.
  rewrite (bind_eq _ _ st st file) by (by rewrite fkt_item_eq, Hfile).
  rewrite (bind_eq _ _ st st fkt) by (by rewrite fkt_item_eq, Hfkt).
  rewrite (bind_eq _ _ st st num) by (by rewrite fkt_item_eq, Hnum).
  rewrite (bind_eq _ _ st st assigned)
    by (by rewrite assigned_ringbuffers_eq, Hass).
  by rewrite (bind_err _ _ st st1 e).
Qed.

(** X11.  A configuration file must hold a mapping.  When the
    [config_file] of a worker definition loads as anything else (an empty
    file loads as [None]), the assignment of [directory_prefix] fails: the
    pass for this worker ends with [TypeError] after the file was copied,
    with no endpoint allocated and no process object created. *)
Theorem config_file_must_hold_a_mapping
    w cdc i st file fkt num assigned f v :
  worker_field (functions_dict (self st)) i "file_name" = inr file →
  worker_field (functions_dict (self st)) i "fkt_name" = inr fkt →
  worker_field (functions_dict (self st)) i "num_process" = inr num →
  assigned_ringbuffers_of (functions_dict (self st)) i = inr assigned →
  worker_field (functions_dict (self st)) i "config_file" = inr (VStr f) →
  copyfile_ok w (abspath w f) (config_copy_dest (out_dir (self st)) f) = true →
  yaml_load w (abspath w f) = inr v →
  is_dict v = false →
  setup_worker w cdc i st =
    (with_log
       (log st ++
        [EvCopyfile (abspath w f) (config_copy_dest (out_dir (self st)) f)]) st,
     inl TypeError).
Proof.
  intros Hfile Hfkt Hnum Hass Hcf Hcopy Hload Hv.
  eapply setup_worker_config_error; try done.
  rewrite (resolve_config_own_file w i fkt cdc st f v) by done.
  by destruct v.
Qed.

Lemma config_file_must_hold_a_mapping_witness :
  (setup_worker emptycfg_world (Some demo_config) 1
     (buffers_done_in emptycfg_world)).2 = inl TypeError ∧
  created (log (setup_worker emptycfg_world (Some demo_config) 1
                  (buffers_done_in emptycfg_world)).1) = [].
Proof.
  rewrite (config_file_must_hold_a_mapping emptycfg_world (Some demo_config) 1
             (buffers_done_in emptycfg_world)
             (VStr "modules/sources") (VStr "pulse_source") (VInt 1)
             [("RB_1", VStr "write")] "config/source.yaml" VNone);
    try reflexivity.
  split; [reflexivity|]. by vm_compute.
Defined.

(** ** The common configuration (lines 86-95) *)

Lemma load_common_config_general w st g gm f d :
  parallel_functions_dict st = Some g →
  main_entry g = inr (VDict gm) →
  dict_get "config_file" gm = Some (VStr f) →
  copyfile_ok w (abspath w f) (config_copy_dest (out_dir (self st)) f) = true →
  yaml_load w (abspath w f) = inr (VDict d) →
  load_common_config w st =
    (general <- lift (py_getitem (VDict d) (VStr "general")) ;;
     has_rt <- lift (py_contains_str general "runtime") ;;
     (if has_rt : bool then
        rt <- lift (py_getitem general (VStr "runtime")) ;;
        modify_self (set_runtime (Some rt))
      else ret ()) ;;
     ret (Some (VDict d)))
      (with_log
         (log st ++
          [EvCopyfile (abspath w f) (config_copy_dest (out_dir (self st)) f)])
         st).
Proof.
  intros Hg Hm Hcf Hcopy Hload.
  unfold load_common_config, global_parallel_functions_dict, bind at 1.
  rewrite Hg. unfold bind at 1, lift at 1. rewrite Hm.
  unfold bind at 1, lift at 1. cbn [py_contains_str]. rewrite Hcf.
  rewrite bool_decide_eq_true_2 by eauto.
  unfold bind at 1. rewrite Hg. unfold bind at 1, lift at 1. rewrite Hm.
  unfold bind at 1, lift at 1. cbn [py_getitem]. rewrite Hcf.
  unfold bind at 1. rewrite copy_config_run, Hcopy.
  unfold bind at 1, get_config, bind at 1, lift at 1, as_str. unfold lift at 1.
  cbn [log self with_log]. by rewrite Hload.
Qed.

(** X12.  The common configuration file must have a section [general].
    When the main entry names a common configuration file whose mapping has
    no key [general], [setup_workers] ends with [KeyError: 'general'] right
    after the file was copied: no worker definition is looked at and the
    process list is empty.  When the section is there but is not a
    container ([None], a number), the test for [runtime] in it ends with
    [TypeError] in the same way. *)
Theorem common_config_needs_general w st m g gm f d :
  workers_setup (self st) = false →
  main_entry (functions_dict (self st)) = inr (VDict m) →
  parallel_functions_dict st = Some g →
  main_entry g = inr (VDict gm) →
  dict_get "config_file" gm = Some (VStr f) →
  copyfile_ok w (abspath w f) (config_copy_dest (out_dir (self st)) f) = true →
  yaml_load w (abspath w f) = inr (VDict d) →
  match dict_get "general" d with
  | None =>
      setup_workers w st =
        (with_log
           (log st ++
            [EvCopyfile (abspath w f) (config_copy_dest (out_dir (self st)) f)])
           (before_common_config m st),
         inl (KeyError (VStr "general")))
  | Some general =>
      py_contains_str general "runtime" = inl TypeError →
      setup_workers w st =
        (with_log
           (log st ++
            [EvCopyfile (abspath w f) (config_copy_dest (out_dir (self st)) f)])
           (before_common_config m st),
         inl TypeError)
  end.
Proof.
  intros Hw Hm Hg Hgm Hcf Hcopy Hload.
  assert (setup_workers w st =
    (config_dict_common <-
       (general <- lift (py_getitem (VDict d) (VStr "general")) ;;
        has_rt <- lift (py_contains_str general "runtime") ;;
        (if has_rt : bool then
           rt <- lift (py_getitem general (VStr "runtime")) ;;
           modify_self (set_runtime (Some rt))
         else ret ()) ;;
        ret (Some (VDict d))) ;;
     for_fold (range1 (number_of_functions (self st))) config_dict_common
       (setup_worker w) ;;
     modify_self (set_workers_setup true))
      (with_log
         (log st ++
          [EvCopyfile (abspath w f) (config_copy_dest (out_dir (self st)) f)])
         (before_common_config m st))) as ->.
  { rewrite (setup_workers_dict w st m Hw Hm).
    fold (before_common_config m st). unfold bind at 1.
    rewrite (load_common_config_general w (before_common_config m st) g gm f d
               Hg Hgm Hcf Hcopy Hload). done. }
  unfold bind at 1. unfold bind at 1, lift at 1. cbn [py_getitem].
  destruct (dict_get "general" d) as [general|]; [|done].
  intros Hty. unfold bind at 1, lift at 1. by rewrite Hty.
Qed.

Lemma common_config_needs_general_witness :
  (setup_workers nogeneral_world (buffers_done_in nogeneral_world)).2 =
    inl (KeyError (VStr "general")) ∧
  process_list
    (self (setup_workers nogeneral_world (buffers_done_in nogeneral_world)).1) =
    Some [].
Proof.
  pose proof (common_config_needs_general nogeneral_world
                (buffers_done_in nogeneral_world)
                [("config_file", VStr "config/demo.yaml")] demo_functions
                [("config_file", VStr "config/demo.yaml")] "config/demo.yaml"
                [("find_peaks", VDict [("threshold", VInt 5)])]
                eq_refl eq_refl eq_refl eq_refl eq_refl eq_refl eq_refl) as Hrun.
  simpl in Hrun. by rewrite Hrun.
Defined.

Lemma endpoints_allocated_app l l' :
  endpoints_allocated (l ++ l') =
    endpoints_allocated l ++ endpoints_allocated l'.
Proof. unfold endpoints_allocated. by rewrite filter_app. Qed.

Lemma endpoints_allocated_skip l e :
  negb (is_new_endpoint e) = true →
  endpoints_allocated (l ++ [e]) = endpoints_allocated l.
Proof.
  intros He. rewrite endpoints_allocated_app. unfold endpoints_allocated at 2.
  rewrite filter_cons, decide_False; [by rewrite app_nil_r|].
  apply negb_true_iff in He. congruence.
Qed.

Lemma endpoints_allocated_creates procs :
  endpoints_allocated (EvProcessCreate <$> procs) = [].
Proof.
  induction procs as [|p procs IH]; [done|]. simpl.
  unfold endpoints_allocated in *. by rewrite filter_cons, decide_False.
Qed.

(** X13.  A worker definition without the key [RB_assign] is set up all
    the same (lines 105-112): its processes get [None] for the sources, the
    sinks and the observers, and empty keyword arguments; no endpoint is
    allocated, so the ring buffers stay as they are and such a worker has no
    buffer through which the controller could make it stop. *)
Theorem worker_without_RB_assign w cdc i st st' cdc' pl key :
  setup_worker w cdc i st = (st', inr cdc') →
  process_list (self st) = Some pl →
  worker_field (functions_dict (self st)) i "RB_assign" = inl (KeyError key) →
  ∃ procs,
    process_list (self st') = Some (pl ++ procs) ∧
    Forall (λ p, source_list (p_args p) = None ∧ sink_list (p_args p) = None ∧
                 observe_list (p_args p) = None ∧ p_kwargs p = []) procs ∧
    ringbuffers (self st') = ringbuffers (self st) ∧
    endpoints_allocated (log st') = endpoints_allocated (log st).
Proof.
  intros Hrun Hpl Hkey.
  destruct (setup_worker_run w cdc i st st' cdc' pl Hrun Hpl)
    as (file & fkt & num & assigned & cfg & st1 & eps & st2 & f & st3 & procs &
        Hfile & Hfkt & Hnum & Hass & Hcfg & Hself1 & Heps & Himp & Hself3 &
        Hrange & Hall & -> & ->).
  unfold assigned_ringbuffers_of in Hass. rewrite Hkey in Hass.
  injection Hass as <-.
  unfold allocate_endpoints, for_fold, ret in Heps. injection Heps as <- <-.
  exists procs. split; [done|]. split.
  { eapply Forall_impl; [exact Hall|]. by intros p (_ & -> & -> & _). }
  split; [simpl; by rewrite Hself3, Hself1|].
  simpl. rewrite endpoints_allocated_app, endpoints_allocated_creates, app_nil_r.
  transitivity (endpoints_allocated (log st1)).
  - pose proof (linv_import_function
                  (λ l, endpoints_allocated l = endpoints_allocated (log st1))
                  (λ e, negb (is_new_endpoint e))
                  (λ l e He Hl, eq_trans (endpoints_allocated_skip l e He) Hl)
                  (λ _ _, eq_refl) w file fkt st1 eq_refl) as Hinv.
    unfold log_inv in Hinv. by rewrite Himp in Hinv.
  - pose proof (linv_resolve_config
                  (λ l, endpoints_allocated l = endpoints_allocated (log st))
                  (λ e, negb (is_new_endpoint e))
                  (λ l e He Hl, eq_trans (endpoints_allocated_skip l e He) Hl)
                  (λ _ _, eq_refl) (λ _ _, eq_refl)
                  w i ("Fkt_" +:+ PyStr.str i) fkt cdc st eq_refl) as Hinv.
    unfold log_inv in Hinv. by rewrite Hcfg in Hinv.
Qed.

Lemma worker_without_RB_assign_witness :
  ∃ procs,
    process_list
      (self (setup_worker noassign_world (Some demo_config) 1
               (workers_begin_in noassign_world)).1) = Some procs ∧
    Forall (λ p, source_list (p_args p) = None ∧ sink_list (p_args p) = None ∧
                 observe_list (p_args p) = None ∧ p_kwargs p = []) procs.
Proof.
  destruct (setup_worker noassign_world (Some demo_config) 1
              (workers_begin_in noassign_world))
    as [st' [e|cdc']] eqn:Hrun; [by vm_compute in Hrun|].
  destruct (worker_without_RB_assign noassign_world (Some demo_config) 1
              (workers_begin_in noassign_world) st' cdc' []
              (VStr "RB_assign") Hrun eq_refl eq_refl)
    as (procs & Hpl & Hall & _).
  by exists procs.
Defined.

(** ** How many processes, and in which order *)

Lemma setup_worker_functions_dict w cdc i st st' r :
  setup_worker w cdc i st = (st', r) →
  functions_dict (self st') = functions_dict (self st).
Proof.
  intros Hrun.
  pose proof (keeps_setup_worker
                (λ bc, functions_dict bc = functions_dict (self st))
                ltac:(done) ltac:(done) w cdc i st eq_refl) as Hinv.
  unfold self_inv in Hinv. by rewrite Hrun in Hinv.
Qed.

Lemma setup_workers_loop w fd l : ∀ cdc st st' cdc' pl,
  functions_dict (self st) = fd →
  process_list (self st) = Some pl →
  for_fold l cdc (setup_worker w) st = (st', inr cdc') →
  ∃ procs,
    process_list (self st') = Some (pl ++ procs) ∧
    p_name <$> procs = l ≫= (λ i, replicate (replicas fd i) (fkt_name_of fd i)) ∧
    created (log st') = created (log st) ++ procs.
Proof.
  induction l as [|i l IH]; intros cdc st st' cdc' pl Hfd Hpl; simpl.
  - unfold ret. intros [= <- <-]. exists []. by rewrite !app_nil_r.
  - intros Hrun. apply bind_ok in Hrun as (s1 & c1 & Hone & Hrest).
    pose proof (setup_worker_functions_dict _ _ _ _ _ _ Hone) as Hfd1.
    destruct (setup_worker_effect w cdc i st s1 c1 pl Hone Hpl)
      as (assigned & num & procs & eps & cfg & f & file & fkt & bc2 & _ & _ &
          Hnum & _ & Hfkt & Hrange & Hall & _ & _ & Hself & _ & Hcreated & _).
    destruct (IH c1 s1 st' cdc' (pl ++ procs)) as (procs' & Hpl' & Hnames & Hc');
      [congruence|by rewrite Hself|done|].
    exists (procs ++ procs'). split; [by rewrite Hpl', app_assoc|].
    split; [|by rewrite Hc', Hcreated, app_assoc].
    rewrite fmap_app, Hnames. f_equal.
    unfold replicas, fkt_name_of. rewrite <-Hfd, Hnum, Hfkt, Hrange.
    clear -Hall. induction Hall as [|p procs (_ & _ & _ & Hname & _) _ IHp];
      [done|]. rewrite fmap_cons. cbn [length replicate]. by rewrite Hname, IHp.
Qed.

Lemma length_bind_replicate {A B} (f : A → nat) (g : A → B) l :
  length (l ≫= (λ i, replicate (f i) (g i))) = sum_list (f <$> l).
Proof.
  induction l as [|x l IH]; [done|].
  rewrite bind_cons, length_app, length_replicate, fmap_cons. simpl.
  by rewrite IH.
Qed.

(** X14.  [setup_workers] creates the process objects definition by
    definition, in the order [Fkt_1], [Fkt_2], ..., and for each definition
    as many as its [num_process] says (none for zero or a negative
    number), each named after the definition's [fkt_name].  Their total is
    the sum of the [num_process] values. *)
Theorem processes_follow_the_declarations w st st' :
  workers_setup (self st) = false →
  setup_workers w st = (st', inr ()) →
  ∃ procs,
    process_list (self st') = Some procs ∧
    created (log st') = created (log st) ++ procs ∧
    p_name <$> procs =
      range1 (number_of_functions (self st)) ≫=
        (λ i, replicate (replicas (functions_dict (self st)) i)
                (fkt_name_of (functions_dict (self st)) i)) ∧
    length procs =
      sum_list (replicas (functions_dict (self st)) <$>
                range1 (number_of_functions (self st))).
Proof.
  intros Hw Hrun. rewrite setup_workers_unfold in Hrun by done.
  apply bind_ok in Hrun as (s0 & [] & H0 & Hrun).
  unfold modify_self in H0. injection H0 as <-.
  apply bind_ok in Hrun as (s1 & rt & Hrt & Hrun).
  pose proof (base_runtime_state
    (with_self (set_process_list (Some []) (self st)) st)) as Hs1.
  rewrite Hrt in Hs1. simpl in Hs1. subst s1.
  apply bind_ok in Hrun as (s2 & [] & H2 & Hrun).
  unfold modify_self in H2. injection H2 as <-. simpl in Hrun.
  set (sa := with_self _ _) in Hrun.
  apply bind_ok in Hrun as (sb & cdc & Hload & Hrun).
  apply bind_ok in Hrun as (sc & cdc' & Hloop & Hfin).
  unfold modify_self in Hfin. injection Hfin as <-.
  destruct (load_common_config_frame w sa) as (Hfr & Hpl & _ & _ & _ & Hcr).
  rewrite Hload in Hfr, Hpl, Hcr. simpl in Hfr, Hpl, Hcr.
  destruct Hfr as (_ & _ & _ & Hfd & _).
  destruct (setup_workers_loop w (functions_dict (self st)) _ cdc sb sc cdc' []
              Hfd Hpl Hloop) as (procs & Hplc & Hnames & Hcc).
  exists procs. split; [done|]. split; [simpl; by rewrite Hcc, Hcr|].
  split; [done|].
  by rewrite <-(length_fmap p_name), Hnames, length_bind_replicate.
Qed.

Lemma processes_follow_the_declarations_witness :
  p_name <$> default [] (process_list (self demo_workers_ready)) =
    [VStr "pulse_source"; VStr "find_peaks"; VStr "find_peaks";
     VStr "save_to_txt"].
Proof.
  destruct (processes_follow_the_declarations demo_world demo_buffers_done
              demo_workers_ready eq_refl eq_refl)
    as (procs & Hpl & _ & Hnames & _).
  rewrite Hpl. simpl. rewrite Hnames. reflexivity.
Defined.

(** ** The main script after its setup (lines 306-389) *)

Lemma display_layout_run st rbs :
  ringbuffers (self st) = Some rbs →
  display_layout st =
    (with_log
       (log st ++
        EvPrint "List of buffers" [] ::
        ((λ nb : string * RingBuffer,
            EvPrint "" [VStr nb.1; rb_number_of_slots nb.2;
                        rb_values_per_slot nb.2]) <$> rbs)) st, inr ()).
Proof.
  intros Hr. unfold display_layout, print.
  unfold bind at 1, emit at 1. unfold get_ringbuffers, get_self, bind at 1.
  unfold bind at 1. simpl. rewrite Hr. unfold ret at 1.
  rewrite for_each_emit. simpl. by rewrite <-app_assoc.
Qed.

Lemma started_app l l' : started (l ++ l') = started l ++ started l'.
Proof. unfold started. by rewrite omap_app. Qed.

Lemma started_prints {A} (f : A → string * list PyVal) (l : list A) :
  started ((λ x, EvPrint (f x).1 (f x).2) <$> l) = [].
Proof. by induction l. Qed.

Lemma setup_buffers_started w st :
  started (log (setup_buffers w st).1) = started (log st).
Proof.
  refine (inv_setup_buffers (λ l, started l = started (log st))
            (λ e, negb (is_start e)) _ w _ st eq_refl).
  - intros l e He Hl. by rewrite started_skip.
  - apply setup_event_not_start.
Qed.

Lemma setup_workers_started w st :
  started (log (setup_workers w st).1) = started (log st).
Proof.
  refine (inv_setup_workers (λ l, started l = started (log st))
            (λ e, negb (is_start e)) _ w _ st eq_refl).
  - intros l e He Hl. by rewrite started_skip.
  - apply setup_event_not_start.
Qed.

(** What the setup sequence of the main script leaves when it returns: the
    list it returns is the controller's process list, every process of it
    has been started, and the buffers exist. *)
Lemma main_setup_returns w st st1 pl :
  workers_setup (self st) = false →
  main_setup w st = (st1, inr pl) →
  process_list (self st1) = Some pl ∧
  Forall (λ p, p_started p = true) pl ∧
  is_Some (ringbuffers (self st1)).
Proof.
  intros Hw. unfold main_setup.
  destruct (setup_buffers w st) as [s1 [e|rbs]] eqn:Hsb.
  { by rewrite (bind_err _ _ _ _ _ Hsb). }
  rewrite (bind_eq _ _ _ _ _ Hsb).
  apply setup_buffers_ok in Hsb as (Hr1 & _ & Hself1 & _).
  set (s2 := with_log (log s1 ++ [EvPrint "{:d} buffers created..."
                                    [VInt (Z.of_nat (length rbs))]]) s1).
  rewrite (bind_eq (print _ _) _ s1 s2 ()) by done.
  assert (workers_setup (self s2) = false) as Hw2.
  { apply (f_equal workers_setup) in Hself1. simpl in *. congruence. }
  destruct (setup_workers w s2) as [s3 [e|[]]] eqn:Hsw.
  { by rewrite (bind_err _ _ _ _ _ Hsw). }
  rewrite (bind_eq _ _ _ _ _ Hsw).
  destruct (setup_workers_effect w s2 s3 Hw2 Hsw)
    as (procs & Hpl3 & _ & Hun & Hframe & _).
  destruct Hframe as (_ & _ & _ & _ & _ & _ & Hkeys).
  simpl in Hkeys. rewrite Hr1 in Hkeys.
  destruct (ringbuffers (self s3)) as [rbs3|] eqn:Hr3; [|done].
  rewrite (bind_eq _ _ _ _ _ (display_layout_run s3 rbs3 Hr3)).
  set (s4 := with_log _ s3).
  destruct (start_workers_spec s4 procs Hpl3 Hun)
    as (s5 & Hstart & Hpl5 & _ & _ & _ & Hrb5).
  rewrite (bind_eq _ _ _ _ _ Hstart).
  unfold print, bind, emit, ret. simpl. intros [= <- <-]. simpl.
  split; [done|]. split.
  - apply Forall_fmap, Forall_forall. done.
  - rewrite Hrb5. unfold s4. simpl. rewrite Hr3. by eexists.
Qed.

(** The branch of lines 326 and 346: what the script runs once the setup
    has returned. *)
Lemma main_run_branch w fuel st st1 pl rt :
  main_setup w st = (st1, inr pl) →
  runtime (self st1) = Some rt →
  main_run w fuel st =
    (if py_ne_zero rt then main_timed w rt fuel else main_batch w fuel) st1.
Proof.
  intros Hsetup Hrt. unfold main_run.
  rewrite (bind_eq _ _ _ _ _ Hsetup). unfold get_self, bind at 1.
  by rewrite Hrt.
Qed.

(** [pause] followed by the end of the script, in a state whose buffers
    include [RB_1]. *)
Lemma pause_then_finish st rbs pl (between : list Event) (m : M unit) :
  ringbuffers (self st) = Some rbs →
  process_list (self st) = Some pl →
  Forall (λ p, p_started p = true) pl →
  "RB_1" ∈ dict_keys rbs →
  (∀ s, m s = (with_log (log s ++ between) s, inr ())) →
  ∃ st',
    (pause ;; m ;; main_finish ;; ret true) st = (st', inr true) ∧
    log st' = log st ++ [EvPause "RB_1"] ++ between
                ++ finish_events (dict_keys rbs) pl.
Proof.
  intros Hr Hp Hall Hrb1 Hm.
  destruct (dict_get_key "RB_1" rbs Hrb1) as [rb Hrb].
  assert (pause st =
            (with_self
               (set_ringbuffers
                  (Some (dict_set "RB_1" (rb_set_paused true rb) rbs))
                  (self st))
               (with_log (log st ++ [EvPause "RB_1"]) st), inr ())) as Hpause.
  { unfold pause, set_paused, get_ringbuffers, get_self, bind, ret, emit,
      modify_self. simpl. by rewrite Hr, Hrb. }
  rewrite (bind_eq _ _ _ _ _ Hpause).
  rewrite (bind_eq _ _ _ _ _ (Hm _)).
  unfold bind at 1.
  erewrite (main_finish_spec _ _ pl); [|done|done|done].
  unfold ret. eexists. split; [done|]. simpl.
  rewrite dict_keys_set_in by done. by rewrite <-!app_assoc.
Qed.

(** ** The batch mode of the main script (lines 346-370) *)






(** ** The timed mode of the main script (lines 326-345) *)

Lemma timed_loop_run w r rbs : ∀ k fuel poll st,
  ringbuffers (self st) = Some rbs →
  (k ≤ fuel)%nat →
  Qle_bool r (clock w (poll + k)) = true →
  (∀ j, (j < k)%nat → Qle_bool r (clock w (poll + j)) = false) →
  timed_loop w r fuel poll st =
    (with_log (log st ++ mjoin (replicate k (poll_events (dict_keys rbs)))) st,
     inr (Some (poll + k)%nat)).
Proof.
  induction k as [|k IH]; intros fuel poll st Hr Hk Hend Hbefore.
  - rewrite Nat.add_0_r in *. simpl. rewrite app_nil_r.
    destruct fuel; simpl; rewrite Hend; unfold ret; by destruct st.
  - destruct fuel as [|fuel]; [lia|]. simpl.
    pose proof (Hbefore 0%nat ltac:(lia)) as H0. rewrite Nat.add_0_r in H0.
    rewrite H0. unfold bind at 1, emit at 1. unfold bind at 1.
    rewrite (sample_status_spec _ rbs) by done.
    rewrite (IH fuel (S poll)); [| done | lia | |].
    + simpl. f_equal; [|do 2 f_equal; lia].
      unfold with_log. simpl. f_equal. unfold poll_events.
      by rewrite <-!app_assoc.
    + by replace (S poll + k)%nat with (poll + S k)%nat by lia.
    + intros j Hj. replace (S poll + j)%nat with (poll + S j)%nat by lia.
      apply Hbefore. lia.
Qed.

Lemma timed_loop_running w r rbs : ∀ fuel poll st,
  ringbuffers (self st) = Some rbs →
  (∀ j, (j ≤ fuel)%nat → Qle_bool r (clock w (poll + j)) = false) →
  timed_loop w r fuel poll st =
    (with_log (log st ++ mjoin (replicate fuel (poll_events (dict_keys rbs)))) st,
     inr None).
Proof.
  induction fuel as [|fuel IH]; intros poll st Hr Hbefore.
  - simpl. pose proof (Hbefore 0%nat ltac:(lia)) as H0.
    rewrite Nat.add_0_r in H0. rewrite H0, app_nil_r. unfold ret.
    by destruct st.
  - simpl. pose proof (Hbefore 0%nat ltac:(lia)) as H0.
    rewrite Nat.add_0_r in H0. rewrite H0.
    unfold bind at 1, emit at 1. unfold bind at 1.
    rewrite (sample_status_spec _ rbs) by done.
    rewrite IH; [| done |].
    + simpl. f_equal. unfold with_log. simpl. f_equal. unfold poll_events.
      by rewrite <-!app_assoc.
    + intros j Hj. replace (S poll + j)%nat with (poll + S j)%nat by lia.
      apply Hbefore. lia.
Qed.

(** X15.  Timed mode (the branch [runtime != 0]), for a setup that has
    returned and defines the buffer [RB_1], and a runtime that is a number.
    Before it enters the loop the script computes the end of the run for
    its first message; if [time.localtime] rejects that time (a runtime
    beyond the range of the platform), the script ends there with that
    exception: the workers are running, nothing has been sampled, paused or
    shut down.  Otherwise the supervision loop ends at the first test at
    which the time elapsed is no longer below the runtime, after one status
    sample per test that came before; exit codes play no part, a worker
    that has exited does not end the run early.  The script then pauses
    [RB_1], reports, and goes on to the shutdown without waiting for input.
    While the runtime has not elapsed nothing is paused or shut down. *)
Theorem timed_mode_ends_when_runtime_elapsed w fuel st st1 pl rt r rbs :
  workers_setup (self st) = false →
  main_setup w st = (st1, inr pl) →
  runtime (self st1) = Some rt →
  py_ne_zero rt = true →
  py_number rt = inr r →
  ringbuffers (self st1) = Some rbs →
  "RB_1" ∈ dict_keys rbs →
  (∀ e, localtime w (now w + r)%Q = inl e →
        main_run w fuel st = (st1, inl e)) ∧
  (localtime w (now w + r)%Q = inr () →
   (∀ k, (k ≤ fuel)%nat →
         Qle_bool r (clock w k) = true →
         (∀ j, (j < k)%nat → Qle_bool r (clock w j) = false) →
         ∃ st',
           main_run w fuel st = (st', inr true) ∧
           log st' =
             log st1 ++ [EvPrint "Start: " []]
               ++ mjoin (replicate k (poll_events (dict_keys rbs)))
               ++ [EvPause "RB_1"; EvPrint msg_execution_time []]
               ++ finish_events (dict_keys rbs) pl) ∧
   ((∀ j, (j ≤ fuel)%nat → Qle_bool r (clock w j) = false) →
    main_run w fuel st =
      (with_log
         (log st1 ++ [EvPrint "Start: " []]
            ++ mjoin (replicate fuel (poll_events (dict_keys rbs)))) st1,
       inr false))).
Proof.
  intros Hw Hsetup Hrt Hnz Hnum Hr Hrb1.
  destruct (main_setup_returns w st st1 pl Hw Hsetup) as (Hp & Hall & _).
  rewrite (main_run_branch w fuel st st1 pl rt Hsetup Hrt), Hnz.
  split.
  { intros e He. unfold main_timed, bind at 1, lift at 1. rewrite Hnum.
    unfold bind at 1, lift at 1. by rewrite He. }
  intros Hlt.
  set (st0 := with_log (log st1 ++ [EvPrint "Start: " []]) st1).
  assert (main_timed w rt fuel st1 =
            (ended <- timed_loop w r fuel 0 ;;
             match ended with
             | None => ret false
             | Some _ =>
                 pause ;; print msg_execution_time [] ;; main_finish ;;
                 ret true
             end) st0) as ->.
  { unfold main_timed, bind at 1, lift at 1. rewrite Hnum.
    unfold bind at 1, lift at 1. rewrite Hlt.
    unfold print at 1. by unfold bind at 1, emit at 1. }
  split.
  - intros k Hk Hend Hbefore. unfold bind at 1.
    rewrite (timed_loop_run w r rbs k fuel 0 st0 Hr Hk Hend Hbefore).
    set (s1 := with_log _ st0).
    destruct (pause_then_finish s1 rbs pl [EvPrint msg_execution_time []]
                (print msg_execution_time []) Hr Hp Hall Hrb1)
      as (st' & Hrun & Hlog); [done|].
    exists st'. split; [done|].
    rewrite Hlog. unfold s1, st0. cbn [log with_log].
    rewrite <-!app_assoc. reflexivity.
  - intros Hbefore. unfold bind at 1.
    rewrite (timed_loop_running w r rbs fuel 0 st0 Hr Hbefore).
    unfold ret, st0. simpl. by rewrite <-!app_assoc.
Qed.

Lemma timed_mode_ends_when_runtime_elapsed_witness :
  (∃ st',
     main_run (timed_world (VInt 1)) 5 (demo_state_in (timed_world (VInt 1)))
       = (st', inr true) ∧
     log st' =
       log (main_setup (timed_world (VInt 1))
              (demo_state_in (timed_world (VInt 1)))).1
         ++ [EvPrint "Start: " []]
         ++ mjoin (replicate 2 (poll_events ["RB_1"; "RB_2"]))
         ++ [EvPause "RB_1"; EvPrint msg_execution_time []]
         ++ finish_events ["RB_1"; "RB_2"] demo_processes) ∧
  (main_run (timed_world (VInt (10 ^ 18))) 5
     (demo_state_in (timed_world (VInt (10 ^ 18))))).2 =
    inl (OSError "Value too large for defined data type").
Proof.
  split.
  - destruct (main_setup (timed_world (VInt 1))
                (demo_state_in (timed_world (VInt 1))))
      as [st1 [e|pl]] eqn:Hsetup; [by vm_compute in Hsetup|].
    assert (st1 = (main_setup (timed_world (VInt 1))
                     (demo_state_in (timed_world (VInt 1)))).1)
      as Hst1 by (by rewrite Hsetup).
    assert (pl = demo_processes) as ->.
    { assert ((main_setup (timed_world (VInt 1))
                 (demo_state_in (timed_world (VInt 1)))).2 =
              inr demo_processes) as Hpl by (by vm_compute).
      rewrite Hsetup in Hpl. by injection Hpl. }
    destruct (timed_mode_ends_when_runtime_elapsed (timed_world (VInt 1)) 5
                (demo_state_in (timed_world (VInt 1)))
                st1 demo_processes (VInt 1) (inject_Z 1) demo_ringbuffers)
      as (_ & Hok).
    + reflexivity.
    + exact Hsetup.
    + rewrite Hst1. by vm_compute.
    + reflexivity.
    + reflexivity.
    + rewrite Hst1. by vm_compute.
    + vm_compute. left.
    + destruct Hok as (Hend & _); [reflexivity|].
      apply (Hend 2%nat).
      * lia.
      * reflexivity.
      * intros j Hj. destruct j as [|[|j]]; [reflexivity|reflexivity|lia].
  - destruct (main_setup (timed_world (VInt (10 ^ 18)))
                (demo_state_in (timed_world (VInt (10 ^ 18)))))
      as [st1 [e|pl]] eqn:Hsetup; [by vm_compute in Hsetup|].
    assert (st1 = (main_setup (timed_world (VInt (10 ^ 18)))
                     (demo_state_in (timed_world (VInt (10 ^ 18))))).1)
      as Hst1 by (by rewrite Hsetup).
    destruct (timed_mode_ends_when_runtime_elapsed
                (timed_world (VInt (10 ^ 18))) 5
                (demo_state_in (timed_world (VInt (10 ^ 18))))
                st1 pl (VInt (10 ^ 18)) (inject_Z (10 ^ 18))
                demo_ringbuffers)
      as (Hfail & _).
    + reflexivity.
    + exact Hsetup.
    + rewrite Hst1. by vm_compute.
    + reflexivity.
    + reflexivity.
    + rewrite Hst1. by vm_compute.
    + vm_compute. left.
    + by rewrite (Hfail (OSError "Value too large for defined data type")
                    eq_refl).
Defined.

(** ** The main script between setup and supervision *)

(** X16.  A runtime that is not a number.  The runtime is first used
    when the script compares it with zero and computes the end of the run
    (lines 326-329), after the workers were started.  If it is a string,
    [None], a list or a mapping, the script ends there with [TypeError]:
    the workers are running, and neither [pause] nor [shutdown] is called,
    so no buffer is shut down and no process is joined. *)
Theorem runtime_must_be_a_number w fuel st st1 pl v e :
  main_setup w st = (st1, inr pl) →
  runtime (self st1) = Some v →
  py_number v = inl e →
  main_run w fuel st = (st1, inl TypeError).
Proof.
  intros Hsetup Hrt Hnum. unfold main_run.
  rewrite (bind_eq _ _ _ _ _ Hsetup). unfold get_self, bind at 1. rewrite Hrt.
  destruct v; try done; simpl; unfold main_timed, bind, lift; by simpl.
Qed.

Lemma runtime_must_be_a_number_witness :
  (main badruntime_world "demo_setup.yaml" demo_time [] 5).2 = inl TypeError ∧
  started (main badruntime_world "demo_setup.yaml" demo_time [] 5).1 =
    [3; 2; 1; 0]%nat.
Proof.
  destruct (main_setup badruntime_world (demo_state_in badruntime_world))
    as [st1 [e|pl]] eqn:Hsetup; [by vm_compute in Hsetup|].
  pose proof (runtime_must_be_a_number badruntime_world 5
                (demo_state_in badruntime_world) st1 pl (VStr "10s") TypeError
                Hsetup) as Hrun.
  assert (st1 = (main_setup badruntime_world
                   (demo_state_in badruntime_world)).1) as Hst1
    by (by rewrite Hsetup).
  unfold main.
  assert (main_prelude badruntime_world "demo_setup.yaml" demo_time [] =
            (log (demo_state_in badruntime_world),
             inr (demo_state_in badruntime_world))) as -> by reflexivity.
  rewrite Hrun; [|by rewrite Hst1|reflexivity].
  split; [reflexivity|]. rewrite Hst1. by vm_compute.
Defined.

(** X17.  Starting is all or nothing.  When the setup sequence of the
    main script (buffers, workers, layout, start) ends with an exception, no
    process was started; when it returns, [start()] was called exactly once
    on every process of the list it returns, in the order of that list, and
    the list is the controller's process list. *)
Theorem main_setup_starts_all_or_none w st :
  workers_setup (self st) = false →
  match main_setup w st with
  | (st', inl _) => started (log st') = started (log st)
  | (st', inr pl) =>
      started (log st') = started (log st) ++ (p_id <$> pl) ∧
      process_list (self st') = Some pl ∧
      Forall (λ p, p_started p = true) pl
  end.
Proof.
  intros Hw. unfold main_setup.
  pose proof (setup_buffers_started w st) as Hs1.
  destruct (setup_buffers w st) as [s1 [e|rbs]] eqn:Hsb.
  { by rewrite (bind_err _ _ _ _ _ Hsb). }
  rewrite (bind_eq _ _ _ _ _ Hsb).
  apply setup_buffers_ok in Hsb as (Hr1 & _ & Hself1 & _).
  set (s2 := with_log (log s1 ++ [EvPrint "{:d} buffers created..."
                                    [VInt (Z.of_nat (length rbs))]]) s1).
  rewrite (bind_eq (print _ _) _ s1 s2 ()) by done.
  assert (started (log s2) = started (log st)) as Hs2.
  { unfold s2. simpl. by rewrite started_skip. }
  assert (workers_setup (self s2) = false) as Hw2.
  { apply (f_equal workers_setup) in Hself1. simpl in *. congruence. }
  pose proof (setup_workers_started w s2) as Hs3.
  destruct (setup_workers w s2) as [s3 [e|[]]] eqn:Hsw.
  { rewrite (bind_err _ _ _ _ _ Hsw). cbn [fst] in Hs3. by rewrite Hs3, Hs2. }
  rewrite (bind_eq _ _ _ _ _ Hsw).
  destruct (setup_workers_effect w s2 s3 Hw2 Hsw)
    as (procs & Hpl3 & _ & Hun & Hframe & _).
  destruct Hframe as (_ & _ & _ & _ & _ & _ & Hkeys).
  simpl in Hkeys. rewrite Hr1 in Hkeys.
  destruct (ringbuffers (self s3)) as [rbs3|] eqn:Hr3; [|done].
  rewrite (bind_eq _ _ _ _ _ (display_layout_run s3 rbs3 Hr3)).
  set (s4 := with_log _ s3).
  destruct (start_workers_spec s4 procs Hpl3 Hun)
    as (s5 & Hstart & Hpl5 & Hstarted & [rest Hrest] & _).
  rewrite (bind_eq _ _ _ _ _ Hstart).
  unfold print, bind, emit, ret. simpl.
  rewrite Hrest, drop_app_length in Hstarted.
  split; [|split; [done|]].
  - rewrite started_skip by done. rewrite Hrest, started_app, Hstarted.
    f_equal; [|by rewrite <-list_fmap_compose].
    unfold s4. simpl. rewrite started_app. simpl.
    rewrite (started_prints
               (λ nb : string * RingBuffer,
                  ("", [VStr nb.1; rb_number_of_slots nb.2;
                        rb_values_per_slot nb.2]))), app_nil_r.
    cbn [fst] in Hs3. by rewrite Hs3, Hs2.
  - apply Forall_fmap, Forall_forall. done.
Qed.

Lemma main_setup_starts_all_or_none_witness :
  started (log (main_setup demo_world demo_state).1) = [3; 2; 1; 0]%nat ∧
  started (log (main_setup nobuffer_world (demo_state_in nobuffer_world)).1)
    = [].
Proof.
  pose proof (main_setup_starts_all_or_none demo_world demo_state eq_refl)
    as Hgood.
  pose proof (main_setup_starts_all_or_none nobuffer_world
                (demo_state_in nobuffer_world) eq_refl) as Hbad.
  destruct (main_setup demo_world demo_state) as [s [e|pl]] eqn:Hrun1;
    [by vm_compute in Hrun1|].
  destruct (main_setup nobuffer_world (demo_state_in nobuffer_world))
    as [s' [e|pl']] eqn:Hrun2; [|by vm_compute in Hrun2].
  destruct Hgood as (Hgood & _). split; [|exact Hbad].
  simpl. rewrite Hgood.
  assert ((main_setup demo_world demo_state).2 = inr demo_processes) as Hd
    by (by vm_compute).
  rewrite Hrun1 in Hd. simpl in Hd. injection Hd as ->. reflexivity.
Defined.

(** ** The beginning of the main script (lines 272-301) *)

(** X18.  What the script leaves behind when it cannot start.  If no
    setup file is named, or the file cannot be read or parsed, the script
    ends with an exception before it has done anything: no directory, no
    copy.  (A missing file is reported as [FileNotFoundError] and a YAML
    error as [RuntimeError], both with a message naming the file.)  If the
    file is a mapping without the key [RingBuffer] or without the key
    [Functions], the script ends with [KeyError], but only after it has
    created the output directory and copied the setup file into it; the
    hook [appl_init] has not run and no buffer exists. *)
Theorem setup_file_errors_and_their_traces w f t path fuel :
  (f = "" →
   main w f t path fuel =
     ([], inl (RuntimeError "No setup YAML file was specified!"))) ∧
  (∀ e, f ≠ "" → yaml_load w (abspath w f) = inl e →
     main w f t path fuel =
       ([], inl match e with
                | FileNotFoundError _ =>
                    FileNotFoundError
                      ("The setup YAML file '" +:+ f +:+ "' does not exist!")
                | YAMLError =>
                    RuntimeError
                      ("An error occurred while parsing the setup YAML file '"
                       +:+ f +:+ "'!")
                | _ => e
                end)) ∧
  (∀ d, f ≠ "" → yaml_load w (abspath w f) = inr (VDict d) →
     copyfile_ok w (abspath w f) (directory_prefix f t +:+ f) = true →
     dict_get "RingBuffer" d = None ∨ dict_get "Functions" d = None →
     main w f t path fuel =
       ([EvMakedirs (directory_prefix f t) 504;
         EvCopyfile (abspath w f) (directory_prefix f t +:+ f)],
        inl (KeyError (VStr (if bool_decide (dict_get "RingBuffer" d = None)
                             then "RingBuffer" else "Functions"))))).
Proof.
  split; [|split].
  - intros ->. reflexivity.
  - intros e Hf Hload. unfold main, main_prelude.
    destruct (String.eqb_spec f "") as [|_]; [done|]. rewrite Hload.
    by destruct e.
  - intros d Hf Hload Hcopy Hkeys. unfold main, main_prelude.
    destruct (String.eqb_spec f "") as [|_]; [done|].
    rewrite Hload, setup_copy_dest_eq, Hcopy. cbn [negb py_getitem].
    destruct (dict_get "RingBuffer" d) as [rb|] eqn:Hrb.
    + rewrite bool_decide_eq_false_2 by done.
      destruct Hkeys as [|Hfd]; [done|]. rewrite Hfd. done.
    + by rewrite bool_decide_eq_true_2.
Qed.

Lemma setup_file_errors_and_their_traces_witness :
  main demo_world "missing.yaml" demo_time [] 5 =
    ([], inl (FileNotFoundError
                "The setup YAML file 'missing.yaml' does not exist!")) ∧
  main nofunctions_world "demo_setup.yaml" demo_time [] 5 =
    ([EvMakedirs "target/demo_2024-03-09_140507/" 504;
      EvCopyfile "/daq/demo_setup.yaml"
        "target/demo_2024-03-09_140507/demo_setup.yaml"],
     inl (KeyError (VStr "Functions"))).
Proof.
  destruct (setup_file_errors_and_their_traces demo_world "missing.yaml"
              demo_time [] 5) as (_ & Hload & _).
  destruct (setup_file_errors_and_their_traces nofunctions_world
              "demo_setup.yaml" demo_time [] 5) as (_ & _ & Hkeys).
  split.
  - by rewrite (Hload (FileNotFoundError "/daq/missing.yaml")).
  - rewrite (Hkeys [("RingBuffer", demo_buffers)]); try done. by right.
Defined.

(** X19.  The name of the output directory when the stem of the setup
    file does not contain ["setup"]: [find] then returns [-1] and the slice
    [[:-1]] drops the last character of the stem.  So [config.yaml] gives
    [target/confi<time>/], and two setup files whose stems differ in the last
    character only get the same directory when started in the same
    second. *)
Theorem stem_without_setup_loses_last_character f t :
  PyStr.index_of "setup" (PyStr.path_stem f) = None →
  directory_prefix f t =
    "target/" +:+
    PyStr.take (String.length (PyStr.path_stem f) - 1) (PyStr.path_stem f) +:+
    time_code t +:+ "/".
Proof.
  intros Hnone. unfold directory_prefix, template_name, PyStr.find.
  rewrite Hnone. unfold PyStr.slice_to.
  rewrite bool_decide_eq_false_2 by lia.
  by replace (Z.to_nat (Z.of_nat (String.length (PyStr.path_stem f)) + -1))
    with (String.length (PyStr.path_stem f) - 1)%nat by lia.
Qed.

Lemma stem_without_setup_loses_last_character_witness :
  directory_prefix "config.yaml" demo_time = "target/confi2024-03-09_140507/" ∧
  directory_prefix "runA.yaml" demo_time = directory_prefix "runB.yaml" demo_time.
Proof.
  rewrite !stem_without_setup_loses_last_character by reflexivity.
  split; reflexivity.
Defined.

(** ** Where files are copied to *)

Lemma split_last_sep_tail p :
  PyStr.rindex PyStr.sep (PyStr.split_last_sep p).2 = None.
Proof.
  induction p as [|a p IH]; [done|]. simpl.
  destruct (PyStr.split_last_sep p) as [h tl]. simpl in IH.
  destruct (negb (String.eqb h "")); [done|].
  unfold PyStr.is_sep. case_bool_decide as Ha; [done|]. simpl.
  by rewrite IH, bool_decide_eq_false_2.
Qed.

Lemma main_prelude_out_dir w f t path l st :
  main_prelude w f t path = (l, inr st) →
  out_dir (self st) = directory_prefix f t.
Proof.
  unfold main_prelude, init. intros Hrun.
  repeat (case_match; simplify_eq/=; try done).
Qed.

(** X20.  Configuration files are copied flat, the setup file is not.
    The controller of the main script has the output directory as its
    [out_dir]; a configuration file, whatever directory it is in, is copied
    to the output directory under its base name (which has no ['/']),
    whereas the setup file is copied to the output directory followed by its
    path as given on the command line. *)
Theorem config_files_are_copied_flat w f t path l st cfg :
  main_prelude w f t path = (l, inr st) →
  config_copy_dest (out_dir (self st)) cfg =
    directory_prefix f t +:+ PyStr.basename cfg ∧
  PyStr.rindex "/" (PyStr.basename cfg) = None ∧
  setup_copy_dest f t = directory_prefix f t +:+ f.
Proof.
  intros Hrun. rewrite (main_prelude_out_dir _ _ _ _ _ _ Hrun).
  split; [|split; [apply split_last_sep_tail|apply setup_copy_dest_eq]].
  unfold config_copy_dest.
  destruct (directory_prefix_shape f t) as (a & b & Hne & Hd & -> & Heq).
  rewrite dirname_slash by done. by rewrite !string_app_assoc.
Qed.

Lemma config_files_are_copied_flat_witness :
  config_copy_dest (out_dir (self demo_state)) "config/demo.yaml" =
    "target/demo_2024-03-09_140507/demo.yaml" ∧
  setup_copy_dest "examples/demo_setup.yaml" demo_time =
    "target/demo_2024-03-09_140507/examples/demo_setup.yaml".
Proof.
  destruct (config_files_are_copied_flat demo_world "demo_setup.yaml"
              demo_time [] (log demo_state) demo_state "config/demo.yaml"
              eq_refl) as (Hcfg & _ & _).
  split; [by rewrite Hcfg|reflexivity].
Defined.

(** ** The histograms on display *)

Section HistogramDisplay.
Context {F : Type} `{PyNum F}.

Lemma add_value_frame (h h' : animHists F) ih v :
  add_value h ih v = inr h' →
  nHist h' = nHist h ∧ rects h' = rects h ∧ animtxts h' = animtxts h ∧
  entries h' = entries h ∧ length <$> frqs h' = length <$> frqs h.
Proof.
  unfold add_value, lookup_or_IndexError.
  destruct (nbins h !! ih) as [nb|]; [|by repeat case_match].
  destruct (mins h !! ih) as [mn|]; [|by repeat case_match].
  destruct (maxs h !! ih) as [mx|]; [|done].
  destruct (bin_index nb mn mx v) as [e|iv]; [done|].
  destruct (bool_decide (iv >= 0) && bool_decide (iv < nb)); [|by intros [= <-]].
  destruct (frqs h !! ih) as [f|] eqn:Hf; [|done].
  destruct (np_incr f iv) as [e|f'] eqn:Hincr; [done|].
  intros [= <-]. split_and!; try done. simpl.
  apply np_incr_length in Hincr.
  rewrite list_fmap_insert, Hincr. apply list_insert_id.
  by rewrite list_lookup_fmap, Hf.
Qed.

Lemma add_values_frame (vs : list F) : ∀ (h : animHists F) ih,
  nHist (add_values h ih vs).1 = nHist h ∧
  rects (add_values h ih vs).1 = rects h ∧
  animtxts (add_values h ih vs).1 = animtxts h ∧
  entries (add_values h ih vs).1 = entries h ∧
  length <$> frqs (add_values h ih vs).1 = length <$> frqs h.
Proof.
  induction vs as [|v vs IH]; intros h ih; simpl; [done|].
  destruct (add_value h ih v) as [e|h1] eqn:Hadd; [done|].
  destruct (add_value_frame h h1 ih v Hadd) as (E1 & E2 & E3 & E4 & E5).
  destruct (IH h1 ih) as (I1 & I2 & I3 & I4 & I5).
  split_and!; congruence.
Qed.

Lemma length_redrawn (r f : list F) (g : F → F) :
  length (zip_with (λ _ frq, g frq) r f ++ drop (length f) r) = length r.
Proof. rewrite length_app, length_zip_with, length_drop. lia. Qed.

Lemma redraw_frame (h : animHists F) ih :
  nHist (redraw h ih).1 = nHist h ∧
  (rects h = None → rects (redraw h ih).1 = None) ∧
  (hist_drawn h → hist_drawn (redraw h ih).1).
Proof.
  split; [unfold redraw; by repeat case_match|].
  split; [intros Hr; unfold redraw; rewrite Hr; by repeat case_match|].
  intros (rs & ts & Hrs & Hts & Hlen & Hrows).
  pose proof (proj1 (redraw_keeps h ih)) as Hfrqs.
  unfold hist_drawn. rewrite Hfrqs. unfold redraw in *. rewrite Hrs, Hts in *.
  destruct (lookup_or_IndexError (frqs h) ih) as [e|f]; [by exists rs, ts|].
  destruct (rs !! ih) as [r|] eqn:Hr; [|by exists rs, ts].
  assert (length <$> <[ih := zip_with (λ _ frq, np_div frq (np_sum f)) r f
                                ++ drop (length f) r]> rs
          = length <$> frqs h) as Hrows'.
  { rewrite list_fmap_insert, length_redrawn, <-Hrows.
    apply list_insert_id. by rewrite list_lookup_fmap, Hr. }
  destruct (lookup_or_IndexError ts ih) as [e|t]; [by eexists _, ts|].
  destruct (lookup_or_IndexError (entries h) ih) as [e|x]; [by eexists _, ts|].
  destruct (to_int x) as [n|]; [|by eexists _, ts].
  eexists _, _. simpl. split_and!; try done. by rewrite length_insert.
Qed.

Lemma update_hist_frame vals (h : animHists F) ih :
  nHist (update_hist vals h ih).1 = nHist h ∧
  (rects h = None → rects (update_hist vals h ih).1 = None) ∧
  (hist_drawn h → hist_drawn (update_hist vals h ih).1).
Proof.
  unfold update_hist.
  destruct (lookup_or_IndexError vals ih) as [e|vs]; [done|].
  destruct (lookup_or_IndexError (entries h) ih) as [e|x]; [done|].
  set (h1 := set_entries _ h).
  destruct (add_values_frame vs h1 ih) as (E1 & E2 & E3 & E4 & E5).
  cbn [h1 set_entries nHist rects animtxts frqs] in E1, E2, E3, E5.
  assert (hist_drawn h → hist_drawn (add_values h1 ih vs).1) as Hd.
  { intros (rs & ts & Hrs & Hts & Hlen & Hrows). exists rs, ts.
    rewrite E1, E2, E3, E5. done. }
  destruct (add_values h1 ih vs) as [h2 [err|]]; simpl in *.
  { split_and!; [done| |done]. intros Hr. exact (eq_trans E2 Hr). }
  destruct vs as [|v vs];
    [split_and!; [done|intros Hr; exact (eq_trans E2 Hr)|done]|].
  destruct (redraw_frame h2 ih) as (R1 & R2 & R3).
  split_and!; [by rewrite R1| |by auto].
  intros Hr. apply R2. exact (eq_trans E2 Hr).
Qed.

Lemma update_all_frame vals ihs : ∀ (h : animHists F),
  nHist (update_all vals h ihs).1 = nHist h ∧
  (rects h = None → rects (update_all vals h ihs).1 = None) ∧
  (hist_drawn h → hist_drawn (update_all vals h ihs).1).
Proof.
  induction ihs as [|ih ihs IH]; intros h; simpl; [done|].
  destruct (update_hist_frame vals h ih) as (U1 & U2 & U3).
  destruct (update_hist vals h ih) as [h1 [e|]]; simpl in *; [done|].
  destruct (IH h1) as (I1 & I2 & I3). split_and!; [by rewrite I1|auto|auto].
Qed.

Lemma hist_draw_drawn (h : animHists F) : hist_ok h → hist_drawn (hist_draw h).
Proof.
  intros (Hwf & Hn & _). unfold hist_draw, hist_drawn. simpl.
  eexists _, _. split_and!; [done|done|by rewrite length_replicate|].
  rewrite take_ge; [done|].
  unfold hist_wf in Hwf. apply Forall2_length in Hwf. lia.
Qed.

(** Once [init()] has drawn the histograms they stay drawn. *)
Lemma hist_reachable_drawn (h : animHists F) :
  hist_reachable h → is_Some (rects h) → hist_drawn h.
Proof.
  induction 1 as [descr h Hinit|h Hreach IH|h vals Hreach IH].
  - unfold hist_init in Hinit. repeat case_match; simplify_eq/=.
    by intros [? ?].
  - intros _. apply hist_draw_drawn. by apply hist_reachable_ok.
  - destruct vals as [vals|]; simpl; [|done].
    destruct (update_all_frame vals (seq 0 (nHist h)) h) as (_ & Hnone & Hkeep).
    intros Hsome. apply Hkeep, IH.
    destruct (rects h) eqn:Hr; [done|]. rewrite Hnone in Hsome by done.
    by destruct Hsome.
Qed.

End HistogramDisplay.

Lemma zip_with_snd {A B C} (g : B → C) (r : list A) : ∀ f : list B,
  length r = length f → zip_with (λ _ y, g y) r f = g <$> f.
Proof.
  induction r as [|a r IH]; intros [|b f] Hlen; simplify_eq/=; [done|].
  by rewrite IH.
Qed.

(** X22.  The bars show the frequencies over their sum.  On an
    [animHists] object whose histograms were drawn, when a call hands a
    non-empty array of values to histogram [ih] and ends without exception,
    the bars of that histogram are afterwards, one per bin, the bin's
    frequency divided by [numpy.sum] of the histogram's frequencies, both as
    the arithmetic in use computes them; the bars of every other histogram
    are as they were. *)
Theorem bars_show_normalised_frequencies {F : Type} `{PyNum F}
    (h : animHists F) vals ih vs h' :
  hist_reachable h →
  is_Some (rects h) →
  vals !! ih = Some vs →
  vs ≠ [] →
  update_hist vals h ih = (h', None) →
  ∃ f rs,
    frqs h' !! ih = Some f ∧ rects h = Some rs ∧ (ih < length rs)%nat ∧
    rects h' = Some (<[ih := (λ frq, np_div frq (np_sum f)) <$> f]> rs).
Proof.
  intros Hreach Hrects Hvals Hne Hrun.
  pose proof (hist_reachable_drawn h Hreach Hrects) as Hdrawn.
  unfold update_hist, lookup_or_IndexError in Hrun. rewrite Hvals in Hrun.
  destruct (entries h !! ih) as [e|]; [|done].
  set (h1 := set_entries _ h) in Hrun.
  destruct (add_values_frame vs h1 ih) as (E1 & E2 & E3 & E4 & E5).
  cbn [h1 set_entries nHist rects animtxts frqs] in E1, E2, E3, E5.
  destruct (add_values h1 ih vs) as [h2 [err|]]; [done|]. simpl in *.
  destruct vs as [|v vs]; [done|].
  destruct Hdrawn as (rs & ts & Hrs & Hts & Hlen & Hrows).
  pose proof (proj1 (redraw_keeps h2 ih)) as Hfrqs. rewrite Hrun in Hfrqs.
  simpl in Hfrqs.
  unfold redraw, lookup_or_IndexError in Hrun.
  rewrite (eq_trans E2 Hrs), (eq_trans E3 Hts) in Hrun.
  destruct (frqs h2 !! ih) as [f|] eqn:Hf; [|done].
  destruct (rs !! ih) as [r|] eqn:Hr; [|done].
  destruct (ts !! ih) as [t|]; [|done].
  destruct (entries h2 !! ih) as [x|]; [|done].
  destruct (to_int x) as [n|] eqn:Hn; [|done].
  injection Hrun as <-. simpl in *.
  assert (length r = length f) as Hrf.
  { assert ((length <$> rs) !! ih = (length <$> frqs h2) !! ih) as Hl
      by (by rewrite Hrows, E5).
    rewrite !list_lookup_fmap, Hr, Hf in Hl. by injection Hl. }
  exists f, rs.
  split; [done|]. split; [done|]. split; [by eapply lookup_lt_Some|].
  rewrite zip_with_snd by done. by rewrite <-Hrf, drop_all, app_nil_r.
Qed.

Lemma demo_hist_reachable : hist_reachable demo_hist.
Proof.
  change demo_hist with (hist_draw demo_hist0).
  apply reach_draw. by apply (reach_init demo_descr).
Qed.

Lemma bars_show_normalised_frequencies_witness :
  rects (update_hist [[(3 # 1)%Q; (12 # 1)%Q; (7 # 1)%Q]] demo_hist 0).1 =
    Some [[(0 # 1)%Q; (1 # 2)%Q; (0 # 1)%Q; (1 # 2)%Q; (0 # 1)%Q]].
Proof.
  destruct (update_hist [[(3 # 1)%Q; (12 # 1)%Q; (7 # 1)%Q]] demo_hist 0)
    as [h' [e|]] eqn:Hrun; [by vm_compute in Hrun|].
  destruct (bars_show_normalised_frequencies demo_hist
              [[(3 # 1)%Q; (12 # 1)%Q; (7 # 1)%Q]] 0
              [(3 # 1)%Q; (12 # 1)%Q; (7 # 1)%Q] h'
              demo_hist_reachable ltac:(by eexists) eq_refl ltac:(done) Hrun)
    as (f & rs & Hf & Hrs & _ & Hbars).
  simpl. rewrite Hbars.
  vm_compute in Hrun. injection Hrun as <-.
  vm_compute in Hf. injection Hf as <-.
  vm_compute in Hrs. injection Hrs as <-.
  reflexivity.
Defined.

(** ** Counting the entries *)

Section HistogramEntries.
Context {F : Type} `{PyNum F}.

(** One histogram of a call that ended without exception. *)
Lemma update_hist_counts vals (h h1 : animHists F) ih :
  hist_ok h →
  update_hist vals h ih = (h1, None) →
  ∃ e vs,
    entries h !! ih = Some e ∧ vals !! ih = Some vs ∧
    entries h1 =
      <[ih := fadd e (of_int (Z.of_nat (length vs)))]> (entries h) ∧
    (∀ j, j ≠ ih → text_of h1 j = text_of h j) ∧
    match vs with
    | [] => text_of h1 ih = text_of h ih
    | _ => ∃ n, to_int (fadd e (of_int (Z.of_nat (length vs)))) = Some n ∧
                text_of h1 ih = Some (Some n)
    end.
Proof.
  intros Hok Hrun. unfold update_hist, lookup_or_IndexError in Hrun.
  destruct (vals !! ih) as [vs|] eqn:Hvals; [|done].
  destruct (entries h !! ih) as [e|] eqn:He; [|done].
  set (h1' := set_entries _ h) in Hrun.
  assert (hist_wf h1') as Hwf1 by (by destruct Hok).
  destruct (add_values_entries vs h1' ih Hwf1) as [_ Hent].
  destruct (add_values_frame vs h1' ih) as (E1 & E2 & E3 & _ & _).
  cbn [h1' set_entries nHist rects animtxts entries] in Hent, E1, E2, E3.
  destruct (add_values h1' ih vs) as [h2 [err|]]; [done|]. simpl in Hent, E2, E3.
  exists e, vs. split; [done|]. split; [done|].
  destruct vs as [|v vs].
  { injection Hrun as <-. split_and!; try done.
    - intros j _. unfold text_of. by rewrite E3.
    - unfold text_of. by rewrite E3. }
  pose proof (proj2 (redraw_keeps h2 ih)) as Hent'. rewrite Hrun in Hent'.
  simpl in Hent'. split; [by rewrite Hent', Hent|].
  unfold redraw, lookup_or_IndexError in Hrun.
  destruct (frqs h2 !! ih) as [f|]; [|by repeat case_match].
  destruct (rects h2) as [rs|]; [|done].
  destruct (rs !! ih) as [r|]; [|done].
  destruct (animtxts h2) as [ts|] eqn:Hts; [|done].
  destruct (ts !! ih) as [t|] eqn:Ht; [|done].
  rewrite Hent in Hrun.
  rewrite list_lookup_insert_eq in Hrun by (by eapply lookup_lt_Some).
  destruct (to_int _) as [n|] eqn:Hn; [|done].
  injection Hrun as <-. unfold text_of. simpl. rewrite <-E3. simpl. split.
  - intros j Hj. by rewrite list_lookup_insert_ne.
  - exists n. split; [done|].
    apply list_lookup_insert_eq. by eapply lookup_lt_Some.
Qed.

Lemma update_all_counts vals ihs : ∀ (h h' : animHists F),
  hist_ok h → NoDup ihs →
  update_all vals h ihs = (h', None) →
  (∀ j, j ∉ ihs →
        entries h' !! j = entries h !! j ∧ text_of h' j = text_of h j) ∧
  ∀ ih, ih ∈ ihs →
    ∃ e vs,
      entries h !! ih = Some e ∧ vals !! ih = Some vs ∧
      entries h' !! ih = Some (fadd e (of_int (Z.of_nat (length vs)))) ∧
      match vs with
      | [] => text_of h' ih = text_of h ih
      | _ => ∃ n, to_int (fadd e (of_int (Z.of_nat (length vs)))) = Some n ∧
                  text_of h' ih = Some (Some n)
      end.
Proof.
  induction ihs as [|i ihs IH]; intros h h' Hok Hnd; simpl.
  - intros [= <-]. split; [done|]. by intros ih ?%elem_of_nil.
  - pose proof (update_hist_ok vals h i Hok) as Hok1.
    destruct (update_hist vals h i) as [h1 [err|]] eqn:Hone; [done|].
    simpl in Hok1. intros Hrest.
    apply NoDup_cons in Hnd as [Hi Hnd].
    destruct (update_hist_counts vals h h1 i Hok Hone)
      as (e & vs & He & Hvs & Hent & Hother & Htext).
    destruct (IH h1 h' Hok1 Hnd Hrest) as [Hout Hin].
    split.
    + intros j Hj. apply not_elem_of_cons in Hj as [Hji Hj].
      destruct (Hout j Hj) as [E1 E2]. rewrite E1, E2, Hent.
      split; [by apply list_lookup_insert_ne|by apply Hother].
    + intros ih [->|Hih]%elem_of_cons.
      * destruct (Hout i Hi) as [E1 E2]. exists e, vs.
        rewrite E1, E2, Hent. split_and!; try done.
        apply list_lookup_insert_eq. by eapply lookup_lt_Some.
      * destruct (Hin ih Hih) as (e' & vs' & He' & Hvs' & Hent' & Htext').
        assert (ih ≠ i) as Hne by (by intros ->).
        exists e', vs'. rewrite Hent in He'.
        rewrite list_lookup_insert_ne in He' by done.
        split_and!; try done.
        destruct vs'; [|done]. rewrite Htext'. by apply Hother.
Qed.

(** X23.  The entries counter counts every value.  After a call that
    ended without exception, the counter of every histogram has grown by
    the length of the array handed in for it, whether or not the values fell
    into a bin; and for every histogram that got at least one value the text
    shows the integer part of the new counter.  Histograms that got an
    empty array keep their text. *)
Theorem entries_count_every_value (h : animHists F) vals h' :
  hist_reachable h →
  hist_call h (Some vals) = (h', None) →
  ∀ ih, (ih < nHist h)%nat →
    ∃ e vs,
      entries h !! ih = Some e ∧ vals !! ih = Some vs ∧
      entries h' !! ih = Some (fadd e (of_int (Z.of_nat (length vs)))) ∧
      match vs with
      | [] => text_of h' ih = text_of h ih
      | _ => ∃ n, to_int (fadd e (of_int (Z.of_nat (length vs)))) = Some n ∧
                  text_of h' ih = Some (Some n)
      end.
Proof.
  intros Hreach Hrun ih Hih. simpl in Hrun.
  apply update_all_counts in Hrun as [_ Hin].
  - apply Hin. apply elem_of_seq. lia.
  - by apply hist_reachable_ok.
  - apply NoDup_seq.
Qed.

End HistogramEntries.

Lemma entries_count_every_value_witness :
  ∃ h',
    hist_call demo_hist (Some [[(3 # 1)%Q; (12 # 1)%Q; (7 # 1)%Q]])
      = (h', None) ∧
    text_of h' 0 = Some (Some 3).
Proof.
  destruct (hist_call demo_hist (Some [[(3 # 1)%Q; (12 # 1)%Q; (7 # 1)%Q]]))
    as [h' [e|]] eqn:Hrun; [by vm_compute in Hrun|].
  exists h'. split; [done|].
  destruct (entries_count_every_value demo_hist _ h' demo_hist_reachable Hrun
              0%nat ltac:(vm_compute; lia))
    as (e & vs & He & Hvs & _ & Htext).
  vm_compute in He. injection He as <-.
  vm_compute in Hvs. injection Hvs as <-.
  destruct Htext as (n & Hn & ->). vm_compute in Hn. by injection Hn as <-.
Defined.

(** ** Roles and endpoints *)

Lemma endpoints_allocated_alloc items :
  endpoints_allocated (alloc_events items) = alloc_events items.
Proof.
  induction items as [|kv items IH]; [done|].
  rewrite alloc_events_cons, endpoints_allocated_app, IH. f_equal.
  unfold role_event. by repeat case_match.
Qed.

(** X25.  Endpoints follow the roles, keyword arguments follow the
    assignments.  For a worker definition that was set up, the controller
    called exactly one of [new_reader_group], [new_writer], [new_observer]
    for each assignment whose role is ['read'], ['write'] or ['observe'], in
    the order of the assignments, and nothing for an assignment with any
    other role; the keyword arguments of every process of the definition are
    the whole [RB_assign] mapping, unknown roles included. *)
Theorem endpoints_follow_the_roles w cdc i st st' cdc' pl :
  setup_worker w cdc i st = (st', inr cdc') →
  process_list (self st) = Some pl →
  ∃ assigned procs,
    assigned_ringbuffers_of (functions_dict (self st)) i = inr assigned ∧
    process_list (self st') = Some (pl ++ procs) ∧
    endpoints_allocated (log st') =
      endpoints_allocated (log st) ++ omap role_event assigned ∧
    Forall (λ p, p_kwargs p = assigned) procs.
Proof.
  intros Hrun Hpl.
  destruct (setup_worker_run w cdc i st st' cdc' pl Hrun Hpl)
    as (file & fkt & num & assigned & cfg & st1 & eps & st2 & f & st3 & procs &
        Hfile & Hfkt & Hnum & Hass & Hcfg & Hself1 & Heps & Himp & Hself3 &
        Hrange & Hall & -> & ->).
  exists assigned, procs. split; [done|]. split; [done|]. split.
  - simpl.
    rewrite endpoints_allocated_app, endpoints_allocated_creates, app_nil_r.
    apply allocate_endpoints_ok in Heps as (Hlog2 & _).
    assert (endpoints_allocated (log st3) = endpoints_allocated (log st2)) as ->.
    { pose proof (linv_import_function
                    (λ l, endpoints_allocated l = endpoints_allocated (log st2))
                    (λ e, negb (is_new_endpoint e))
                    (λ l e He Hl, eq_trans (endpoints_allocated_skip l e He) Hl)
                    (λ _ _, eq_refl) w file fkt st2 eq_refl) as Hinv.
      unfold log_inv in Hinv. by rewrite Himp in Hinv. }
    assert (endpoints_allocated (log st1) = endpoints_allocated (log st)) as E1.
    { pose proof (linv_resolve_config
                    (λ l, endpoints_allocated l = endpoints_allocated (log st))
                    (λ e, negb (is_new_endpoint e))
                    (λ l e He Hl, eq_trans (endpoints_allocated_skip l e He) Hl)
                    (λ _ _, eq_refl) (λ _ _, eq_refl)
                    w i ("Fkt_" +:+ PyStr.str i) fkt cdc st eq_refl) as Hinv.
      unfold log_inv in Hinv. by rewrite Hcfg in Hinv. }
    rewrite Hlog2, endpoints_allocated_app, endpoints_allocated_alloc, E1.
    done.
  - eapply Forall_impl; [exact Hall|]. by intros p (_ & _ & -> & _).
Qed.

Lemma endpoints_follow_the_roles_witness :
  endpoints_allocated
    (log (setup_worker demo_world (Some demo_config) 3 demo_buffers_ready).1) =
    [EvNewReaderGroup "RB_2"; EvNewObserver "RB_1"].
Proof.
  destruct (setup_worker demo_world (Some demo_config) 3 demo_buffers_ready)
    as [st' [e|cdc']] eqn:Hrun; [by vm_compute in Hrun|].
  destruct (endpoints_follow_the_roles demo_world (Some demo_config) 3
              demo_buffers_ready st' cdc' [] Hrun eq_refl)
    as (assigned & procs & Hass & _ & Hlog & _).
  simpl. rewrite Hlog. vm_compute in Hass. injection Hass as <-. reflexivity.
Defined.

(** ** The histograms at the start *)

(** X26.  What [__init__] demands and what it builds.  The constructor
    returns only if every descriptor has at least one bin (with [nbins = 0]
    or [-1] the bin edges have no second element, with less the call of
    [linspace] fails).  The object then has one histogram per descriptor,
    all entries counters at zero, nothing drawn yet, and for every
    histogram a frequency array with [nbins] bins, all zero when the scale
    is linear. *)
Theorem animHists_initial_state {F : Type} `{PyNum F}
    (descr : list (Hdescr F)) (h : animHists F) :
  hist_init descr = inr h →
  nHist h = length descr ∧
  entries h = replicate (length descr) (of_Q 0) ∧
  rects h = None ∧ animtxts h = None ∧
  Forall2 (λ d f,
             1 <= h_nbins d ∧ length f = Z.to_nat (h_nbins d) ∧
             (h_type d = false → Forall (λ x, x = of_Q 0) f))
    descr (frqs h).
Proof.
  unfold hist_init.
  destruct (mapM check_nbins descr) as [e|us] eqn:Hchk; [done|].
  destruct (mapM initial_frqs descr) as [e|fs] eqn:Hfs; [done|].
  intros [= <-]. simpl. split_and!; try done.
  apply mapM_Forall2 in Hchk, Hfs.
  revert us Hchk. induction Hfs as [|d f descr fs Hf _ IH]; intros us Hchk;
    [constructor|].
  inversion Hchk as [|? u ? us' Hd Hrest]; subst.
  constructor; [|by eapply IH].
  unfold check_nbins in Hd. repeat case_bool_decide; try done.
  unfold initial_frqs in Hf. destruct (fdiv _ _); [|done].
  injection Hf as <-. split; [lia|]. split.
  - destruct (h_type d); by rewrite length_replicate.
  - intros ->. apply Forall_forall. by intros x [-> _]%elem_of_replicate.
Qed.

Lemma animHists_initial_state_witness :
  nHist demo_hist0 = 1%nat ∧ entries demo_hist0 = [(0 # 1)%Q] ∧
  rects demo_hist0 = None.
Proof.
  assert (hist_init demo_descr = inr demo_hist0) as Hinit by reflexivity.
  destruct (animHists_initial_state demo_descr demo_hist0 Hinit)
    as (Hn & Hent & Hrects & _).
  split; [exact Hn|]. split; [exact Hent|exact Hrects].
Defined.
